(** * event-manager: the EventTrigger deploy/undeploy engine

    A shallow embedding of the EventTrigger reconciler helpers
    (controllers package) and of the matcher functions of
    [controllers/transformations.go], with the properties of the
    specification that can be settled on them.

    Conventions.
    - Go values are modelled by the data they carry: [string] for strings,
      [list byte] for byte slices, [option] for values that may be nil,
      [gmap]/[gset] for maps and sets.
    - Functions that talk to the dispatcher or to an API server thread an
      explicit state and return the Go result tuple.
    - Library collaborators (dispatcher, cluster proxy, renderer, template
      expansion) are interfaces: type classes whose methods are parameters
      of the development. *)

From stdpp Require Import base list strings gmap sorting.
From Stdlib Require Import ZArith Ascii.
From Stdlib.Strings Require Import Byte.

Open Scope Z_scope.
Open Scope string_scope.
Open Scope list_scope.

(** ** Errors *)

Inductive ErrorKind := NotFoundErr | ConflictErr | OtherErr.

Record error := mkError { errKind : ErrorKind; Error : string }.

(** [fmt.Errorf] with a constant message. *)
Definition Errorf (msg : string) : error := mkError OtherErr msg.

Definition IsNotFound (e : error) : bool :=
  match errKind e with NotFoundErr => true | _ => false end.

Definition IsConflict (e : error) : bool :=
  match errKind e with ConflictErr => true | _ => false end.

Inductive result (A : Type) :=
| ok (a : A)
| fail (e : error).
Arguments ok {A} a.
Arguments fail {A} e.

#[global] Instance ErrorKind_eq_dec : EqDecision ErrorKind.
Proof. solve_decision. Defined.

#[global] Instance error_eq_dec : EqDecision error.
Proof. solve_decision. Defined.

(** ** Kubernetes object references and ClusterInfo *)

(** [corev1.ObjectReference]; [reflect.DeepEqual] on it is equality of
    the seven fields. *)
Record ObjectReference := mkRef {
  Kind : string;
  Namespace : string;
  Name : string;
  UID : string;
  APIVersion : string;
  ResourceVersion : string;
  FieldPath : string;
}.

#[global] Instance ObjectReference_eq_dec : EqDecision ObjectReference.
Proof. solve_decision. Defined.

#[global] Instance ObjectReference_countable : Countable ObjectReference.
Proof.
  refine (inj_countable'
    (fun r => (Kind r, Namespace r, Name r, UID r, APIVersion r,
               ResourceVersion r, FieldPath r))
    (fun t => match t with
              | (k, ns, n, u, a, rv, fp) => mkRef k ns n u a rv fp
              end) _).
  by intros [].
Defined.

Inductive ClusterType := ClusterTypeCapi | ClusterTypeSveltos.

#[global] Instance ClusterType_eq_dec : EqDecision ClusterType.
Proof. solve_decision. Defined.

(** [libsveltosv1beta1.SveltosFeatureStatus] is a string type. *)
Definition SveltosFeatureStatus := string.
Definition SveltosStatusProvisioning : SveltosFeatureStatus := "Provisioning".
Definition SveltosStatusProvisioned : SveltosFeatureStatus := "Provisioned".
Definition SveltosStatusFailed : SveltosFeatureStatus := "Failed".
Definition SveltosStatusRemoving : SveltosFeatureStatus := "Removing".
Definition SveltosStatusRemoved : SveltosFeatureStatus := "Removed".

#[global] Instance byte_eq_dec : EqDecision byte := Byte.byte_eq_dec.

(** [libsveltosv1beta1.ClusterInfo]. [Hash] is a byte slice that may be
    nil, [FailureMessage] a string pointer. *)
Record ClusterInfo := mkClusterInfo {
  Cluster : ObjectReference;
  Hash : option (list byte);
  Status : SveltosFeatureStatus;
  FailureMessage : option string;
}.

#[global] Instance ClusterInfo_eq_dec : EqDecision ClusterInfo.
Proof. solve_decision. Defined.

(** ** base64.StdEncoding.EncodeToString *)

Definition base64_alphabet : list ascii :=
  String.list_ascii_of_string
    "ABCDEFGHIJKLMNOPQRSTUVWXYZabcdefghijklmnopqrstuvwxyz0123456789+/".

Definition base64_char (n : N) : ascii :=
  nth (N.to_nat n) base64_alphabet "="%char.

Fixpoint base64_groups (l : list N) : list ascii :=
  match l with
  | [] => []
  | [a] =>
      [base64_char (N.shiftr a 2);
       base64_char (N.shiftl (N.land a 3) 4);
       "="%char; "="%char]
  | [a; b] =>
      [base64_char (N.shiftr a 2);
       base64_char (N.lor (N.shiftl (N.land a 3) 4) (N.shiftr b 4));
       base64_char (N.shiftl (N.land b 15) 2);
       "="%char]
  | a :: b :: c :: rest =>
      base64_char (N.shiftr a 2)
      :: base64_char (N.lor (N.shiftl (N.land a 3) 4) (N.shiftr b 4))
      :: base64_char (N.lor (N.shiftl (N.land b 15) 2) (N.shiftr c 6))
      :: base64_char (N.land c 63)
      :: base64_groups rest
  end.

Definition EncodeToString (src : list byte) : string :=
  String.string_of_list_ascii (base64_groups (map Byte.to_N src)).

(** [[]byte(s)] *)
Definition bytes_of_string (s : string) : list byte := String.list_byte_of_string s.

(** The hash stored for a cluster handled by another shard when none was
    recorded yet: [[]byte(base64("empty"))]. *)
Definition emptyHashSentinel : list byte :=
  bytes_of_string (EncodeToString (bytes_of_string "empty")).


(** ** Objects of the add-on and event APIs

    Types declared by libraries (libsveltos, addon-controller, client-go)
    carry the fields this package reads or writes; content it only copies
    is kept as an uninterpreted [Payload]. A Go map that may be nil is an
    [option (gmap _ _)]. *)

Definition Payload := string.

(** A label selector in its textual form; the zero value is the empty
    string. *)
Definition Selector := string.

Definition GoMap := option (gmap string string).

(** [metav1.Time] pointers: nil, or a time as an offset from the zero time. *)
Definition IsZero (t : option Z) : bool :=
  match t with
  | None => true
  | Some z => bool_decide (z = 0)
  end.

Module ValueFrom.
Record t := mk { Namespace : string; Name : string; Kind : string }.
End ValueFrom.

(** [configv1beta1.PolicyRef] *)
Module PolicyRef.
Record t := mk {
  Namespace : string; Name : string; Kind : string; DeploymentType : string;
}.
End PolicyRef.

(** [libsveltosv1beta1.PolicyRef], used as a map key by the sweeper. *)
Module LibPolicyRef.
Record t := mk { Kind : string; Namespace : string; Name : string }.
End LibPolicyRef.

#[global] Instance LibPolicyRef_eq_dec : EqDecision LibPolicyRef.t.
Proof. solve_decision. Defined.

#[global] Instance LibPolicyRef_countable : Countable LibPolicyRef.t.
Proof.
  refine (inj_countable'
    (fun r => (LibPolicyRef.Kind r, LibPolicyRef.Namespace r, LibPolicyRef.Name r))
    (fun t => match t with (k, ns, n) => LibPolicyRef.mk k ns n end) _).
  by intros [].
Defined.

Module HelmChart.
Record t := mk { ValuesFrom : list ValueFrom.t; Chart : Payload }.
End HelmChart.

Module KustomizationRef.
Record t := mk { ValuesFrom : list ValueFrom.t; Content : Payload }.
End KustomizationRef.

Module TemplateResourceRef.
Record t := mk { Resource : ObjectReference; Identifier : string }.
End TemplateResourceRef.

Module EventTrigger.
(** [EventTriggerSpec], api/v1beta1/eventtrigger_types.go *)
Record Spec_t := mkSpec {
  SourceClusterSelector : Selector;
  ClusterSetRefs : list string;
  OneForEvent : bool;
  EventSourceName : string;
  DestinationClusterSelector : Selector;
  SyncMode : string;
  Tier : Z;
  ContinueOnConflict : bool;
  MaxUpdate : option string;
  StopMatchingBehavior : string;
  Reloader : bool;
  TemplateResourceRefs : list TemplateResourceRef.t;
  PolicyRefs : list PolicyRef.t;
  HelmCharts : list HelmChart.t;
  KustomizationRefs : list KustomizationRef.t;
  ValidateHealths : list Payload;
  Patches : list Payload;
  ExtraLabels : GoMap;
  ExtraAnnotations : GoMap;
}.

(** [EventTriggerStatus] *)
Record Status_t := mkStatus {
  MatchingClusterRefs : list ObjectReference;
  DestinationMatchingClusterRefs : list ObjectReference;
  ClusterInfo : list ClusterInfo;
}.

(** [EventTrigger]: the object metadata this package reads, spec, status. *)
Record t := mk {
  Name : string;
  Labels : GoMap;
  Annotations : GoMap;
  DeletionTimestamp : option Z;
  Spec : Spec_t;
  Status : Status_t;
}.
End EventTrigger.
Abbreviation EventTrigger := EventTrigger.t.

(** [eScope.SetClusterInfo], and the assignment to
    [resource.Status.ClusterInfo]: the trigger with its ClusterInfo list
    replaced. *)
Definition SetClusterInfo (e : EventTrigger) (cis : list ClusterInfo)
  : EventTrigger :=
  EventTrigger.mk (EventTrigger.Name e) (EventTrigger.Labels e)
    (EventTrigger.Annotations e) (EventTrigger.DeletionTimestamp e)
    (EventTrigger.Spec e)
    (EventTrigger.mkStatus
       (EventTrigger.MatchingClusterRefs (EventTrigger.Status e))
       (EventTrigger.DestinationMatchingClusterRefs (EventTrigger.Status e))
       cis).

Module ConfigMap.
Record t := mk {
  Namespace : string; Name : string;
  Labels : GoMap; Annotations : GoMap;
  Data : GoMap;
}.
End ConfigMap.
Abbreviation ConfigMap := ConfigMap.t.

Module Secret.
Record t := mk {
  Namespace : string; Name : string;
  Labels : GoMap; Annotations : GoMap;
  Data : option (gmap string (list byte));
  SecretType : string;
}.
End Secret.
Abbreviation Secret := Secret.t.

(** [metav1.OwnerReference] *)
Module OwnerReference.
Record t := mk { APIVersion : string; Kind : string; Name : string; UID : string }.
End OwnerReference.

Module EventSource.
Record t := mk {
  Name : string;
  Labels : GoMap; Annotations : GoMap;
  OwnerReferences : list OwnerReference.t;
  Spec : Payload;
}.
End EventSource.
Abbreviation EventSource := EventSource.t.

Module EventReport.
Record Spec_t := mkSpec {
  ClusterNamespace : string;
  ClusterName : string;
  ClusterType : ClusterType;
  EventSourceName : string;
  MatchingResources : list ObjectReference;
  Resources : string;
}.
Record t := mk {
  Namespace : string; Name : string;
  Labels : GoMap;
  DeletionTimestamp : option Z;
  Spec : Spec_t;
}.
End EventReport.
Abbreviation EventReport := EventReport.t.

Module ClusterProfile.
(** [configv1beta1.Spec] *)
Record Spec_t := mkSpec {
  ClusterSelector : Selector;
  ClusterRefs : option (list ObjectReference);
  StopMatchingBehavior : string;
  SyncMode : string;
  Tier : Z;
  ContinueOnConflict : bool;
  Reloader : bool;
  MaxUpdate : option string;
  TemplateResourceRefs : option (list TemplateResourceRef.t);
  ValidateHealths : list Payload;
  Patches : list Payload;
  ExtraLabels : GoMap;
  ExtraAnnotations : GoMap;
  HelmCharts : list HelmChart.t;
  KustomizationRefs : list KustomizationRef.t;
  PolicyRefs : list PolicyRef.t;
}.
Record t := mk { Name : string; Labels : GoMap; Spec : Spec_t }.
End ClusterProfile.
Abbreviation ClusterProfile := ClusterProfile.t.

(** ** The dispatcher (libsveltos [deployer.DeployerInterface]) *)

(** The arguments that identify a dispatcher entry: cluster namespace and
    name, applicant (the trigger's name), feature id, cluster type and the
    direction ([cleanup = true] for undeploy). *)
Record DeployerKey := mkKey {
  keyClusterNamespace : string;
  keyClusterName : string;
  keyApplicant : string;
  keyFeatureID : string;
  keyClusterType : ClusterType;
  keyCleanup : bool;
}.

#[global] Instance DeployerKey_eq_dec : EqDecision DeployerKey.
Proof. solve_decision. Defined.

Inductive ResultStatus := Deployed | InProgress | Failed | Removed | Unavailable.

Module Result.
Record t := mk { ResultStatus : ResultStatus; Err : option error }.
End Result.

(** The two request handlers this package hands to the dispatcher. *)
Inductive RequestHandler :=
| processEventTriggerForClusterHandler
| undeployEventTriggerResourcesFromClusterHandler.

Class DeployerInterface (D : Type) := {
  CleanupEntries : D -> DeployerKey -> D;
  IsInProgress : D -> DeployerKey -> bool;
  GetResult : D -> DeployerKey -> Result.t * D;
  Deploy : D -> DeployerKey -> RequestHandler -> option error * D;
}.

(** Calls made on the dispatcher, in order. *)
Inductive DeployerCall :=
| CallCleanupEntries (k : DeployerKey)
| CallIsInProgress (k : DeployerKey)
| CallGetResult (k : DeployerKey)
| CallDeploy (k : DeployerKey) (h : RequestHandler).

Definition callKey (c : DeployerCall) : DeployerKey :=
  match c with
  | CallCleanupEntries k | CallIsInProgress k | CallGetResult k
  | CallDeploy k _ => k
  end.

Definition isDeployCall (c : DeployerCall) : bool :=
  match c with CallDeploy _ _ => true | _ => false end.

(** ** API servers

    The management cluster's objects this package reads and writes, the
    EventSources of the managed cluster at hand, and a schedule of
    injected failures: every API request consumes the head of [faults]
    and fails with it when it is an error. Requests are otherwise served
    from the maps; no other writer is modelled. *)
Record ApiServer := mkApi {
  storedEventTriggers : gmap string EventTrigger;
  storedClusterProfiles : gmap string ClusterProfile;
  storedConfigMaps : gmap (string * string) ConfigMap;
  storedSecrets : gmap (string * string) Secret;
  storedEventReports : gmap (string * string) EventReport;
  storedEventSources : gmap string EventSource;
  faults : list (option error);
}.

Definition setEventTriggers (a : ApiServer) v : ApiServer :=
  mkApi v (storedClusterProfiles a) (storedConfigMaps a) (storedSecrets a) (storedEventReports a)
        (storedEventSources a) (faults a).
Definition setClusterProfiles (a : ApiServer) v : ApiServer :=
  mkApi (storedEventTriggers a) v (storedConfigMaps a) (storedSecrets a) (storedEventReports a)
        (storedEventSources a) (faults a).
Definition setConfigMaps (a : ApiServer) v : ApiServer :=
  mkApi (storedEventTriggers a) (storedClusterProfiles a) v (storedSecrets a) (storedEventReports a)
        (storedEventSources a) (faults a).
Definition setSecrets (a : ApiServer) v : ApiServer :=
  mkApi (storedEventTriggers a) (storedClusterProfiles a) (storedConfigMaps a) v (storedEventReports a)
        (storedEventSources a) (faults a).
Definition setEventReports (a : ApiServer) v : ApiServer :=
  mkApi (storedEventTriggers a) (storedClusterProfiles a) (storedConfigMaps a) (storedSecrets a) v
        (storedEventSources a) (faults a).
Definition setEventSources (a : ApiServer) v : ApiServer :=
  mkApi (storedEventTriggers a) (storedClusterProfiles a) (storedConfigMaps a) (storedSecrets a)
        (storedEventReports a) v (faults a).
Definition setFaults (a : ApiServer) v : ApiServer :=
  mkApi (storedEventTriggers a) (storedClusterProfiles a) (storedConfigMaps a) (storedSecrets a)
        (storedEventReports a) (storedEventSources a) v.

(** The injected outcome of the next request. *)
Definition takeFault (a : ApiServer) : option error * ApiServer :=
  match faults a with
  | [] => (None, a)
  | f :: fs => (f, setFaults a fs)
  end.

Definition notFound (what : string) : error :=
  mkError NotFoundErr (what +:+ " not found").

(** [c.Get(ctx, types.NamespacedName{Name: name}, &EventTrigger{})] *)
Definition getEventTrigger (name : string) (a : ApiServer)
  : result EventTrigger * ApiServer :=
  match takeFault a with
  | (Some e, a1) => (fail e, a1)
  | (None, a1) =>
      match storedEventTriggers a1 !! name with
      | Some e => (ok e, a1)
      | None => (fail (notFound "eventtrigger"), a1)
      end
  end.

(** [c.Status().Update(ctx, resource)]: replaces the status of the stored
    object. *)
Definition statusUpdateEventTrigger (resource : EventTrigger) (a : ApiServer)
  : option error * ApiServer :=
  match takeFault a with
  | (Some e, a1) => (Some e, a1)
  | (None, a1) =>
      match storedEventTriggers a1 !! EventTrigger.Name resource with
      | Some stored =>
          (None,
           setEventTriggers a1
             (<[EventTrigger.Name resource :=
                  SetClusterInfo stored
                    (EventTrigger.ClusterInfo (EventTrigger.Status resource))]>
                (storedEventTriggers a1)))
      | None => (Some (notFound "eventtrigger"), a1)
      end
  end.

(** [retry.RetryOnConflict(backoff, fn)] of client-go: [fn] is run until
    it succeeds, fails with an error that is not a conflict, or
    [steps] attempts were made; in the last case the last conflict is
    returned. *)
Fixpoint RetryOnConflict (steps : nat) (fn : ApiServer -> option error * ApiServer)
    (lastErr : option error) (a : ApiServer) : option error * ApiServer :=
  match steps with
  | O => (lastErr, a)
  | S n =>
      match fn a with
      | (None, a1) => (None, a1)
      | (Some e, a1) =>
          if IsConflict e then RetryOnConflict n fn (Some e) a1
          else (Some e, a1)
      end
  end.

(** [retry.DefaultRetry.Steps] *)
Definition DefaultRetrySteps : nat := 5.

(** ** Cluster proxy, sharding and pause helpers (libsveltos, cluster-api)

    Reads of the cluster objects; their answers do not change during one
    reconcile pass. *)
Class ClusterProxy := {
  ClusterObject : Type;
  GetClusterType : ObjectReference -> ClusterType;
  GetCluster : string -> string -> ClusterType -> result ClusterObject;
  IsClusterPaused : string -> string -> ClusterType -> result bool;
  IsClusterReadyToBeConfigured : ObjectReference -> result bool;
  (** [sharding.IsShardAMatch(shardKey, cluster)] *)
  IsShardAMatch : string -> ClusterObject -> bool;
  (** [annotations.HasPaused(resource)], on the annotations of the object *)
  HasPaused : GoMap -> bool;
}.

(** ** Fingerprint inputs *)

(** The objects [fetchReferencedResources] returns. [eventTriggerHash]
    panics on any other dynamic type; the type excludes them. *)
Inductive ReferencedObject :=
| RefConfigMap (cm : ConfigMap)
| RefSecret (s : Secret)
| RefEventSource (es : EventSource)
| RefEventReport (er : EventReport).

(** [fetchReferencedResources] is defined outside the files at hand. *)
Class ReferencedResources := {
  fetchReferencedResources :
    EventTrigger -> ObjectReference -> result (list ReferencedObject);
}.

(** The order in which the Go runtime hands out the entries of a map:
    some enumeration of its entries, not fixed by the language. *)
Class GoRuntime := {
  mapRange : forall {K : Type} `{Countable K} {V : Type},
    gmap K V -> list (K * V);
  mapRange_perm : forall (K : Type) `{Countable K} (V : Type) (m : gmap K V),
    mapRange m ≡ₚ map_to_list m;
  (** [Items()] of a libsveltos [Set], which ranges over a map. *)
  setItems : forall {K : Type} `{Countable K}, gset K -> list K;
  setItems_perm : forall (K : Type) `{Countable K} (s : gset K),
    setItems s ≡ₚ elements s;
}.

(** [render.AsCode] (go-render) at the types it is applied to, and
    SHA-256; neither is among the files. A map is rendered from its
    entries as the runtime enumerates them. *)
Class GoRender := {
  AsCode_Spec : EventTrigger.Spec_t -> string;
  AsCode_map : option (list (string * string)) -> string;
  AsCode_bytesMap : option (list (string * list byte)) -> string;
  AsCode_EventSourceSpec : Payload -> string;
  AsCode_EventReportSpec : EventReport.Spec_t -> string;
  sha256 : string -> list byte;
}.

Section Fingerprint.
Context `{!GoRuntime} `{!GoRender} `{!ReferencedResources}.

(** One iteration of the loop of [eventTriggerHash]: the text appended
    for a referenced resource. *)
Definition renderReferenced (r : ReferencedObject) : string :=
  match r with
  | RefConfigMap cm => AsCode_map (mapRange <$> ConfigMap.Data cm)
  | RefSecret s => AsCode_bytesMap (mapRange <$> Secret.Data s)
  | RefEventSource es => AsCode_EventSourceSpec (EventSource.Spec es)
  | RefEventReport er => AsCode_EventReportSpec (EventReport.Spec er)
  end.

Fixpoint renderAll (config : string) (resources : list ReferencedObject)
  : string :=
  match resources with
  | [] => config
  | r :: rest => renderAll (config +:+ renderReferenced r) rest
  end.

(** The text that is hashed, given the fetched resources. *)
Definition hashInput (e : EventTrigger) (resources : list ReferencedObject)
  : string :=
  let config := AsCode_Spec (EventTrigger.Spec e) in
  let config := config +:+ AsCode_map (mapRange <$> EventTrigger.Labels e) in
  renderAll config resources.

Definition eventTriggerHash (e : EventTrigger) (cluster : ObjectReference)
  : result (list byte) :=
  match fetchReferencedResources e cluster with
  | fail err => fail err
  | ok resources => ok (sha256 (hashInput e resources))
  end.

End Fingerprint.

(** ** The per-(trigger, cluster) state machine *)

(** [feature]: only its id is read on the paths modelled here. *)
Record feature := mkFeature { id : string }.

(** [EventTriggerReconciler]: the shard key; its client and dispatcher
    are the [World] below. *)
Record EventTriggerReconciler := mkReconciler { ShardKey : string }.

Section Reconciler.
Context {D : Type} `{!DeployerInterface D} `{!ClusterProxy}.
Context `{!GoRuntime} `{!GoRender} `{!ReferencedResources}.

(** What a reconcile pass changes: the dispatcher (with the trace of the
    calls made on it) and the management cluster's API server. *)
Record World := mkWorld {
  deployer : D;
  calls : list DeployerCall;
  api : ApiServer;
}.

Definition doCleanupEntries (k : DeployerKey) (w : World) : World :=
  mkWorld (CleanupEntries (deployer w) k)
          (calls w ++ [CallCleanupEntries k]) (api w).

Definition doIsInProgress (k : DeployerKey) (w : World) : bool * World :=
  (IsInProgress (deployer w) k,
   mkWorld (deployer w) (calls w ++ [CallIsInProgress k]) (api w)).

Definition doGetResult (k : DeployerKey) (w : World) : Result.t * World :=
  let '(res, d) := GetResult (deployer w) k in
  (res, mkWorld d (calls w ++ [CallGetResult k]) (api w)).

Definition doDeploy (k : DeployerKey) (h : RequestHandler) (w : World)
  : option error * World :=
  let '(err, d) := Deploy (deployer w) k h in
  (err, mkWorld d (calls w ++ [CallDeploy k h]) (api w)).

Definition isClusterAShardMatch (r : EventTriggerReconciler)
    (clusterInfo : ClusterInfo) : bool * option error :=
  let clusterType := GetClusterType (Cluster clusterInfo) in
  match GetCluster (Namespace (Cluster clusterInfo))
                   (Name (Cluster clusterInfo)) clusterType with
  | fail err =>
      if IsNotFound err then (true, None) else (false, Some err)
  | ok cluster => (IsShardAMatch (ShardKey r) cluster, None)
  end.

Definition isClusterInfoForCluster (clusterInfo : ClusterInfo)
    (clusterNamespace clusterName : string) (clusterType : ClusterType) : bool :=
  bool_decide (Namespace (Cluster clusterInfo) = clusterNamespace)
  && bool_decide (Name (Cluster clusterInfo) = clusterName)
  && bool_decide (GetClusterType (Cluster clusterInfo) = clusterType).

(** The first entry of the list for the given cluster, with its index:
    the [for i := range ...] loops that return at the first match. *)
Definition findClusterInfo (cis : list ClusterInfo)
    (clusterNamespace clusterName : string) (clusterType : ClusterType)
  : option (nat * ClusterInfo) :=
  list_find
    (fun cc => isClusterInfoForCluster cc clusterNamespace clusterName
                 clusterType = true) cis.

Definition isClusterEntryRemoved (resource : EventTrigger)
    (cluster : ObjectReference) : bool :=
  match findClusterInfo (EventTrigger.ClusterInfo (EventTrigger.Status resource))
          (Namespace cluster) (Name cluster) (GetClusterType cluster) with
  | Some _ => false
  | None => true
  end.

Definition convertResultStatus (result : Result.t)
  : option SveltosFeatureStatus :=
  match Result.ResultStatus result with
  | Deployed => Some SveltosStatusProvisioned
  | Failed => Some SveltosStatusFailed
  | InProgress => Some SveltosStatusProvisioning
  | Removed => Some SveltosStatusRemoved
  | Unavailable => None
  end.

Definition getClusterHashAndStatus (resource : EventTrigger)
    (cluster : ObjectReference)
  : option (list byte) * option SveltosFeatureStatus :=
  match findClusterInfo (EventTrigger.ClusterInfo (EventTrigger.Status resource))
          (Namespace cluster) (Name cluster) (GetClusterType cluster) with
  | Some (_, clusterInfo) => (Hash clusterInfo, Some (Status clusterInfo))
  | None => (None, None)
  end.

Definition isPaused (cluster : ObjectReference) (resource : EventTrigger)
  : result bool :=
  match IsClusterPaused (Namespace cluster) (Name cluster)
          (GetClusterType cluster) with
  | fail err => if IsNotFound err then ok false else fail err
  | ok isClusterPaused =>
      if isClusterPaused then ok true
      else ok (HasPaused (EventTrigger.Annotations resource))
  end.

Definition canProceed (resource : EventTrigger) (cluster : ObjectReference)
  : result bool :=
  match isPaused cluster resource with
  | fail err => fail err
  | ok paused =>
      if paused then ok false
      else
        match IsClusterReadyToBeConfigured cluster with
        | fail err => fail err
        | ok ready => if ready then ok true else ok false
        end
  end.

Definition isClusterStillMatching (resource : EventTrigger)
    (cluster : ObjectReference) : bool :=
  bool_decide
    (cluster ∈ EventTrigger.MatchingClusterRefs (EventTrigger.Status resource)).

(** [remove(s, i)]: the last element is copied over slot [i] and the
    slice is shortened by one. Go panics when [s] is empty or [i] is out
    of range; the single caller passes the index of an element of [s]. *)
Definition remove (s : list ClusterInfo) (i : nat) : list ClusterInfo :=
  match s !! (length s - 1)%nat with
  | Some lastElem => take (length s - 1) (<[i := lastElem]> s)
  | None => s
  end.

(** The function retried by [removeClusterInfoEntry]. *)
Definition removeClusterInfoEntryAttempt
    (clusterNamespace clusterName : string) (clusterType : ClusterType)
    (resource : EventTrigger) (a : ApiServer) : option error * ApiServer :=
  match getEventTrigger (EventTrigger.Name resource) a with
  | (fail err, a1) => (Some err, a1)
  | (ok currentResource, a1) =>
      let cis := EventTrigger.ClusterInfo (EventTrigger.Status currentResource) in
      match findClusterInfo cis clusterNamespace clusterName clusterType with
      | Some (i, _) =>
          statusUpdateEventTrigger
            (SetClusterInfo currentResource (remove cis i)) a1
      | None => (None, a1)
      end
  end.

Definition removeClusterInfoEntry
    (clusterNamespace clusterName : string) (clusterType : ClusterType)
    (resource : EventTrigger) (a : ApiServer) : option error * ApiServer :=
  RetryOnConflict DefaultRetrySteps
    (removeClusterInfoEntryAttempt clusterNamespace clusterName clusterType
       resource)
    None a.

Definition setApi (w : World) (a : ApiServer) : World :=
  mkWorld (deployer w) (calls w) a.

Definition deployerKey (cluster : ObjectReference) (resource : EventTrigger)
    (f : feature) (cleanup : bool) : DeployerKey :=
  mkKey (Namespace cluster) (Name cluster) (EventTrigger.Name resource) (id f)
        (GetClusterType cluster) cleanup.

Definition removeEventTrigger (resource : EventTrigger)
    (cluster : ObjectReference) (f : feature) (w : World)
  : (option ClusterInfo * option error) * World :=
  (* Remove any queued entry to deploy/evaluate *)
  let w := doCleanupEntries (deployerKey cluster resource f false) w in
  let '(inProgress, w) :=
    doIsInProgress (deployerKey cluster resource f false) w in
  if inProgress then
    ((None,
      Some (Errorf ("deploying " +:+ id f
                    +:+ " still in progress. Wait before cleanup"))), w)
  else if isClusterEntryRemoved resource cluster then
    ((None, None), w)
  else
    let '(result, w) := doGetResult (deployerKey cluster resource f true) w in
    let status := convertResultStatus result in
    let clusterInfo :=
      mkClusterInfo cluster None SveltosStatusRemoving None in
    let queue (w : World) :=
      match doDeploy (deployerKey cluster resource f true)
              undeployEventTriggerResourcesFromClusterHandler w with
      | (Some err, w) => ((None, Some err), w)
      | (None, w) =>
          ((Some clusterInfo, Some (Errorf "cleanup request is queued")), w)
      end in
    match status with
    | Some st =>
        if bool_decide (st = SveltosStatusRemoving) then
          ((Some clusterInfo, Some (Errorf "feature is still being removed")), w)
        else if bool_decide (st = SveltosStatusRemoved) then
          match removeClusterInfoEntry (Namespace cluster) (Name cluster)
                  (GetClusterType cluster) resource (api w) with
          | (Some err, a) => ((None, Some err), setApi w a)
          | (None, a) =>
              ((Some (mkClusterInfo cluster None SveltosStatusRemoved None),
                None), setApi w a)
          end
        else queue w
    | None => queue w
    end.

(** The zero value of [deployer.Result], the value of [result] when the
    dispatcher was not asked. *)
Definition zeroResult : Result.t := Result.mk Deployed None.

Definition processEventTrigger (resource : EventTrigger)
    (cluster : ObjectReference) (f : feature) (w : World)
  : (option ClusterInfo * option error) * World :=
  if negb (isClusterStillMatching resource cluster) then
    removeEventTrigger resource cluster f w
  else
    match eventTriggerHash resource cluster with
    | fail err => ((None, Some err), w)
    | ok currentHash =>
    match canProceed resource cluster with
    | fail err => ((None, Some err), w)
    | ok false => ((None, None), w)
    | ok true =>
    (* Remove any queued entry to cleanup *)
    let w := doCleanupEntries (deployerKey cluster resource f true) w in
    let '(inProgress, w) :=
      doIsInProgress (deployerKey cluster resource f true) w in
    if inProgress then
      ((None,
        Some (Errorf ("cleanup of " +:+ id f
                      +:+ " in cluster still in progress. Wait before redeploying"))),
       w)
    else
    let '(hash, currentStatus) := getClusterHashAndStatus resource cluster in
    let isConfigSame := bool_decide (hash = Some currentHash) in
    let '(status, result, w) :=
      if isConfigSame then
        let '(result, w) :=
          doGetResult (deployerKey cluster resource f false) w in
        (convertResultStatus result, result, w)
      else (None, zeroResult, w) in
    (* the return statement that ends the function *)
    let final (st : SveltosFeatureStatus) (w : World) :=
      ((Some (mkClusterInfo cluster (Some currentHash) st None), None), w) in
    match status with
    | Some st =>
        let errorMessage :=
          match Result.Err result with
          | Some e => Error e
          | None => ""
          end in
        let clusterInfo :=
          mkClusterInfo cluster (Some currentHash) st (Some errorMessage) in
        if bool_decide (st = SveltosStatusProvisioned) then
          ((Some clusterInfo, None), w)
        else if bool_decide (st = SveltosStatusProvisioning) then
          ((Some clusterInfo,
            Some (Errorf "EventTrigger is still being provisioned")), w)
        else final st w
    | None =>
        if isConfigSame
           && bool_decide (currentStatus = Some SveltosStatusProvisioned) then
          final SveltosStatusProvisioned w
        else
          match doDeploy (deployerKey cluster resource f false)
                  processEventTriggerForClusterHandler w with
          | (Some err, w) => ((None, Some err), w)
          | (None, w) => final SveltosStatusProvisioning w
          end
    end
    end
    end.

(** How the loop of [deployEventTrigger] ends: by the early return on a
    shard lookup error, or after the last entry with the values of
    [errorSeen] and [allProcessed]. *)
Inductive LoopExit :=
| ShardLookupFailed (err : error)
| LoopDone (errorSeen : option error) (allProcessed : bool).

(** The body of the loop for index [i], then the remaining indices. The
    in-memory trigger is threaded through: its ClusterInfo list is
    written in place and read by the later iterations. *)
Fixpoint deployEventTriggerLoop (r : EventTriggerReconciler) (f : feature)
    (indices : list nat) (resource : EventTrigger)
    (errorSeen : option error) (allProcessed : bool) (w : World)
  : LoopExit * EventTrigger * World :=
  match indices with
  | [] => (LoopDone errorSeen allProcessed, resource, w)
  | i :: rest =>
      let cis := EventTrigger.ClusterInfo (EventTrigger.Status resource) in
      match cis !! i with
      | None => (LoopDone errorSeen allProcessed, resource, w)
      | Some c =>
          match isClusterAShardMatch r c with
          | (_, Some err) => (ShardLookupFailed err, resource, w)
          | (false, None) =>
              let allProcessed :=
                if bool_decide (Status c = SveltosStatusProvisioned)
                then allProcessed else false in
              let c' :=
                match Hash c with
                | None =>
                    mkClusterInfo (Cluster c) (Some emptyHashSentinel)
                                  (Status c) (FailureMessage c)
                | Some _ => c
                end in
              deployEventTriggerLoop r f rest
                (SetClusterInfo resource (<[i := c']> cis))
                errorSeen allProcessed w
          | (true, None) =>
              let '((clusterInfo, err), w) :=
                processEventTrigger resource (Cluster c) f w in
              let errorSeen :=
                match err with Some _ => err | None => errorSeen end in
              match clusterInfo with
              | Some ci =>
                  let allProcessed :=
                    if bool_decide (Status ci = SveltosStatusProvisioned)
                    then allProcessed else false in
                  deployEventTriggerLoop r f rest
                    (SetClusterInfo resource (<[i := ci]> cis))
                    errorSeen allProcessed w
              | None =>
                  deployEventTriggerLoop r f rest resource
                    errorSeen allProcessed w
              end
          end
      end
  end.

Definition stillQueued : error :=
  Errorf "request to process EventTrigger is still queued in one ore more clusters".

Definition deployEventTrigger (r : EventTriggerReconciler)
    (resource : EventTrigger) (f : feature) (w : World)
  : option error * EventTrigger * World :=
  let n := length (EventTrigger.ClusterInfo (EventTrigger.Status resource)) in
  match deployEventTriggerLoop r f (seq 0 n) resource None true w with
  | (ShardLookupFailed err, resource, w) => (Some err, resource, w)
  | (LoopDone errorSeen allProcessed, resource, w) =>
      let resource :=
        SetClusterInfo resource
          (EventTrigger.ClusterInfo (EventTrigger.Status resource)) in
      match errorSeen with
      | Some err => (Some err, resource, w)
      | None =>
          if negb allProcessed then (Some stillQueued, resource, w)
          else (None, resource, w)
      end
  end.

End Reconciler.
Arguments World D : clear implicits.

(** ** Requests served from the API server maps *)

(** [client.MatchingLabels(selector)]: every selector entry is a label of
    the object. *)
Definition matchesLabels (selector : gmap string string) (labels : GoMap) : bool :=
  forallb
    (fun kv : string * string =>
       bool_decide (default ∅ labels !! kv.1 = Some kv.2))
    (map_to_list selector).

Section Requests.
Context {K V : Type} `{Countable K}.

(** [List]: the stored objects that pass [sel]. *)
Definition listObjects (field : ApiServer -> gmap K V) (sel : V -> bool)
    (a : ApiServer) : result (list V) * ApiServer :=
  match takeFault a with
  | (Some e, a1) => (fail e, a1)
  | (None, a1) => (ok (List.filter sel (map_to_list (field a1)).*2), a1)
  end.

Definition getObject (field : ApiServer -> gmap K V) (key : K)
    (a : ApiServer) : result V * ApiServer :=
  match takeFault a with
  | (Some e, a1) => (fail e, a1)
  | (None, a1) =>
      match field a1 !! key with
      | Some v => (ok v, a1)
      | None => (fail (notFound "object"), a1)
      end
  end.

Definition deleteObject (field : ApiServer -> gmap K V)
    (setField : ApiServer -> gmap K V -> ApiServer) (key : K)
    (a : ApiServer) : option error * ApiServer :=
  match takeFault a with
  | (Some e, a1) => (Some e, a1)
  | (None, a1) =>
      match field a1 !! key with
      | Some _ => (None, setField a1 (delete key (field a1)))
      | None => (Some (notFound "object"), a1)
      end
  end.

Definition updateObject (field : ApiServer -> gmap K V)
    (setField : ApiServer -> gmap K V -> ApiServer) (key : K) (v : V)
    (a : ApiServer) : option error * ApiServer :=
  match takeFault a with
  | (Some e, a1) => (Some e, a1)
  | (None, a1) =>
      match field a1 !! key with
      | Some _ => (None, setField a1 (<[key := v]> (field a1)))
      | None => (Some (notFound "object"), a1)
      end
  end.

Definition createObject (field : ApiServer -> gmap K V)
    (setField : ApiServer -> gmap K V -> ApiServer) (key : K) (v : V)
    (a : ApiServer) : option error * ApiServer :=
  match takeFault a with
  | (Some e, a1) => (Some e, a1)
  | (None, a1) =>
      match field a1 !! key with
      | Some _ => (Some (Errorf "object already exists"), a1)
      | None => (None, setField a1 (<[key := v]> (field a1)))
      end
  end.

End Requests.

(** ** Remote EventSource cleanup *)

(** String values of [libsveltosv1beta1.ClusterType]. *)
Definition clusterTypeString (t : ClusterType) : string :=
  match t with
  | ClusterTypeCapi => "Capi"
  | ClusterTypeSveltos => "Sveltos"
  end.

(** [strings.ToLower(string(clusterType))] *)
Definition clusterTypeLower (t : ClusterType) : string :=
  match t with
  | ClusterTypeCapi => "capi"
  | ClusterTypeSveltos => "sveltos"
  end.

(** Label and annotation keys declared by libsveltos. *)
Class LibsveltosKeys := {
  EventReportClusterNameLabel : string;
  EventReportClusterTypeLabel : string;
  EventSourceNameLabel : string;
  ServiceAccountNameLabel : string;
  ServiceAccountNamespaceLabel : string;
}.

(** Owner-reference helpers: [util.IsOwnedByObject] (cluster-api) and
    [deployer.RemoveOwnerReference] (libsveltos), on the owner-reference
    list of the object. *)
Class OwnerRefs := {
  IsOwnedByObject : list OwnerReference.t -> EventTrigger -> bool;
  RemoveOwnerReference :
    list OwnerReference.t -> EventTrigger -> list OwnerReference.t;
}.

Section StaleEventSources.
Context `{!LibsveltosKeys} `{!OwnerRefs}.

(** [clusterproxy.GetKubernetesClient]: a request that may fail. *)
Definition GetKubernetesClient (a : ApiServer) : option error * ApiServer :=
  takeFault a.

Definition withOwnerReferences (es : EventSource)
    (refs : list OwnerReference.t) : EventSource :=
  EventSource.mk (EventSource.Name es) (EventSource.Labels es)
    (EventSource.Annotations es) refs (EventSource.Spec es).

(** The deletion loop of [removeStaleEventReports]. *)
Fixpoint deleteEventReports (items : list EventReport) (a : ApiServer)
  : option error * ApiServer :=
  match items with
  | [] => (None, a)
  | er :: rest =>
      match deleteObject storedEventReports setEventReports
              (EventReport.Namespace er, EventReport.Name er) a with
      | (Some err, a1) => (Some err, a1)
      | (None, a1) => deleteEventReports rest a1
      end
  end.

Definition staleEventReportSelector
    (clusterNamespace clusterName eventSourceName : string)
    (clusterType : ClusterType) (er : EventReport) : bool :=
  bool_decide (EventReport.Namespace er = clusterNamespace)
  && matchesLabels
       (<[EventSourceNameLabel := eventSourceName]>
          (<[EventReportClusterTypeLabel := clusterTypeLower clusterType]>
             (<[EventReportClusterNameLabel := clusterName]> ∅)))
       (EventReport.Labels er).

Definition removeStaleEventReports
    (clusterNamespace clusterName eventSourceName : string)
    (clusterType : ClusterType) (a : ApiServer) : option error * ApiServer :=
  match listObjects storedEventReports
          (staleEventReportSelector clusterNamespace clusterName
             eventSourceName clusterType) a with
  | (fail err, a1) => (Some err, a1)
  | (ok items, a1) => deleteEventReports items a1
  end.

(** The loop of [removeStaleEventSources] over the listed EventSources. *)
Fixpoint removeStaleEventSourcesLoop
    (clusterNamespace clusterName : string) (clusterType : ClusterType)
    (resource : EventTrigger) (removeAll : bool)
    (items : list EventSource) (a : ApiServer) : option error * ApiServer :=
  match items with
  | [] => (None, a)
  | es :: rest =>
      let continue := removeStaleEventSourcesLoop clusterNamespace clusterName
                        clusterType resource removeAll rest in
      if negb removeAll
         && IsZero (EventTrigger.DeletionTimestamp resource)
         && bool_decide (EventSource.Name es
                         = EventTrigger.EventSourceName (EventTrigger.Spec resource))
      then
        (* eventTrigger still exists and eventSource is still referenced *)
        continue a
      else if negb (IsOwnedByObject (EventSource.OwnerReferences es) resource)
      then continue a
      else
        let es :=
          withOwnerReferences es
            (RemoveOwnerReference (EventSource.OwnerReferences es) resource) in
        if negb (bool_decide (length (EventSource.OwnerReferences es) = 0%nat))
        then
          match updateObject storedEventSources setEventSources
                  (EventSource.Name es) es a with
          | (Some err, a1) => (Some err, a1)
          | (None, a1) => continue a1
          end
        else
          match removeStaleEventReports clusterNamespace clusterName
                  (EventSource.Name es) clusterType a with
          | (Some _, a1) => (None, a1)
          | (None, a1) =>
              match deleteObject storedEventSources setEventSources
                      (EventSource.Name es) a1 with
              | (Some err, a2) => (Some err, a2)
              | (None, a2) => continue a2
              end
          end
  end.

Definition removeStaleEventSources
    (clusterNamespace clusterName : string) (clusterType : ClusterType)
    (resource : EventTrigger) (removeAll : bool) (a : ApiServer)
  : option error * ApiServer :=
  match GetKubernetesClient a with
  | (Some err, a1) => (Some err, a1)
  | (None, a1) =>
      match listObjects storedEventSources (fun _ => true) a1 with
      | (fail err, a2) => (Some err, a2)
      | (ok items, a2) =>
          removeStaleEventSourcesLoop clusterNamespace clusterName clusterType
            resource removeAll items a2
      end
  end.

End StaleEventSources.

(** ** Names of derived objects *)

(** [util.RandomString(n)] (cluster-api): draws from a random source [G]. *)
Class Random (G : Type) := {
  RandomString : nat -> G -> string * G;
  RandomString_length : forall n g, String.length (RandomString n g).1 = n;
}.

Section InstantiatedObjectName.
Context {G : Type} `{!Random G}.

Definition nameLength : nat := 20.

(** [objects] carries the names of the listed objects. The results are
    [name], [create] and [err]; the Go results are named, so on the error
    path [name] is empty and [create] false. *)
Definition getInstantiatedObjectName (objects : list string) (g : G)
  : (string * bool * option error) * G :=
  let prefix := "sveltos-" in
  match objects with
  | [] =>
      let '(rnd, g) := RandomString nameLength g in
      ((prefix +:+ rnd, true, None), g)
  | [object] => ((object, false, None), g)
  | _ => (("", false, Some (Errorf "more than one resource")), g)
  end.

End InstantiatedObjectName.

(** ** Template expansion and the sweeper *)

Definition ReportNamespace : string := "projectsveltos".

Definition eventReportNameLabel : string :=
  "eventtrigger.lib.projectsveltos.io/eventreportname".
Definition eventTriggerNameLabel : string :=
  "eventtrigger.lib.projectsveltos.io/eventtriggername".
Definition clusterNamespaceLabel : string :=
  "eventtrigger.lib.projectsveltos.io/clusterNamespace".
Definition clusterNameLabel : string :=
  "eventtrigger.lib.projectsveltos.io/clustername".
Definition clusterTypeLabel : string :=
  "eventtrigger.lib.projectsveltos.io/clustertype".
Definition referencedResourceNamespaceLabel : string :=
  "eventtrigger.lib.projectsveltos.io/refnamespace".
Definition referencedResourceNameLabel : string :=
  "eventtrigger.lib.projectsveltos.io/refname".

(** [strings.Split(s, sep)] for a non-empty separator: [skip] counts the
    characters of a separator still to be dropped, [acc] holds the
    current piece in reverse. *)
Fixpoint splitFrom (sep : string) (skip : nat) (acc : list ascii) (s : string)
  : list string :=
  match s with
  | EmptyString => [String.string_of_list_ascii (rev acc)]
  | String c s' =>
      match skip with
      | S k => splitFrom sep k acc s'
      | O =>
          if String.prefix sep s then
            String.string_of_list_ascii (rev acc)
            :: splitFrom sep (String.length sep - 1) [] s'
          else splitFrom sep O (c :: acc) s'
      end
  end.

Definition Split (s sep : string) : list string := splitFrom sep 0 [] s.

Definition getInstantiatedObjectLabels
    (clusterNamespace clusterName eventTriggerName : string)
    (er : option EventReport) (clusterType : ClusterType)
  : gmap string string :=
  let labels : gmap string string :=
    <[clusterTypeLabel := clusterTypeString clusterType]>
      (<[clusterNameLabel := clusterName]>
         (<[clusterNamespaceLabel := clusterNamespace]>
            (<[eventTriggerNameLabel := eventTriggerName]> ∅))) in
  (* When deleting all resources created by an EventTrigger, er is nil *)
  match er with
  | Some er => <[eventReportNameLabel := EventReport.Name er]> labels
  | None => labels
  end.

Definition getInstantiatedObjectLabelsForResource
    (resourceNamespace resourceName : string) : gmap string string :=
  let labels : gmap string string :=
    <["eventtrigger.lib.projectsveltos.io/resourcename" := resourceName]> ∅ in
  if negb (bool_decide (resourceNamespace = "")) then
    <["eventtrigger.lib.projectsveltos.io/resourcenamespace" := resourceNamespace]>
      labels
  else labels.

(** [for k, v := range tmpLabels { labels[k] = v }] *)
Definition copyLabels (tmpLabels labels : gmap string string)
  : gmap string string :=
  tmpLabels ∪ labels.

(** Unstructured objects, YAML decoding of one document, and the
    conversion of a cluster object to unstructured content
    (apimachinery, libsveltos). [Content] is a [map[string]interface{}]. *)
Class UnstructuredObjects `{!ClusterProxy} := {
  Unstructured : Type;
  Content : Type;
  GetUnstructured : string -> result Unstructured;
  UnstructuredContent : Unstructured -> Content;
  GetAPIVersion : Unstructured -> string;
  GetKind : Unstructured -> string;
  GetNamespace : Unstructured -> string;
  GetName : Unstructured -> string;
  ToUnstructured : ClusterObject -> result Content;
}.

Section TemplateObjects.
Context `{!ClusterProxy} `{!UnstructuredObjects}.

(** The loop of [getResources] over the pieces of [Spec.Resources]. *)
Fixpoint getResourcesLoop (elements : list string) (acc : list Unstructured)
  : result (list Unstructured) :=
  match elements with
  | [] => ok acc
  | element :: rest =>
      if bool_decide (element = "") then getResourcesLoop rest acc
      else
        match GetUnstructured element with
        | fail err => fail err
        | ok policy => getResourcesLoop rest (acc ++ [policy])
        end
  end.

Definition getResources (eventReport : EventReport)
  : result (list Unstructured) :=
  getResourcesLoop
    (Split (EventReport.Resources (EventReport.Spec eventReport)) "---") [].

(** The values handed to the templates. *)
Record currentObjects := mkCurrentObjects {
  MatchingResources : list ObjectReference;
  Resources : list Content;
  ClusterOfObjects : Content;
}.

Record currentObject := mkCurrentObject {
  MatchingResource : ObjectReference;
  Resource : option Content;
  ClusterOfObject : Content;
}.

Inductive TemplateData :=
| OneResource (object : currentObject)
| AllResources (objects : currentObjects).

Definition fecthClusterObjects (clusterNamespace clusterName : string)
    (clusterType : ClusterType) : result Content :=
  match GetCluster clusterNamespace clusterName clusterType with
  | fail err => fail err
  | ok genericCluster => ToUnstructured genericCluster
  end.

Definition prepareCurrentObjects (clusterNamespace clusterName : string)
    (clusterType : ClusterType) (eventReport : EventReport)
    (resources : list Unstructured) : result currentObjects :=
  let values := map UnstructuredContent resources in
  match fecthClusterObjects clusterNamespace clusterName clusterType with
  | fail err => fail err
  | ok cluster =>
      ok (mkCurrentObjects
            (EventReport.MatchingResources (EventReport.Spec eventReport))
            values cluster)
  end.

Definition prepareCurrentObject (clusterNamespace clusterName : string)
    (clusterType : ClusterType) (resource : option Unstructured)
    (matchingResource : ObjectReference) : result currentObject :=
  match fecthClusterObjects clusterNamespace clusterName clusterType with
  | fail err => fail err
  | ok cluster =>
      ok (mkCurrentObject matchingResource
            (UnstructuredContent <$> resource) cluster)
  end.

End TemplateObjects.

(** ** The expander's state and its collaborators *)

(** The management cluster as the expander sees it: the API server and
    the random source for fresh names. *)
Record Mgmt (G : Type) := mkMgmt { server : ApiServer; rng : G }.
Arguments mkMgmt {G} server rng.
Arguments server {G} m.
Arguments rng {G} m.

(** Computations of the expander: they may fail and change the state; the
    state reached is kept on failure. *)
Definition Exp (G A : Type) : Type := Mgmt G -> result A * Mgmt G.

Definition ret {G A} (a : A) : Exp G A := fun s => (ok a, s).

Definition bind {G A B} (m : Exp G A) (k : A -> Exp G B) : Exp G B :=
  fun s =>
    match m s with
    | (ok a, s1) => k a s1
    | (fail e, s1) => (fail e, s1)
    end.

Definition liftResult {G A} (r : result A) : Exp G A := fun s => (r, s).

(** A request that answers with a value. *)
Definition request {G A} (f : ApiServer -> result A * ApiServer) : Exp G A :=
  fun s => let '(r, a) := f (server s) in (r, mkMgmt a (rng s)).

(** A request that answers with an error or nil. *)
Definition requestErr {G} (f : ApiServer -> option error * ApiServer)
  : Exp G unit :=
  fun s =>
    let '(r, a) := f (server s) in
    (match r with Some e => fail e | None => ok tt end, mkMgmt a (rng s)).

Notation "'let*' x ':=' m 'in' k" := (bind m (fun x => k))
  (at level 10, x pattern, m at level 100, k at level 200).

(** The instantiation of the templated parts of the spec (text/template
    and JSON round trips, creation of the derived ConfigMaps and Secrets)
    and [getPolicyRef]. The helpers that materialize derived ConfigMaps
    and Secrets add the referenced-resource labels to the label map they
    are given, which is the map stored in the ClusterProfile: they return
    the map as they leave it. *)
Class TemplateExpansion (G : Type) `{!ClusterProxy} `{!UnstructuredObjects} := {
  instantiateTemplateResourceRefs :
    string -> Content -> TemplateData -> list TemplateResourceRef.t ->
    result (list TemplateResourceRef.t);
  instantiateHelmCharts :
    string -> string -> list HelmChart.t -> TemplateData ->
    gmap string string ->
    Exp G (list HelmChart.t * gmap string string);
  instantiateKustomizationRefs :
    string -> string -> list KustomizationRef.t -> TemplateData ->
    gmap string string ->
    Exp G (list KustomizationRef.t * gmap string string);
  instantiateReferencedPolicies :
    string -> EventTrigger -> ObjectReference -> TemplateData ->
    gmap string string ->
    Exp G (gset ObjectReference * gset ObjectReference * gmap string string);
  getPolicyRefOfConfigMap : ConfigMap -> LibPolicyRef.t;
  getPolicyRefOfSecret : Secret -> LibPolicyRef.t;
}.

Section Expander.
Context {G : Type} `{!Random G} `{!GoRuntime} `{!LibsveltosKeys}.
Context `{!ClusterProxy} `{!UnstructuredObjects} `{!TemplateExpansion G}.

(** The name lookups: list the objects carrying [labels], then
    [getInstantiatedObjectName]. *)
Definition nameFromObjects (objects : list string)
  : Exp G (string * bool) :=
  fun s =>
    let '((name, create, err), g) := getInstantiatedObjectName objects (rng s) in
    (match err with Some e => fail e | None => ok (name, create) end,
     mkMgmt (server s) g).

Definition getClusterProfileName (labels : gmap string string)
  : Exp G (string * bool) :=
  let* clusterProfileList :=
    request (listObjects storedClusterProfiles
               (fun cp => matchesLabels labels (ClusterProfile.Labels cp))) in
  nameFromObjects (map ClusterProfile.Name clusterProfileList).

Definition getConfigMapName (labels : gmap string string)
  : Exp G (string * bool) :=
  let* configMapList :=
    request (listObjects storedConfigMaps
               (fun cm => matchesLabels labels (ConfigMap.Labels cm)
                          && bool_decide (ConfigMap.Namespace cm = ReportNamespace))) in
  nameFromObjects (map ConfigMap.Name configMapList).

Definition getSecretName (labels : gmap string string)
  : Exp G (string * bool) :=
  let* secretList :=
    request (listObjects storedSecrets
               (fun sec => matchesLabels labels (Secret.Labels sec)
                           && bool_decide (Secret.Namespace sec = ReportNamespace))) in
  nameFromObjects (map Secret.Name secretList).

Definition getTemplateName (clusterNamespace clusterName requestorName : string)
  : string :=
  clusterNamespace +:+ "-" +:+ clusterName +:+ "-" +:+ requestorName.

(** Group/version strings and kinds of the cluster APIs. *)
Definition getClusterRef (clusterNamespace clusterName : string)
    (clusterType : ClusterType) : ObjectReference :=
  match clusterType with
  | ClusterTypeSveltos =>
      mkRef "SveltosCluster" clusterNamespace clusterName ""
            "lib.projectsveltos.io/v1beta1" "" ""
  | ClusterTypeCapi =>
      mkRef "Cluster" clusterNamespace clusterName ""
            "cluster.x-k8s.io/v1beta1" "" ""
  end.

Definition getNonInstantiatedClusterProfile (eventTrigger : EventTrigger)
    (clusterProfileName : string) (labels : gmap string string)
  : ClusterProfile :=
  let spec := EventTrigger.Spec eventTrigger in
  ClusterProfile.mk clusterProfileName (Some labels)
    (ClusterProfile.mkSpec "" None
       (EventTrigger.StopMatchingBehavior spec)
       (EventTrigger.SyncMode spec)
       (EventTrigger.Tier spec)
       (EventTrigger.ContinueOnConflict spec)
       (EventTrigger.Reloader spec)
       (EventTrigger.MaxUpdate spec)
       None
       (EventTrigger.ValidateHealths spec)
       (EventTrigger.Patches spec)
       (EventTrigger.ExtraLabels spec)
       (EventTrigger.ExtraAnnotations spec)
       [] [] []).

(** [getClusterProfilePolicyRefs]: the local references, then the remote
    ones. *)
Definition policyRefOf (deploymentType : string) (item : ObjectReference)
  : PolicyRef.t :=
  let kind := if bool_decide (Kind item = "Secret") then "Secret" else "ConfigMap" in
  PolicyRef.mk (Namespace item) (Name item) kind deploymentType.

Definition getClusterProfilePolicyRefs
    (localPolicyRef remotePolicyRef : gset ObjectReference) : list PolicyRef.t :=
  map (policyRefOf "Local") (setItems localPolicyRef)
  ++ map (policyRefOf "Remote") (setItems remotePolicyRef).

(** The tenant labels copied from the trigger. *)
Definition copyServiceAccountLabels (eventTrigger : EventTrigger)
    (labels : gmap string string) : gmap string string :=
  match EventTrigger.Labels eventTrigger with
  | None => labels
  | Some tl =>
      let labels :=
        match tl !! ServiceAccountNameLabel with
        | Some serviceAccountName =>
            <[ServiceAccountNameLabel := serviceAccountName]> labels
        | None => labels
        end in
      match tl !! ServiceAccountNamespaceLabel with
      | Some serviceAccountNamespace =>
          <[ServiceAccountNamespaceLabel := serviceAccountNamespace]> labels
      | None => labels
      end
  end.

Definition updateClusterProfileSpec (clusterProfile : ClusterProfile)
  : Exp G unit :=
  let* currentClusterProfile :=
    request (getObject storedClusterProfiles (ClusterProfile.Name clusterProfile)) in
  requestErr
    (updateObject storedClusterProfiles setClusterProfiles
       (ClusterProfile.Name currentClusterProfile)
       (ClusterProfile.mk (ClusterProfile.Name currentClusterProfile)
          (ClusterProfile.Labels currentClusterProfile)
          (ClusterProfile.Spec clusterProfile))).

(** The part shared by [instantiateClusterProfileForResource] and
    [instantiateOneClusterProfilePerAllResource], from the name lookup
    on; [data] is the template object, [cluster] its Cluster field. The
    Go functions return the ClusterProfile together with the error of the
    final write; every caller drops the ClusterProfile when the error is
    set, so a failed write is a failure here. *)
Definition instantiateClusterProfile
    (clusterNamespace clusterName : string) (clusterType : ClusterType)
    (eventTrigger : EventTrigger) (labels : gmap string string)
    (data : TemplateData) (cluster : Content) : Exp G ClusterProfile :=
  let* (clusterProfileName, createClusterProfile) :=
    getClusterProfileName labels in
  let labels := copyServiceAccountLabels eventTrigger labels in
  let clusterProfile :=
    getNonInstantiatedClusterProfile eventTrigger clusterProfileName labels in
  let templateName :=
    getTemplateName clusterNamespace clusterName (EventTrigger.Name eventTrigger) in
  let spec := EventTrigger.Spec eventTrigger in
  let* templateResourceRefs :=
    liftResult (instantiateTemplateResourceRefs templateName cluster data
                  (EventTrigger.TemplateResourceRefs spec)) in
  let '(clusterRefs, clusterSelector) :=
    if bool_decide (EventTrigger.DestinationClusterSelector spec = "") then
      (Some [getClusterRef clusterNamespace clusterName clusterType], "")
    else (None, EventTrigger.DestinationClusterSelector spec) in
  let* (helmCharts, labels) :=
    instantiateHelmCharts clusterNamespace templateName
      (EventTrigger.HelmCharts spec) data labels in
  let* (kustomizationRefs, labels) :=
    instantiateKustomizationRefs clusterNamespace templateName
      (EventTrigger.KustomizationRefs spec) data labels in
  let clusterRef := getClusterRef clusterNamespace clusterName clusterType in
  let* (localPolicyRef, remotePolicyRef, labels) :=
    instantiateReferencedPolicies templateName eventTrigger clusterRef data
      labels in
  let base := ClusterProfile.Spec clusterProfile in
  let clusterProfile :=
    ClusterProfile.mk clusterProfileName (Some labels)
      (ClusterProfile.mkSpec clusterSelector clusterRefs
         (ClusterProfile.StopMatchingBehavior base)
         (ClusterProfile.SyncMode base)
         (ClusterProfile.Tier base)
         (ClusterProfile.ContinueOnConflict base)
         (ClusterProfile.Reloader base)
         (ClusterProfile.MaxUpdate base)
         (Some templateResourceRefs)
         (ClusterProfile.ValidateHealths base)
         (ClusterProfile.Patches base)
         (ClusterProfile.ExtraLabels base)
         (ClusterProfile.ExtraAnnotations base)
         helmCharts kustomizationRefs
         (getClusterProfilePolicyRefs localPolicyRef remotePolicyRef)) in
  let* _ :=
    if createClusterProfile then
      requestErr (createObject storedClusterProfiles setClusterProfiles
                    clusterProfileName clusterProfile)
    else updateClusterProfileSpec clusterProfile in
  ret clusterProfile.

Definition instantiateClusterProfileForResource
    (clusterNamespace clusterName : string) (clusterType : ClusterType)
    (eventTrigger : EventTrigger) (er : EventReport)
    (matchingResource : ObjectReference) (resource : option Unstructured)
  : Exp G ClusterProfile :=
  let* object :=
    liftResult (prepareCurrentObject clusterNamespace clusterName clusterType
                  resource matchingResource) in
  let labels :=
    getInstantiatedObjectLabels clusterNamespace clusterName
      (EventTrigger.Name eventTrigger) (Some er) clusterType in
  let tmpLabels :=
    getInstantiatedObjectLabelsForResource (Namespace matchingResource)
      (Name matchingResource) in
  let labels := copyLabels tmpLabels labels in
  instantiateClusterProfile clusterNamespace clusterName clusterType
    eventTrigger labels (OneResource object) (ClusterOfObject object).

Definition instantiateOneClusterProfilePerAllResource
    (clusterNamespace clusterName : string) (clusterType : ClusterType)
    (eventTrigger : EventTrigger) (eventReport : EventReport)
  : Exp G (list ClusterProfile) :=
  let* resources := liftResult (getResources eventReport) in
  let* objects :=
    liftResult (prepareCurrentObjects clusterNamespace clusterName clusterType
                  eventReport resources) in
  let labels :=
    getInstantiatedObjectLabels clusterNamespace clusterName
      (EventTrigger.Name eventTrigger) (Some eventReport) clusterType in
  let* clusterProfile :=
    instantiateClusterProfile clusterNamespace clusterName clusterType
      eventTrigger labels (AllResources objects) (ClusterOfObjects objects) in
  ret [clusterProfile].

(** The two loops of [instantiateOneClusterProfilePerResource]. *)
Fixpoint instantiatePerMatchingResource
    (clusterNamespace clusterName : string) (clusterType : ClusterType)
    (eventTrigger : EventTrigger) (eventReport : EventReport)
    (matchingResources : list ObjectReference)
    (clusterProfiles : list ClusterProfile) : Exp G (list ClusterProfile) :=
  match matchingResources with
  | [] => ret clusterProfiles
  | matchingResource :: rest =>
      let* clusterProfile :=
        instantiateClusterProfileForResource clusterNamespace clusterName
          clusterType eventTrigger eventReport matchingResource None in
      instantiatePerMatchingResource clusterNamespace clusterName clusterType
        eventTrigger eventReport rest (clusterProfiles ++ [clusterProfile])
  end.

Definition matchingResourceOf (r : Unstructured) : ObjectReference :=
  mkRef (GetKind r) (GetNamespace r) (GetName r) "" (GetAPIVersion r) "" "".

Fixpoint instantiatePerCollectedResource
    (clusterNamespace clusterName : string) (clusterType : ClusterType)
    (eventTrigger : EventTrigger) (eventReport : EventReport)
    (resources : list Unstructured)
    (clusterProfiles : list ClusterProfile) : Exp G (list ClusterProfile) :=
  match resources with
  | [] => ret clusterProfiles
  | r :: rest =>
      let* clusterProfile :=
        instantiateClusterProfileForResource clusterNamespace clusterName
          clusterType eventTrigger eventReport (matchingResourceOf r) (Some r) in
      instantiatePerCollectedResource clusterNamespace clusterName clusterType
        eventTrigger eventReport rest (clusterProfiles ++ [clusterProfile])
  end.

Definition instantiateOneClusterProfilePerResource
    (clusterNamespace clusterName : string) (clusterType : ClusterType)
    (eventTrigger : EventTrigger) (eventReport : EventReport)
  : Exp G (list ClusterProfile) :=
  let* resources := liftResult (getResources eventReport) in
  if bool_decide (length resources = 0%nat) then
    instantiatePerMatchingResource clusterNamespace clusterName clusterType
      eventTrigger eventReport
      (EventReport.MatchingResources (EventReport.Spec eventReport)) []
  else
    instantiatePerCollectedResource clusterNamespace clusterName clusterType
      eventTrigger eventReport resources [].

(** *** The sweeper *)

(** Deletes, in list order, the listed objects that [stale] selects. *)
Fixpoint deleteStale {V : Type} (stale : V -> bool)
    (del : V -> ApiServer -> option error * ApiServer) (items : list V)
  : Exp G unit :=
  match items with
  | [] => ret tt
  | item :: rest =>
      if stale item then
        let* _ := requestErr (del item) in deleteStale stale del rest
      else deleteStale stale del rest
  end.

Definition removeClusterProfiles
    (clusterNamespace clusterName : string) (clusterType : ClusterType)
    (eventTrigger : EventTrigger) (er : option EventReport)
    (clusterProfiles : list ClusterProfile) : Exp G unit :=
  let currentClusterProfiles : gset string :=
    list_to_set (map ClusterProfile.Name clusterProfiles) in
  let labels :=
    getInstantiatedObjectLabels clusterNamespace clusterName
      (EventTrigger.Name eventTrigger) er clusterType in
  let* clusterProfileList :=
    request (listObjects storedClusterProfiles
               (fun cp => matchesLabels labels (ClusterProfile.Labels cp))) in
  deleteStale
    (fun cp => negb (bool_decide (ClusterProfile.Name cp ∈ currentClusterProfiles)))
    (fun cp => deleteObject storedClusterProfiles setClusterProfiles
                 (ClusterProfile.Name cp))
    clusterProfileList.

Definition removeConfigMaps
    (clusterNamespace clusterName : string) (clusterType : ClusterType)
    (eventTrigger : EventTrigger) (er : option EventReport)
    (policyRefs : gset LibPolicyRef.t) : Exp G unit :=
  let labels :=
    getInstantiatedObjectLabels clusterNamespace clusterName
      (EventTrigger.Name eventTrigger) er clusterType in
  let* configMapList :=
    request (listObjects storedConfigMaps
               (fun cm => matchesLabels labels (ConfigMap.Labels cm)
                          && bool_decide (ConfigMap.Namespace cm = ReportNamespace))) in
  deleteStale
    (fun cm => negb (bool_decide (getPolicyRefOfConfigMap cm ∈ policyRefs)))
    (fun cm => deleteObject storedConfigMaps setConfigMaps
                 (ConfigMap.Namespace cm, ConfigMap.Name cm))
    configMapList.

Definition removeSecrets
    (clusterNamespace clusterName : string) (clusterType : ClusterType)
    (eventTrigger : EventTrigger) (er : option EventReport)
    (policyRefs : gset LibPolicyRef.t) : Exp G unit :=
  let labels :=
    getInstantiatedObjectLabels clusterNamespace clusterName
      (EventTrigger.Name eventTrigger) er clusterType in
  let* secretList :=
    request (listObjects storedSecrets
               (fun sec => matchesLabels labels (Secret.Labels sec)
                           && bool_decide (Secret.Namespace sec = ReportNamespace))) in
  deleteStale
    (fun sec => negb (bool_decide (getPolicyRefOfSecret sec ∈ policyRefs)))
    (fun sec => deleteObject storedSecrets setSecrets
                  (Secret.Namespace sec, Secret.Name sec))
    secretList.

Definition valueFromRef (v : ValueFrom.t) : LibPolicyRef.t :=
  LibPolicyRef.mk (ValueFrom.Kind v) (ValueFrom.Namespace v) (ValueFrom.Name v).

Definition appendHelmChartValuesFrom (policyRefs : gset LibPolicyRef.t)
    (helmCharts : list HelmChart.t) : gset LibPolicyRef.t :=
  policyRefs
  ∪ list_to_set (map valueFromRef (concat (map HelmChart.ValuesFrom helmCharts))).

Definition appendKustomizationRefValuesFrom (policyRefs : gset LibPolicyRef.t)
    (kustomizationRefs : list KustomizationRef.t) : gset LibPolicyRef.t :=
  policyRefs
  ∪ list_to_set
      (map valueFromRef
         (concat (map KustomizationRef.ValuesFrom kustomizationRefs))).

(** The references still needed by the given ClusterProfiles. *)
Fixpoint neededPolicyRefs (policyRefs : gset LibPolicyRef.t)
    (clusterProfiles : list ClusterProfile) : gset LibPolicyRef.t :=
  match clusterProfiles with
  | [] => policyRefs
  | cp :: rest =>
      let spec := ClusterProfile.Spec cp in
      let policyRefs :=
        policyRefs
        ∪ list_to_set
            (map (fun p => LibPolicyRef.mk (PolicyRef.Kind p)
                             (PolicyRef.Namespace p) (PolicyRef.Name p))
               (ClusterProfile.PolicyRefs spec)) in
      let policyRefs :=
        appendHelmChartValuesFrom policyRefs (ClusterProfile.HelmCharts spec) in
      let policyRefs :=
        appendKustomizationRefValuesFrom policyRefs
          (ClusterProfile.KustomizationRefs spec) in
      neededPolicyRefs policyRefs rest
  end.

(** [clusterProfiles] is nil or the current expansion set. *)
Definition removeInstantiatedResources
    (clusterNamespace clusterName : string) (clusterType : ClusterType)
    (eventTrigger : EventTrigger) (er : option EventReport)
    (clusterProfiles : list ClusterProfile) : Exp G unit :=
  let* _ :=
    removeClusterProfiles clusterNamespace clusterName clusterType eventTrigger
      er clusterProfiles in
  let policyRefs := neededPolicyRefs ∅ clusterProfiles in
  let* _ :=
    removeConfigMaps clusterNamespace clusterName clusterType eventTrigger er
      policyRefs in
  removeSecrets clusterNamespace clusterName clusterType eventTrigger er
    policyRefs.

Definition updateClusterProfiles
    (clusterNamespace clusterName : string) (clusterType : ClusterType)
    (eventTrigger : EventTrigger) (er : EventReport) : Exp G unit :=
  (* If no resource is currently matching, clear all *)
  if negb (IsZero (EventReport.DeletionTimestamp er))
     || bool_decide
          (length (EventReport.MatchingResources (EventReport.Spec er)) = 0%nat)
  then
    removeInstantiatedResources clusterNamespace clusterName clusterType
      eventTrigger (Some er) []
  else
    let* clusterProfiles :=
      if EventTrigger.OneForEvent (EventTrigger.Spec eventTrigger) then
        instantiateOneClusterProfilePerResource clusterNamespace clusterName
          clusterType eventTrigger er
      else
        instantiateOneClusterProfilePerAllResource clusterNamespace clusterName
          clusterType eventTrigger er in
    removeInstantiatedResources clusterNamespace clusterName clusterType
      eventTrigger (Some er) clusterProfiles.

End Expander.

(** ** The matcher (controllers/transformations.go) *)

(** [ctrl.Request]: a namespaced name. *)
Module Request.
Record t := mk { Namespace : string; Name : string }.
End Request.

#[global] Instance Request_eq_dec : EqDecision Request.t.
Proof. solve_decision. Defined.

(** The reconciler's in-memory index. Trigger identifiers are object
    references. *)
Record Index := mkIndex {
  ClusterMap : gmap ObjectReference (gset ObjectReference);
  EventSourceMap : gmap ObjectReference (gset ObjectReference);
  ReferenceMap : gmap ObjectReference (gset ObjectReference);
  EventTriggers : gmap ObjectReference Selector;
  ClusterLabels : gmap ObjectReference GoMap;
}.

(** Modelled from the spec: [getClusterMapForEntry],
    [getEventSourceMapForEntry] and [getReferenceMapForEntry] are defined
    outside the files at hand; each returns the set of triggers recorded
    for the key, the empty set when there is none. *)
Definition getClusterMapForEntry (r : Index) (entry : ObjectReference)
  : gset ObjectReference := default ∅ (ClusterMap r !! entry).
Definition getEventSourceMapForEntry (r : Index) (entry : ObjectReference)
  : gset ObjectReference := default ∅ (EventSourceMap r !! entry).
Definition getReferenceMapForEntry (r : Index) (entry : ObjectReference)
  : gset ObjectReference := default ∅ (ReferenceMap r !! entry).

(** [labels.Parse] followed by [Matches] (apimachinery), and the
    cluster-name label of cluster-api. *)
Class LabelSelectors := {
  Matches : Selector -> GoMap -> bool;
  ClusterNameLabel : string;
}.

(** The object handed to [requeueEventTriggerForReference]. *)
Inductive ReferencedKey :=
| OfConfigMap (namespace name : string)
| OfSecret (namespace name : string)
| OfOther (apiVersion kind namespace name : string).

Section Matcher.
Context `{!GoRuntime} `{!LabelSelectors}.

Definition nameRequest (consumer : ObjectReference) : Request.t :=
  Request.mk "" (Name consumer).

Definition eventSourceRequests (r : Index) (eventSourceName : string)
  : list Request.t :=
  let eventSourceInfo :=
    mkRef "EventSource" "" eventSourceName "" "lib.projectsveltos.io/v1alpha1"
          "" "" in
  map nameRequest (setItems (getEventSourceMapForEntry r eventSourceInfo)).

Definition requeueEventTriggerForEventReport (r : Index)
    (eventReport : EventReport) : list Request.t :=
  eventSourceRequests r (EventReport.EventSourceName (EventReport.Spec eventReport)).

Definition requeueEventTriggerForEventSource (r : Index)
    (eventSource : EventSource) : list Request.t :=
  eventSourceRequests r (EventSource.Name eventSource).

(** The second loop of the cluster and machine matchers: one request for
    every trigger whose selector matches the labels. *)
Definition matchingTriggerRequests (r : Index) (clusterLabels : GoMap)
  : list Request.t :=
  map (fun kv : ObjectReference * Selector => nameRequest kv.1)
    (List.filter (fun kv : ObjectReference * Selector => Matches kv.2 clusterLabels)
       (mapRange (EventTriggers r))).

(** [o] is given by its API version and kind (after
    [addTypeInformationToObject]), namespace, name and labels. The cluster
    labels are recorded in the index. *)
Definition requeueEventTriggerForCluster (r : Index)
    (apiVersion kind namespace name : string) (labels : GoMap)
  : list Request.t * Index :=
  let clusterInfo := mkRef kind namespace name "" apiVersion "" "" in
  let r :=
    mkIndex (ClusterMap r) (EventSourceMap r) (ReferenceMap r) (EventTriggers r)
            (<[clusterInfo := labels]> (ClusterLabels r)) in
  (* all EventTriggers previously matching this cluster *)
  let requests := map nameRequest (setItems (getClusterMapForEntry r clusterInfo)) in
  (* the EventTriggers now matching the cluster *)
  (requests ++ matchingTriggerRequests r labels, r).

Definition requeueEventTriggerForMachine (r : Index)
    (apiVersion namespace : string) (machineLabels : GoMap)
  : option (list Request.t) :=
  match default ∅ machineLabels !! ClusterNameLabel with
  | None => None
  | Some clusterLabelName =>
      let clusterInfo := mkRef "Cluster" namespace clusterLabelName "" apiVersion "" "" in
      let requests :=
        map nameRequest (setItems (getClusterMapForEntry r clusterInfo)) in
      match ClusterLabels r !! clusterInfo with
      | Some clusterLabels =>
          Some (requests ++ matchingTriggerRequests r clusterLabels)
      | None => Some requests
      end
  end.

Definition requeueEventTriggerForReference (r : Index) (o : ReferencedKey)
  : list Request.t :=
  let key :=
    match o with
    | OfConfigMap namespace name => mkRef "ConfigMap" namespace name "" "v1" "" ""
    | OfSecret namespace name => mkRef "Secret" namespace name "" "v1" "" ""
    | OfOther apiVersion kind namespace name =>
        mkRef kind namespace name "" apiVersion "" ""
    end in
  map (fun consumer => Request.mk (Namespace consumer) (Name consumer))
    (setItems (getReferenceMapForEntry r key)).

End Matcher.

(** ** Vocabulary of the statements *)

(** The ClusterInfo list of a trigger's status. *)
Abbreviation CIs e := (EventTrigger.ClusterInfo (EventTrigger.Status e)).

Section RollupVocabulary.
Context {D : Type} `{!ClusterProxy}.

(** The dispatcher calls that open the deploy path: queued cleanups are
    dropped, then the cleanup direction is polled. *)
Definition openingCalls (kc : DeployerKey) : list DeployerCall :=
  [CallCleanupEntries kc; CallIsInProgress kc].

(** The cluster a dispatcher key is for, and the cluster of a reference
    as the dispatcher and the cluster proxy see it. *)
Definition keyCluster (k : DeployerKey) : string * string * ClusterType :=
  (keyClusterNamespace k, keyClusterName k, keyClusterType k).

Definition clusterKey (cluster : ObjectReference)
  : string * string * ClusterType :=
  (Namespace cluster, Name cluster, GetClusterType cluster).

(** [w'] is [w] after some dispatcher calls, all of them for [cluster]. *)
Definition callsAdded (cluster : ObjectReference) (w w' : World D) : Prop :=
  exists new,
    calls w' = calls w ++ new
    /\ Forall (fun call => keyCluster (callKey call) = clusterKey cluster) new.

(** The cluster of the entry is handled by another shard. *)
Definition foreign (r : EventTriggerReconciler) (c : ClusterInfo) : Prop :=
  isClusterAShardMatch r c = (false, None).

(** The cluster of the entry is handled by this replica. *)
Definition homeShard (r : EventTriggerReconciler) (c : ClusterInfo) : Prop :=
  isClusterAShardMatch r c = (true, None).

(** The cluster still matches the trigger and is paused or not ready. *)
Definition deferred (resource : EventTrigger) (c : ClusterInfo) : Prop :=
  isClusterStillMatching resource (Cluster c) = true
  /\ canProceed resource (Cluster c) = ok false.

(** What the loop leaves of an entry handled by another shard. *)
Definition foreignPost (exit : LoopExit) (c c' : ClusterInfo) : Prop :=
  Cluster c' = Cluster c
  /\ Status c' = Status c
  /\ FailureMessage c' = FailureMessage c
  /\ (Hash c' = Hash c \/ (Hash c = None /\ Hash c' = Some emptyHashSentinel))
  /\ (forall es' ap', exit = LoopDone es' ap' ->
      Hash c' = Some (default emptyHashSentinel (Hash c))
      /\ (Status c <> SveltosStatusProvisioned -> ap' = false)).


(** Triggers are stored under their own name. *)
Definition triggersNamed (a : ApiServer) : bool :=
  forallb (fun ke : string * EventTrigger =>
             bool_decide (EventTrigger.Name ke.2 = ke.1))
    (map_to_list (storedEventTriggers a)).

(** The effect of a run on the stored triggers: the removal of the first
    entry for the cluster from the status of the trigger. *)
Definition entryRemoved (clusterNamespace clusterName : string)
    (clusterType : ClusterType) (resource : EventTrigger)
    (a a' : ApiServer) : Prop :=
  exists stored i c,
    storedEventTriggers a !! EventTrigger.Name resource = Some stored
    /\ findClusterInfo (CIs stored) clusterNamespace clusterName clusterType
       = Some (i, c)
    /\ storedEventTriggers a'
       = <[EventTrigger.Name resource :=
             SetClusterInfo stored (remove (CIs stored) i)]>
           (storedEventTriggers a).

End RollupVocabulary.

(** Listing the objects selected by [sel] and deleting the stale ones by
    their key: the shape of the three sweeps. *)
Definition sweep {G K V : Type} `{Countable K}
    (field : ApiServer -> gmap K V)
    (setField : ApiServer -> gmap K V -> ApiServer)
    (key : V -> K) (sel stale : V -> bool) : Exp G unit :=
  let* items := request (listObjects field sel) in
  deleteStale stale (fun v => deleteObject field setField (key v)) items.

(** Derived objects are stored under their own name. *)
Definition derivedNamed (a : ApiServer) : bool :=
  forallb (fun kv : string * ClusterProfile =>
             bool_decide (ClusterProfile.Name kv.2 = kv.1))
    (map_to_list (storedClusterProfiles a))
  && forallb (fun kv : string * string * ConfigMap =>
                bool_decide ((ConfigMap.Namespace kv.2, ConfigMap.Name kv.2) = kv.1))
       (map_to_list (storedConfigMaps a))
  && forallb (fun kv : string * string * Secret =>
                bool_decide ((Secret.Namespace kv.2, Secret.Name kv.2) = kv.1))
       (map_to_list (storedSecrets a)).

(** The EventReport is being deleted or lists no matching resource. *)
Definition nothingMatches (er : EventReport) : bool :=
  negb (IsZero (EventReport.DeletionTimestamp er))
  || bool_decide
       (length (EventReport.MatchingResources (EventReport.Spec er)) = 0%nat).

(** The labels that identify what was derived for a trigger and a
    cluster, whatever the EventReport. *)
Definition triggerClusterLabels (clusterNamespace clusterName : string)
    (clusterType : ClusterType) (eventTrigger : EventTrigger)
  : gmap string string :=
  getInstantiatedObjectLabels clusterNamespace clusterName
    (EventTrigger.Name eventTrigger) None clusterType.

Section ExpansionVocabulary.
Context {G : Type} `{!Random G} `{!GoRuntime} `{!LibsveltosKeys}.
Context `{!ClusterProxy} `{!UnstructuredObjects} `{!TemplateExpansion G}.

(** [cp] is the ClusterProfile that an expansion for the matching
    resource [mr] with the collected body [body] returns. *)
Definition expandedFrom (clusterNamespace clusterName : string)
    (clusterType : ClusterType) (eventTrigger : EventTrigger)
    (er : EventReport) (mr : ObjectReference) (body : option Unstructured)
    (cp : ClusterProfile) : Prop :=
  exists s1 s2 : Mgmt G,
    instantiateClusterProfileForResource clusterNamespace clusterName
      clusterType eventTrigger er mr body s1 = (ok cp, s2).

End ExpansionVocabulary.

Section NameVocabulary.
Context {G : Type} `{!Random G}.

(** What a name lookup answers in the state [s] when the objects
    carrying the labels are named [matching]: the error of the list
    request when it fails; a fresh name, [sveltos-] and 20 random
    characters, to be created, when there is no such object; the name
    of the object, not to be created, when there is one; the error
    "more than one resource" when there are more. The lookup consumes
    one request, and only a fresh name draws from the random source. *)
Definition nameResolved (matching : list string) (s : Mgmt G)
    (out : result (string * bool) * Mgmt G) : Prop :=
  match takeFault (server s) with
  | (Some e, a1) => out = (fail e, mkMgmt a1 (rng s))
  | (None, a1) =>
      match matching with
      | [] =>
          exists rnd g',
            RandomString 20 (rng s) = (rnd, g')
            /\ String.length rnd = 20%nat
            /\ out = (ok ("sveltos-" +:+ rnd, true), mkMgmt a1 g')
      | [name] => out = (ok (name, false), mkMgmt a1 (rng s))
      | _ :: _ :: _ =>
          out = (fail (Errorf "more than one resource"), mkMgmt a1 (rng s))
      end
  end.

End NameVocabulary.

(** No derived object with the labels of the (trigger, cluster,
    EventReport) is stored. *)
Definition derivedCleared (clusterNamespace clusterName : string)
    (clusterType : ClusterType) (eventTrigger : EventTrigger)
    (er : EventReport) (a : ApiServer) : Prop :=
  let labels :=
    getInstantiatedObjectLabels clusterNamespace clusterName
      (EventTrigger.Name eventTrigger) (Some er) clusterType in
  (forall k cp, storedClusterProfiles a !! k = Some cp ->
     matchesLabels labels (ClusterProfile.Labels cp) = false)
  /\ (forall k cm, storedConfigMaps a !! k = Some cm ->
        ConfigMap.Namespace cm = ReportNamespace ->
        matchesLabels labels (ConfigMap.Labels cm) = false)
  /\ (forall k sec, storedSecrets a !! k = Some sec ->
        Secret.Namespace sec = ReportNamespace ->
        matchesLabels labels (Secret.Labels sec) = false).

(** The renderer prints a map from its entries whatever the order in
    which they are enumerated. go-render does, by sorting the keys; it
    is not among the files, so the statements that need it assume it. *)
Definition sortsKeys `{!GoRender} : Prop :=
  (forall l l', l ≡ₚ l' -> AsCode_map (Some l) = AsCode_map (Some l'))
  /\ (forall l l', l ≡ₚ l' -> AsCode_bytesMap (Some l) = AsCode_bytesMap (Some l')).

(** Two referenced resources of one kind with the same body: the data
    of a ConfigMap or of a Secret, the spec of an EventSource or of an
    EventReport. Names, labels and annotations may differ. *)
Definition sameBody (r1 r2 : ReferencedObject) : Prop :=
  match r1, r2 with
  | RefConfigMap cm1, RefConfigMap cm2 => ConfigMap.Data cm1 = ConfigMap.Data cm2
  | RefSecret s1, RefSecret s2 => Secret.Data s1 = Secret.Data s2
  | RefEventSource es1, RefEventSource es2 =>
      EventSource.Spec es1 = EventSource.Spec es2
  | RefEventReport er1, RefEventReport er2 =>
      EventReport.Spec er1 = EventReport.Spec er2
  | _, _ => False
  end.

(** The trigger with other labels, the ConfigMap and the Secret with
    other data. *)
Definition withLabels (e : EventTrigger) (labels : GoMap) : EventTrigger :=
  EventTrigger.mk (EventTrigger.Name e) labels (EventTrigger.Annotations e)
    (EventTrigger.DeletionTimestamp e) (EventTrigger.Spec e)
    (EventTrigger.Status e).

Definition withData (cm : ConfigMap) (data : GoMap) : ConfigMap :=
  ConfigMap.mk (ConfigMap.Namespace cm) (ConfigMap.Name cm)
    (ConfigMap.Labels cm) (ConfigMap.Annotations cm) data.

Definition withBytes (secret : Secret)
    (data : option (gmap string (list byte))) : Secret :=
  Secret.mk (Secret.Namespace secret) (Secret.Name secret)
    (Secret.Labels secret) (Secret.Annotations secret) data
    (Secret.SecretType secret).

(** [x] is a trigger identifier held by the index. *)
Definition tracked (r : Index) (x : ObjectReference) : Prop :=
  (exists k s,
     (ClusterMap r !! k = Some s \/ EventSourceMap r !! k = Some s
      \/ ReferenceMap r !! k = Some s) /\ x ∈ s)
  \/ is_Some (EventTriggers r !! x).

(** The identifiers held by the index are told apart by their names. *)
Definition triggersByName (r : Index) : Prop :=
  forall x y, tracked r x -> tracked r y -> Name x = Name y -> x = y.
(** ** Concrete collaborators

    Simple implementations of the interfaces above, used to run the
    functions on concrete inputs. *)

Module Fixture.

(** A dispatcher given by tables: recorded results, keys in progress,
    the answer to submissions, and the queue of accepted requests. *)
Record TableDispatcher := mkDispatcher {
  results : list (DeployerKey * Result.t);
  inProgress : list DeployerKey;
  rejectWith : option error;
  queue : list (DeployerKey * RequestHandler);
}.

Definition lookupResult (k : DeployerKey) (d : TableDispatcher) : Result.t :=
  match list_find (fun kr : DeployerKey * Result.t => kr.1 = k) (results d) with
  | Some (_, (_, res)) => res
  | None => Result.mk Unavailable None
  end.

Definition dispatcher : DeployerInterface TableDispatcher := {|
  CleanupEntries d k :=
    mkDispatcher (results d) (inProgress d) (rejectWith d)
      (List.filter (fun q : DeployerKey * RequestHandler =>
                      negb (bool_decide (q.1 = k))) (queue d));
  IsInProgress d k := bool_decide (k ∈ inProgress d);
  GetResult d k := (lookupResult k d, d);
  Deploy d k h :=
    match rejectWith d with
    | Some e => (Some e, d)
    | None =>
        (None,
         mkDispatcher (results d) (inProgress d) (rejectWith d)
                      (queue d ++ [(k, h)]))
    end;
|}.

(** A cluster proxy that reads a cluster's situation off its reference:
    the shard is the namespace, and the names [missing], [broken],
    [paused] and [notready] stand for what they say. *)
Definition clusterProxy : ClusterProxy := {|
  ClusterObject := string;
  GetClusterType ref :=
    if bool_decide (APIVersion ref = "lib.projectsveltos.io/v1beta1")
    then ClusterTypeSveltos else ClusterTypeCapi;
  GetCluster ns name _ :=
    if bool_decide (name = "missing") then fail (notFound "cluster")
    else if bool_decide (name = "broken") then fail (Errorf "api unavailable")
    else ok ns;
  IsClusterPaused _ name _ := ok (bool_decide (name = "paused"));
  IsClusterReadyToBeConfigured ref := ok (negb (bool_decide (Name ref = "notready")));
  IsShardAMatch shardKey cluster := bool_decide (cluster = shardKey);
  HasPaused annotations :=
    bool_decide (is_Some (default ∅ annotations !! "cluster.x-k8s.io/paused"));
|}.

Definition runtime : GoRuntime := {|
  mapRange K _ _ V m := map_to_list m;
  mapRange_perm K _ _ V m := reflexivity _;
  setItems K _ _ s := elements s;
  setItems_perm K _ _ s := reflexivity _;
|}.

(** No referenced resource is fetched. *)
Definition noReferences : ReferencedResources := {|
  fetchReferencedResources _ _ := ok [];
|}.

Definition keys : LibsveltosKeys := {|
  EventReportClusterNameLabel := "eventreport.projectsveltos.io/cluster-name";
  EventReportClusterTypeLabel := "eventreport.projectsveltos.io/cluster-type";
  EventSourceNameLabel := "projectsveltos.io/eventsource-name";
  ServiceAccountNameLabel := "projectsveltos.io/serviceaccount-name";
  ServiceAccountNamespaceLabel := "projectsveltos.io/serviceaccount-namespace";
|}.

Definition refersTo (resource : EventTrigger) (ref : OwnerReference.t) : bool :=
  bool_decide (OwnerReference.Kind ref = "EventTrigger")
  && bool_decide (OwnerReference.Name ref = EventTrigger.Name resource).

Definition ownerRefs : OwnerRefs := {|
  IsOwnedByObject refs resource := existsb (refersTo resource) refs;
  RemoveOwnerReference refs resource :=
    List.filter (fun ref => negb (refersTo resource ref)) refs;
|}.

(** Selectors name one label key; they match the label maps that set it
    to [true]. *)
Definition selectors : LabelSelectors := {|
  Matches sel labels := bool_decide (default ∅ labels !! sel = Some "true");
  ClusterNameLabel := "cluster.x-k8s.io/cluster-name";
|}.

(** Random names: [n] copies of a letter chosen by the state, a counter. *)
Definition letter (g : nat) : ascii := ascii_of_nat (97 + g mod 26).

Definition random : Random nat.
Proof.
  refine {| RandomString n g :=
              (String.string_of_list_ascii (replicate n (letter g)), S g) |}.
  intros n g. simpl.
  induction n as [|n IH]; simpl; [reflexivity | by rewrite IH].
Defined.

(** A renderer that prints the entries of a map in the order of their
    codes. *)
Definition byCode {A : Type} `{Countable A} (x y : A) : Prop :=
  (encode x <= encode y)%positive.

#[global] Instance byCode_dec {A : Type} `{Countable A} : RelDecision (byCode (A:=A)).
Proof. intros x y. unfold byCode. apply _. Defined.

#[global] Instance byCode_total {A : Type} `{Countable A} : Total (byCode (A:=A)).
Proof. intros x y. unfold byCode. lia. Qed.

#[global] Instance byCode_trans {A : Type} `{Countable A} : Transitive (byCode (A:=A)).
Proof. intros x y z. unfold byCode. lia. Qed.

#[global] Instance byCode_antisymm {A : Type} `{Countable A} :
  AntiSymm (=) (byCode (A:=A)).
Proof.
  intros x y Hxy Hyx. unfold byCode in *.
  apply (inj encode). lia.
Qed.

Definition sortByCode {A : Type} `{Countable A} (l : list A) : list A :=
  merge_sort byCode l.

#[global] Instance byte_countable : Countable byte.
Proof.
  refine (inj_countable' Byte.to_N
            (fun n => default Byte.x00 (Byte.of_N n)) _).
  intros b. by rewrite Byte.of_to_N.
Defined.

Fixpoint printEntries {V : Type} (show : V -> string) (l : list (string * V))
  : string :=
  match l with
  | [] => ""
  | (k, v) :: rest => k +:+ "=" +:+ show v +:+ ";" +:+ printEntries show rest
  end.

Definition printMap {V : Type} `{Countable V} (show : V -> string)
    (m : option (list (string * V))) : string :=
  match m with
  | None => "nil"
  | Some l => "{" +:+ printEntries show (sortByCode l) +:+ "}"
  end.

(** Maps are printed from their sorted entries. The digest is a
    stand-in: the text itself. *)
Definition render : GoRender := {|
  AsCode_Spec spec :=
    EventTrigger.EventSourceName spec +:+ "/" +:+ EventTrigger.SyncMode spec;
  AsCode_map := printMap (fun v : string => v);
  AsCode_bytesMap := printMap String.string_of_list_byte;
  AsCode_EventSourceSpec spec := spec;
  AsCode_EventReportSpec spec := EventReport.EventSourceName spec;
  sha256 := bytes_of_string;
|}.

(** Unstructured objects are their text; a document is its own name. *)
Definition unstructured : @UnstructuredObjects clusterProxy := {|
  Unstructured := string;
  Content := string;
  GetUnstructured doc :=
    if bool_decide (doc = "garbage") then fail (Errorf "cannot decode")
    else ok doc;
  UnstructuredContent u := u;
  GetAPIVersion _ := "v1";
  GetKind _ := "Service";
  GetNamespace _ := "app";
  GetName u := u;
  ToUnstructured :=
    (fun cluster : string => ok cluster)
    : @ClusterObject clusterProxy -> result string;
|}.

(** Templates that expand to themselves and reference no policy. *)
Definition templates : @TemplateExpansion nat clusterProxy unstructured := {|
  instantiateTemplateResourceRefs _ _ _ refs := ok refs;
  instantiateHelmCharts _ _ helmCharts _ labels := ret (helmCharts, labels);
  instantiateKustomizationRefs _ _ refs _ labels := ret (refs, labels);
  instantiateReferencedPolicies _ _ _ _ labels := ret (∅, ∅, labels);
  getPolicyRefOfConfigMap cm :=
    LibPolicyRef.mk "ConfigMap" (ConfigMap.Namespace cm) (ConfigMap.Name cm);
  getPolicyRefOfSecret sec :=
    LibPolicyRef.mk "Secret" (Secret.Namespace sec) (Secret.Name sec);
|}.

End Fixture.

(** ** Concrete inputs *)

Module Scenario.
Import Fixture.

Definition reconciler : EventTriggerReconciler := mkReconciler "shardA".

(** A CAPI cluster reference. *)
Definition capi (namespace name : string) : ObjectReference :=
  mkRef "Cluster" namespace name "" "cluster.x-k8s.io/v1beta1" "" "".

Definition c1 : ObjectReference := capi "shardA" "c1".
Definition foreignCluster : ObjectReference := capi "shardB" "c2".

Definition spec : EventTrigger.Spec_t :=
  EventTrigger.mkSpec "env" [] false "es1" "" "Continuous" 100 false None ""
    false [] [] [] [] [] [] None None.

(** The trigger [t1] with the given matching clusters and ClusterInfo. *)
Definition trigger (matching : list ObjectReference) (cis : list ClusterInfo)
  : EventTrigger :=
  EventTrigger.mk "t1" None None None spec (EventTrigger.mkStatus matching [] cis).

Definition eventTriggerFeature : feature := mkFeature "EventTrigger".

Definition emptyApi : ApiServer := mkApi ∅ ∅ ∅ ∅ ∅ ∅ [].

(** The fingerprint of [t1], which has no labels and references nothing. *)
Definition fingerprint : list byte :=
  @sha256 render (@hashInput runtime render (trigger [] []) []).

Definition keyOf (cluster : ObjectReference) (cleanup : bool) : DeployerKey :=
  mkKey (Namespace cluster) (Name cluster) "t1" "EventTrigger" ClusterTypeCapi
        cleanup.

(** A world whose dispatcher holds the given results and an empty queue. *)
Definition world (results : list (DeployerKey * Result.t))
  : World TableDispatcher :=
  mkWorld (mkDispatcher results [] None []) [] emptyApi.

Definition process :=
  @processEventTrigger TableDispatcher dispatcher clusterProxy runtime render
    noReferences.

Definition deploy :=
  @deployEventTrigger TableDispatcher dispatcher clusterProxy runtime render
    noReferences.

(** *** An unchanged trigger whose last deploy failed *)
Definition boom : error := Errorf "boom".

Definition provisionedEntry : ClusterInfo :=
  mkClusterInfo c1 (Some fingerprint) SveltosStatusProvisioned None.

Definition failedWorld : World TableDispatcher :=
  world [(keyOf c1 false, Result.mk Failed (Some boom))].

Definition failedRun :=
  process (trigger [c1] [provisionedEntry]) c1 eventTriggerFeature failedWorld.

(** *** An unchanged, Provisioned trigger without dispatcher result *)
Definition noResultRun :=
  process (trigger [c1] [provisionedEntry]) c1 eventTriggerFeature (world []).

(** *** A trigger deployed with another configuration *)
Definition outdatedEntry : ClusterInfo :=
  mkClusterInfo c1 (Some []) SveltosStatusProvisioned None.

Definition changedRun :=
  process (trigger [c1] [outdatedEntry]) c1 eventTriggerFeature (world []).




(** *** A cluster of another shard, never deployed *)
Definition foreignEntry : ClusterInfo :=
  mkClusterInfo foreignCluster None SveltosStatusProvisioning None.

Definition foreignTrigger : EventTrigger :=
  trigger [foreignCluster] [foreignEntry].

Definition foreignPass :=
  deploy reconciler foreignTrigger eventTriggerFeature (world []).

(** *** Removing the entry of a cluster from a stored trigger *)
Definition entryOf (name : string) : ClusterInfo :=
  mkClusterInfo (capi "shardA" name) None SveltosStatusRemoving None.

Definition storedTrigger : EventTrigger :=
  trigger [] [entryOf "a"; entryOf "b"; entryOf "c"].

Definition apiWithTrigger : ApiServer :=
  mkApi {[ "t1" := storedTrigger ]} ∅ ∅ ∅ ∅ ∅ [].

Definition removal :=
  @removeClusterInfoEntry clusterProxy "shardA" "a" ClusterTypeCapi
    storedTrigger apiWithTrigger.

(** *** An EventSource owned by [t1] alone, with one EventReport; the
    deletion of the EventReport fails *)
Definition ownedEventSource : EventSource :=
  EventSource.mk "es-old" None None
    [OwnerReference.mk "lib.projectsveltos.io/v1beta1" "EventTrigger" "t1" ""]
    "spec".

Definition pulledReport : EventReport :=
  EventReport.mk "shardA" "er-old"
    (Some (<[@EventSourceNameLabel keys := "es-old"]>
             (<[@EventReportClusterTypeLabel keys := "capi"]>
                (<[@EventReportClusterNameLabel keys := "c1"]> ∅))))
    None
    (EventReport.mkSpec "shardA" "c1" ClusterTypeCapi "es-old" [] "").

Definition deleteFails : error := Errorf "delete failed".

(** The requests are: client, list EventSources, list EventReports,
    delete EventReport. *)
Definition apiWithEventSource : ApiServer :=
  mkApi ∅ ∅ ∅ ∅ {[ ("shardA", "er-old") := pulledReport ]}
        {[ "es-old" := ownedEventSource ]}
        [None; None; None; Some deleteFails].

Definition cleanupRun :=
  @removeStaleEventSources keys ownerRefs "shardA" "c1" ClusterTypeCapi
    (trigger [] []) true apiWithEventSource.

(** *** An EventReport that is being deleted, and a ClusterProfile derived
    for the same trigger and cluster from another EventReport *)
Definition service : ObjectReference := mkRef "Service" "app" "api" "" "v1" "" "".

Definition deletedReport : EventReport :=
  EventReport.mk "shardA" "er1" None (Some 1)
    (EventReport.mkSpec "shardA" "c1" ClusterTypeCapi "es1" [service] "").

Definition otherProfile : ClusterProfile :=
  ClusterProfile.mk "sveltos-other"
    (Some (<[eventReportNameLabel := "er0"]>
             (triggerClusterLabels "shardA" "c1" ClusterTypeCapi (trigger [] []))))
    (ClusterProfile.mkSpec "" None "" "" 0 false false None None [] [] None None
       [] [] []).

Definition apiWithProfile : ApiServer :=
  mkApi ∅ {[ "sveltos-other" := otherProfile ]} ∅ ∅ ∅ ∅ [].

Definition update :=
  @updateClusterProfiles nat random runtime keys clusterProxy unstructured
    templates.

Definition clearedRun :=
  update "shardA" "c1" ClusterTypeCapi (trigger [c1] []) deletedReport
    (mkMgmt apiWithProfile 0%nat).

(** *** Maps built in two insertion orders *)
Definition someLabels : list (string * string) := [("env", "prod"); ("tier", "1")].
Definition someLabels' : list (string * string) := [("tier", "1"); ("env", "prod")].

Definition someConfigMap : ConfigMap :=
  ConfigMap.mk "default" "values" None None None.

Definition someBytes : list (string * list byte) :=
  [("token", bytes_of_string "abc"); ("user", bytes_of_string "admin")].
Definition someBytes' : list (string * list byte) :=
  [("user", bytes_of_string "admin"); ("token", bytes_of_string "abc")].

Definition someSecret : Secret :=
  Secret.mk "default" "credentials" None None None "Opaque".

(** *** The same data under another name, and fetches with a fixed answer *)
Definition renamedConfigMap : ConfigMap :=
  ConfigMap.mk "other" "renamed" (Some {[ "team" := "a" ]}) None None.

Definition fetching (resources : list ReferencedObject) : ReferencedResources :=
  {| fetchReferencedResources _ _ := ok resources |}.

(** *** An index in which [t1] tracks the cluster and matches its labels *)
Definition t1Ref : ObjectReference :=
  mkRef "EventTrigger" "" "t1" "" "lib.projectsveltos.io/v1beta1" "" "".

Definition index : Index :=
  mkIndex {[ c1 := {[ t1Ref ]} ]} ∅ ∅ {[ t1Ref := "env" ]} ∅.

Definition clusterLabels : GoMap := Some {[ "env" := "true" ]}.

Definition clusterRequests : list Request.t :=
  (@requeueEventTriggerForCluster runtime selectors index
     "cluster.x-k8s.io/v1beta1" "Cluster" "shardA" "c1" clusterLabels).1.

End Scenario.
(** ** Undeploy of a trigger from its clusters *)

Section Undeploy.
Context {D : Type} `{!DeployerInterface D} `{!ClusterProxy}.

Definition removePending : error := Errorf "remove pending".

(** [clusterInfo[i].Status = status] *)
Definition setStatus (ci : ClusterInfo) (status : SveltosFeatureStatus)
  : ClusterInfo :=
  mkClusterInfo (Cluster ci) (Hash ci) status (FailureMessage ci).

(** The loop of [undeployEventTrigger]; iteration [i] reads and writes
    entry [i] of [clusterInfo] only, and [err] keeps the last error. The
    handlers [f] come from [getHandlersForFeature], which is defined
    outside the files at hand. [removeEventTrigger] reads the name of the
    trigger and the clusters of its status entries, so the writes to the
    status of the entries do not reach it, whether or not [clusterInfo]
    is the slice of the trigger's status. *)
Fixpoint undeployEventTriggerLoop (r : EventTriggerReconciler)
    (resource : EventTrigger) (f : feature) (clusterInfo : list ClusterInfo)
    (err : option error) (w : World D)
  : list ClusterInfo * option error * World D :=
  match clusterInfo with
  | [] => ([], err, w)
  | ci :: rest =>
      let continue (ci : ClusterInfo) (err : option error) (w : World D) :=
        let '(rest, err, w) :=
          undeployEventTriggerLoop r resource f rest err w in
        (ci :: rest, err, w) in
      match isClusterAShardMatch r ci with
      | (_, Some tmpErr) => continue ci (Some tmpErr) w
      | (shardMatch, None) =>
          if negb shardMatch
             && negb (bool_decide (Status ci = SveltosStatusRemoved))
          then
            (* If shard is not a match, wait for other controller to remove *)
            continue ci (Some removePending) w
          else
            match removeEventTrigger resource (Cluster ci) f w with
            | ((_, Some tmpErr), w) => continue ci (Some tmpErr) w
            | ((_, None), w) =>
                continue (setStatus ci SveltosStatusRemoved) err w
            end
      end
  end.

Definition undeployEventTrigger (r : EventTriggerReconciler)
    (resource : EventTrigger) (f : feature) (clusterInfo : list ClusterInfo)
    (w : World D) : list ClusterInfo * option error * World D :=
  undeployEventTriggerLoop r resource f clusterInfo None w.

End Undeploy.

(** ** The jobs run by the dispatcher *)

(** What the deployment of an EventSource takes from outside the files at
    hand: [fetchEventSource] (the EventSource of the management cluster
    that the trigger references, nil when there is none),
    [deployer.AddOwnerReference] (libsveltos) on the owner-reference list
    of the object, and the annotation key
    [libsveltosv1beta1.DeployedBySveltosAnnotation]. *)
Class EventSourceDeployment := {
  fetchEventSource :
    string -> string -> string -> ClusterType -> result (option EventSource);
  AddOwnerReference :
    list OwnerReference.t -> EventTrigger -> list OwnerReference.t;
  DeployedBySveltosAnnotation : string;
}.

Section Jobs.
Context `{!LibsveltosKeys} `{!OwnerRefs} `{!EventSourceDeployment}.

(** The object written by the update branch and by the create branch of
    [createOrUpdateEventSource]. *)
Definition updatedEventSource (resource : EventTrigger)
    (eventSource currentEventSource : EventSource) : EventSource :=
  EventSource.mk (EventSource.Name currentEventSource)
    (EventSource.Labels eventSource)
    (Some {[ DeployedBySveltosAnnotation := "true" ]})
    (AddOwnerReference (EventSource.OwnerReferences currentEventSource) resource)
    (EventSource.Spec eventSource).

Definition createdEventSource (resource : EventTrigger)
    (eventSource : EventSource) : EventSource :=
  EventSource.mk (EventSource.Name eventSource)
    (EventSource.Labels eventSource) None
    (AddOwnerReference [] resource)
    (EventSource.Spec eventSource).

(** Any error of the Get leads to the create branch. *)
Definition createOrUpdateEventSource (resource : EventTrigger)
    (eventSource : EventSource) (a : ApiServer) : option error * ApiServer :=
  match getObject storedEventSources (EventSource.Name eventSource) a with
  | (ok currentEventSource, a1) =>
      updateObject storedEventSources setEventSources
        (EventSource.Name currentEventSource)
        (updatedEventSource resource eventSource currentEventSource) a1
  | (fail _, a1) =>
      createObject storedEventSources setEventSources
        (EventSource.Name eventSource)
        (createdEventSource resource eventSource) a1
  end.

Definition deployEventSource (clusterNamespace clusterName : string)
    (clusterType : ClusterType) (resource : EventTrigger) (a : ApiServer)
  : option error * ApiServer :=
  match fetchEventSource clusterNamespace clusterName
          (EventTrigger.EventSourceName (EventTrigger.Spec resource))
          clusterType with
  | fail err => (Some err, a)
  | ok None => (None, a)
  | ok (Some currentReferenced) =>
      match GetKubernetesClient a with
      | (Some err, a1) => (Some err, a1)
      | (None, a1) => createOrUpdateEventSource resource currentReferenced a1
      end
  end.

(** The handler queued by [processEventTrigger]. [featureID] and
    [options] are not read. *)
Definition processEventTriggerForCluster
    (clusterNamespace clusterName applicant : string)
    (clusterType : ClusterType) (a : ApiServer) : option error * ApiServer :=
  match getEventTrigger applicant a with
  | (fail err, a1) => if IsNotFound err then (None, a1) else (Some err, a1)
  | (ok resource, a1) =>
      if negb (IsZero (EventTrigger.DeletionTimestamp resource)) then (None, a1)
      else
        match deployEventSource clusterNamespace clusterName clusterType
                resource a1 with
        | (Some err, a2) => (Some err, a2)
        | (None, a2) =>
            removeStaleEventSources clusterNamespace clusterName clusterType
              resource false a2
        end
  end.

End Jobs.

Section UndeployJob.
Context {G : Type} `{!Random G} `{!GoRuntime} `{!LibsveltosKeys} `{!OwnerRefs}.
Context `{!ClusterProxy} `{!UnstructuredObjects} `{!TemplateExpansion G}.

(** The handler queued by [removeEventTrigger]. *)
Definition undeployEventTriggerResourcesFromCluster
    (clusterNamespace clusterName applicant : string)
    (clusterType : ClusterType) : Exp G unit :=
  fun s =>
    match getEventTrigger applicant (server s) with
    | (fail err, a1) =>
        (if IsNotFound err then ok tt else fail err, mkMgmt a1 (rng s))
    | (ok resource, a1) =>
        match removeStaleEventSources clusterNamespace clusterName clusterType
                resource true a1 with
        | (Some err, a2) => (fail err, mkMgmt a2 (rng s))
        | (None, a2) =>
            removeInstantiatedResources clusterNamespace clusterName
              clusterType resource None [] (mkMgmt a2 (rng s))
        end
    end.

End UndeployJob.
(** What [processEventTrigger] may ask of the dispatcher for a cluster:
    calls under the keys of the trigger, the feature and the cluster, and
    a submission only of the job of the direction at hand, deploy for a
    cluster that still matches, cleanup for one that does not. *)
Definition dispatcherCallFor `{!ClusterProxy} (resource : EventTrigger)
    (cluster : ObjectReference) (f : feature) (matching : bool)
    (call : DeployerCall) : Prop :=
  match call with
  | CallDeploy k h =>
      if matching then
        k = deployerKey cluster resource f false
        /\ h = processEventTriggerForClusterHandler
      else
        k = deployerKey cluster resource f true
        /\ h = undeployEventTriggerResourcesFromClusterHandler
  | _ => exists cleanup, callKey call = deployerKey cluster resource f cleanup
  end.
(** The objects of the management cluster other than EventReports. *)
Definition managementObjects (a : ApiServer) :=
  (storedEventTriggers a, storedClusterProfiles a, storedConfigMaps a,
   storedSecrets a).

(** EventSources and EventReports are stored under their own names. *)
Definition eventSourcesNamed (a : ApiServer) : bool :=
  forallb (fun kv : string * EventSource =>
             bool_decide (EventSource.Name kv.2 = kv.1))
    (map_to_list (storedEventSources a)).

Definition eventReportsNamed (a : ApiServer) : bool :=
  forallb (fun kv : string * string * EventReport =>
             bool_decide
               ((EventReport.Namespace kv.2, EventReport.Name kv.2) = kv.1))
    (map_to_list (storedEventReports a)).

Section StaleVocabulary.
Context `{!OwnerRefs}.

(** The EventSource is the one the trigger references, and the trigger
    is neither being deleted nor withdrawn from the cluster. *)
Definition stillReferenced (resource : EventTrigger) (removeAll : bool)
    (es : EventSource) : bool :=
  negb removeAll
  && IsZero (EventTrigger.DeletionTimestamp resource)
  && bool_decide (EventSource.Name es
                  = EventTrigger.EventSourceName (EventTrigger.Spec resource)).

(** The EventSources from which [removeStaleEventSources] withdraws the
    trigger. *)
Definition staleEventSource (resource : EventTrigger) (removeAll : bool)
    (es : EventSource) : bool :=
  negb (stillReferenced resource removeAll es)
  && IsOwnedByObject (EventSource.OwnerReferences es) resource.

(** What a pass may leave of the stored EventSource [before]: the object
    itself, or, when it is stale, the object without the trigger among
    its owners, or nothing when the trigger was its only owner. *)
Definition staleOutcome (resource : EventTrigger) (removeAll : bool)
    (before : EventSource) (after : option EventSource) : Prop :=
  after = Some before
  \/ (staleEventSource resource removeAll before = true
      /\ let refs :=
           RemoveOwnerReference (EventSource.OwnerReferences before) resource in
         (length refs <> 0%nat
          /\ after = Some (withOwnerReferences before refs))
         \/ (length refs = 0%nat /\ after = None)).

End StaleVocabulary.

(** No stored ClusterProfile carries the labels, and no ConfigMap or
    Secret of the report namespace does. *)
Definition derivedClearedFor (labels : gmap string string) (a : ApiServer)
  : Prop :=
  (forall k cp, storedClusterProfiles a !! k = Some cp ->
     matchesLabels labels (ClusterProfile.Labels cp) = false)
  /\ (forall k cm, storedConfigMaps a !! k = Some cm ->
        ConfigMap.Namespace cm = ReportNamespace ->
        matchesLabels labels (ConfigMap.Labels cm) = false)
  /\ (forall k sec, storedSecrets a !! k = Some sec ->
        Secret.Namespace sec = ReportNamespace ->
        matchesLabels labels (Secret.Labels sec) = false).

Section KeptVocabulary.
Context {G : Type} `{!ClusterProxy} `{!UnstructuredObjects} `{!TemplateExpansion G}.

(** From [a] to [a'] ClusterProfiles were deleted only, and none that
    does not carry the labels or is named like one of [cps]. *)
Definition keptClusterProfiles (labels : gmap string string)
    (cps : list ClusterProfile) (a a' : ApiServer) : Prop :=
  storedClusterProfiles a' ⊆ storedClusterProfiles a
  /\ forall k cp,
       storedClusterProfiles a !! k = Some cp ->
       matchesLabels labels (ClusterProfile.Labels cp) = false
       \/ ClusterProfile.Name cp ∈ ClusterProfile.Name <$> cps ->
       storedClusterProfiles a' !! k = Some cp.

(** From [a] to [a'] ConfigMaps (Secrets) were deleted only, and none
    that does not carry the labels, lies outside the report namespace or
    is referenced in [policyRefs]. *)
Definition keptConfigMaps (labels : gmap string string)
    (policyRefs : gset LibPolicyRef.t) (a a' : ApiServer) : Prop :=
  storedConfigMaps a' ⊆ storedConfigMaps a
  /\ forall k cm,
       storedConfigMaps a !! k = Some cm ->
       matchesLabels labels (ConfigMap.Labels cm) = false
       \/ ConfigMap.Namespace cm <> ReportNamespace
       \/ getPolicyRefOfConfigMap cm ∈ policyRefs ->
       storedConfigMaps a' !! k = Some cm.

Definition keptSecrets (labels : gmap string string)
    (policyRefs : gset LibPolicyRef.t) (a a' : ApiServer) : Prop :=
  storedSecrets a' ⊆ storedSecrets a
  /\ forall k sec,
       storedSecrets a !! k = Some sec ->
       matchesLabels labels (Secret.Labels sec) = false
       \/ Secret.Namespace sec <> ReportNamespace
       \/ getPolicyRefOfSecret sec ∈ policyRefs ->
       storedSecrets a' !! k = Some sec.

End KeptVocabulary.
(** The labels [instantiateClusterProfileForResource] gives to the
    ClusterProfile of a matching resource, and looks it up by. *)
Definition resourceProfileLabels (clusterNamespace clusterName : string)
    (clusterType : ClusterType) (eventTrigger : EventTrigger)
    (er : EventReport) (matchingResource : ObjectReference)
  : gmap string string :=
  copyLabels
    (getInstantiatedObjectLabelsForResource (Namespace matchingResource)
       (Name matchingResource))
    (getInstantiatedObjectLabels clusterNamespace clusterName
       (EventTrigger.Name eventTrigger) (Some er) clusterType).

(** The non-empty pieces of [Spec.Resources]. *)
Definition resourceDocuments (eventReport : EventReport) : list string :=
  List.filter (fun element => negb (bool_decide (element = "")))
    (Split (EventReport.Resources (EventReport.Spec eventReport)) "---").
(** ** Derived ConfigMaps and Secrets *)

(** A referenced policy is a ConfigMap or a Secret: the Go code panics
    on any other dynamic type, the type excludes them. *)
Inductive PolicyObject :=
| PolicyConfigMap (cm : ConfigMap)
| PolicySecret (secret : Secret).

(** [ref.GetNamespace()], [ref.GetName()], [ref.GetAnnotations()] *)
Definition policyNamespace (ref : PolicyObject) : string :=
  match ref with
  | PolicyConfigMap cm => ConfigMap.Namespace cm
  | PolicySecret secret => Secret.Namespace secret
  end.

Definition policyName (ref : PolicyObject) : string :=
  match ref with
  | PolicyConfigMap cm => ConfigMap.Name cm
  | PolicySecret secret => Secret.Name secret
  end.

Definition policyLabels (ref : PolicyObject) : GoMap :=
  match ref with
  | PolicyConfigMap cm => ConfigMap.Labels cm
  | PolicySecret secret => Secret.Labels secret
  end.

Definition policyAnnotations (ref : PolicyObject) : GoMap :=
  match ref with
  | PolicyConfigMap cm => ConfigMap.Annotations cm
  | PolicySecret secret => Secret.Annotations secret
  end.

(** [string(value)] and [[]byte(value)] *)
Definition string_of_bytes (value : list byte) : string :=
  String.string_of_list_byte value.

(** What the instantiation takes from outside the files at hand:
    text/template with the Sveltos function map ([parseTemplate] is
    [template.New(name).Option("missingkey=error").Funcs(...).Parse(text)],
    [executeParsed] is [Execute] into a buffer), encoding/json on a
    [map[string]string], the group-version-kind of an object, the
    namespace of unstructured content, and from libsveltos the policy
    template annotation, the type of the derived Secrets and
    [GetReferenceResourceNamespace]. *)
Class PolicyTemplates `{!ClusterProxy} `{!UnstructuredObjects} := {
  Template : Type;
  parseTemplate : string -> string -> result Template;
  executeParsed : Template -> TemplateData -> result string;
  marshalContent : GoMap -> result string;
  unmarshalContent : string -> result (gmap string string);
  ToAPIVersionAndKind : PolicyObject -> string * string;
  contentNamespace : Content -> string;
  PolicyTemplateAnnotation : string;
  ClusterProfileSecretType : string;
  GetReferenceResourceNamespace : string -> string -> string;
}.

Module Policies.

Section Instantiation.
Context {G : Type} `{!Random G}.
Context `{!ClusterProxy} `{!UnstructuredObjects} `{!PolicyTemplates}.

Definition instantiateSection (templateName toBeInstantiated : string)
    (data : TemplateData) : result string :=
  match parseTemplate templateName toBeInstantiated with
  | fail err => fail err
  | ok tmpl => executeParsed tmpl data
  end.

Definition instantiateDataSection (templateName : string) (content : GoMap)
    (data : TemplateData) : result (gmap string string) :=
  match marshalContent content with
  | fail err => fail err
  | ok contentJson =>
      match parseTemplate templateName contentJson with
      | fail err => fail err
      | ok tmpl =>
          match executeParsed tmpl data with
          | fail err => fail err
          | ok buffer => unmarshalContent buffer
          end
      end
  end.

(** The loop of [instantiateTemplateResourceRefs]: it stops at the first
    name that does not parse or execute. *)
Fixpoint instantiateTemplateResourceRefs (templateName : string)
    (clusterContent : Content) (data : TemplateData)
    (templateResourceRefs : list TemplateResourceRef.t)
  : result (list TemplateResourceRef.t) :=
  match templateResourceRefs with
  | [] => ok []
  | ref :: rest =>
      let resource := TemplateResourceRef.Resource ref in
      let namespace :=
        GetReferenceResourceNamespace (contentNamespace clusterContent)
          (Namespace resource) in
      match parseTemplate templateName (Name resource) with
      | fail err => fail err
      | ok tmpl =>
          match executeParsed tmpl data with
          | fail err => fail err
          | ok buffer =>
              match instantiateTemplateResourceRefs templateName
                      clusterContent data rest with
              | fail err => fail err
              | ok instantiated =>
                  ok (TemplateResourceRef.mk
                        (mkRef (Kind resource) namespace buffer (UID resource)
                           (APIVersion resource) (ResourceVersion resource)
                           (FieldPath resource))
                        (TemplateResourceRef.Identifier ref)
                      :: instantiated)
              end
          end
      end
  end.

Definition getDataSection (ref : PolicyObject) : GoMap :=
  match ref with
  | PolicyConfigMap cm => ConfigMap.Data cm
  | PolicySecret secret =>
      Some (string_of_bytes <$> default ∅ (Secret.Data secret))
  end.

Definition getResourceName (ref : PolicyObject) (labels : gmap string string)
  : Exp G (string * bool) :=
  match ref with
  | PolicyConfigMap _ => getConfigMapName labels
  | PolicySecret _ => getSecretName labels
  end.

Definition createConfigMap (ref : PolicyObject) (name : string)
    (labels content : gmap string string) : Exp G unit :=
  let cm :=
    ConfigMap.mk ReportNamespace name (Some labels) (policyAnnotations ref)
      (Some content) in
  requestErr (createObject storedConfigMaps setConfigMaps
                (ReportNamespace, name) cm).

Definition createSecret (ref : PolicyObject) (name : string)
    (labels content : gmap string string) : Exp G unit :=
  let data := bytes_of_string <$> content in
  let secret :=
    Secret.mk ReportNamespace name (Some labels) (policyAnnotations ref)
      (Some data) ClusterProfileSecretType in
  requestErr (createObject storedSecrets setSecrets
                (ReportNamespace, name) secret).

Definition createResource (ref : PolicyObject) (name : string)
    (labels content : gmap string string) : Exp G unit :=
  match ref with
  | PolicyConfigMap _ => createConfigMap ref name labels content
  | PolicySecret _ => createSecret ref name labels content
  end.

Definition updateConfigMap (name : string)
    (labels content : gmap string string) : Exp G unit :=
  let* cm := request (getObject storedConfigMaps (ReportNamespace, name)) in
  requestErr
    (updateObject storedConfigMaps setConfigMaps
       (ConfigMap.Namespace cm, ConfigMap.Name cm)
       (ConfigMap.mk (ConfigMap.Namespace cm) (ConfigMap.Name cm)
          (Some labels) (ConfigMap.Annotations cm) (Some content))).

Definition updateSecret (name : string)
    (labels content : gmap string string) : Exp G unit :=
  let data := bytes_of_string <$> content in
  let* secret := request (getObject storedSecrets (ReportNamespace, name)) in
  requestErr
    (updateObject storedSecrets setSecrets
       (Secret.Namespace secret, Secret.Name secret)
       (Secret.mk (Secret.Namespace secret) (Secret.Name secret)
          (Some labels) (Secret.Annotations secret) (Some data)
          ClusterProfileSecretType)).

Definition updateResource (ref : PolicyObject) (name : string)
    (labels content : gmap string string) : Exp G unit :=
  match ref with
  | PolicyConfigMap _ => updateConfigMap name labels content
  | PolicySecret _ => updateSecret name labels content
  end.

(** [labels] as [instantiateReferencedPolicy] leaves the map of its
    caller. *)
Definition referencedLabels (ref : PolicyObject) (labels : gmap string string)
  : gmap string string :=
  <[referencedResourceNameLabel := policyName ref]>
    (<[referencedResourceNamespaceLabel := policyNamespace ref]> labels).

(** The result is the namespaced name of the derived object, with the
    label map as the function leaves it. On an error the callers drop
    the map. *)
Definition instantiateReferencedPolicy (ref : PolicyObject)
    (templateName : string) (data : TemplateData)
    (labels : gmap string string)
  : Exp G (string * string * gmap string string) :=
  let content := getDataSection ref in
  let* instantiatedContent :=
    liftResult (instantiateDataSection templateName content data) in
  let content := instantiatedContent in
  let labels := referencedLabels ref labels in
  let* (name, create) := getResourceName ref labels in
  let* _ :=
    if create then createResource ref name labels content
    else updateResource ref name labels content in
  ret (ReportNamespace, name, labels).

(** [_, ok := ref.GetAnnotations()[PolicyTemplateAnnotation]] *)
Definition isTemplate (ref : PolicyObject) : bool :=
  bool_decide
    (is_Some (default ∅ (policyAnnotations ref) !! PolicyTemplateAnnotation)).

(** The loop of [instantiateResources], with the set built so far. *)
Fixpoint instantiateResourcesLoop (templateName : string)
    (resources : list PolicyObject) (data : TemplateData)
    (labels : gmap string string) (result : gset ObjectReference)
  : Exp G (gset ObjectReference * gmap string string) :=
  match resources with
  | [] => ret (result, labels)
  | ref :: rest =>
      let '(apiVersion, kind) := ToAPIVersionAndKind ref in
      let* (infoNamespace, infoName, labels) :=
        if negb (isTemplate ref) then
          ret (policyNamespace ref, policyName ref, labels)
        else instantiateReferencedPolicy ref templateName data labels in
      instantiateResourcesLoop templateName rest data labels
        ({[ mkRef kind infoNamespace infoName "" apiVersion "" "" ]} ∪ result)
  end.

Definition instantiateResources (templateName : string)
    (resources : list PolicyObject) (data : TemplateData)
    (labels : gmap string string)
  : Exp G (gset ObjectReference * gmap string string) :=
  instantiateResourcesLoop templateName resources data labels ∅.

End Instantiation.

End Policies.

(** *** Vocabulary for the derived objects *)

(** The stored object of the kind of [ref] under [key]. *)
Definition storedPolicy (ref : PolicyObject) (key : string * string)
    (a : ApiServer) : option PolicyObject :=
  match ref with
  | PolicyConfigMap _ => PolicyConfigMap <$> storedConfigMaps a !! key
  | PolicySecret _ => PolicySecret <$> storedSecrets a !! key
  end.

(** The keys of the stored objects of the kind of [ref]. *)
Definition storedPolicyNames (ref : PolicyObject) (a : ApiServer)
  : gset (string * string) :=
  match ref with
  | PolicyConfigMap _ => dom (storedConfigMaps a)
  | PolicySecret _ => dom (storedSecrets a)
  end.

(** The objects that [getResourceName] lists for [ref] and [labels]. *)
Definition carries (labels : gmap string string) (o : PolicyObject) : bool :=
  matchesLabels labels (policyLabels o)
  && bool_decide (policyNamespace o = ReportNamespace).

(** The label map after the references of [resources] were processed in
    order. *)
Definition labelsAfter `{!ClusterProxy} `{!UnstructuredObjects}
    `{!PolicyTemplates} (resources : list PolicyObject)
    (labels : gmap string string) : gmap string string :=
  foldl (fun labels ref =>
           if Policies.isTemplate ref then Policies.referencedLabels ref labels
           else labels)
    labels resources.

(** The shape shared by the ConfigMap and the Secret branch of
    [instantiateReferencedPolicy] from the name lookup on, over one map
    of the API server: [sel] is the list selector, [created] the object
    sent to Create and [updated] the object sent to Update. *)
Section Derive.
Context {G : Type} `{!Random G} {V : Type}.
Context (field : ApiServer -> gmap (string * string) V).
Context (setField : ApiServer -> gmap (string * string) V -> ApiServer).
Context (sel : V -> bool) (nameOf : V -> string) (keyOf : V -> string * string).
Context (created : string -> V) (updated : V -> V).

Definition deriveObject : Exp G string :=
  let* (name, create) :=
    (let* items := request (listObjects field sel) in
     nameFromObjects (map nameOf items)) in
  let* _ :=
    if create then
      requestErr (createObject field setField (ReportNamespace, name)
                    (created name))
    else
      let* current := request (getObject field (ReportNamespace, name)) in
      requestErr (updateObject field setField (keyOf current)
                    (updated current)) in
  ret name.

End Derive.

Section DerivePolicy.
Context {G : Type} `{!Random G}.
Context `{!ClusterProxy} `{!UnstructuredObjects} `{!PolicyTemplates}.

(** [instantiateReferencedPolicy] for [ref], once the content is
    instantiated and the labels are set. *)
Definition derivePolicy (ref : PolicyObject)
    (labels content : gmap string string) : Exp G string :=
  match ref with
  | PolicyConfigMap _ =>
      deriveObject storedConfigMaps setConfigMaps
        (fun cm => matchesLabels labels (ConfigMap.Labels cm)
                   && bool_decide (ConfigMap.Namespace cm = ReportNamespace))
        ConfigMap.Name
        (fun cm => (ConfigMap.Namespace cm, ConfigMap.Name cm))
        (fun name =>
           ConfigMap.mk ReportNamespace name (Some labels)
             (policyAnnotations ref) (Some content))
        (fun cm =>
           ConfigMap.mk (ConfigMap.Namespace cm) (ConfigMap.Name cm)
             (Some labels) (ConfigMap.Annotations cm) (Some content))
  | PolicySecret _ =>
      deriveObject storedSecrets setSecrets
        (fun sec => matchesLabels labels (Secret.Labels sec)
                    && bool_decide (Secret.Namespace sec = ReportNamespace))
        Secret.Name
        (fun sec => (Secret.Namespace sec, Secret.Name sec))
        (fun name =>
           Secret.mk ReportNamespace name (Some labels)
             (policyAnnotations ref) (Some (bytes_of_string <$> content))
             ClusterProfileSecretType)
        (fun sec =>
           Secret.mk (Secret.Namespace sec) (Secret.Name sec)
             (Some labels) (Secret.Annotations sec)
             (Some (bytes_of_string <$> content)) ClusterProfileSecretType)
  end.

End DerivePolicy.

Definition sameKind (ref ref' : PolicyObject) : bool :=
  match ref, ref' with
  | PolicyConfigMap _, PolicyConfigMap _ => true
  | PolicySecret _, PolicySecret _ => true
  | _, _ => false
  end.

Section PolicyVocabulary.
Context `{!ClusterProxy} `{!UnstructuredObjects} `{!PolicyTemplates}.

(** The reference that [instantiateResources] inserts for [ref] when
    the object to use is [namespace/name]. *)
Definition policyReference (ref : PolicyObject) (namespace name : string)
  : ObjectReference :=
  mkRef (ToAPIVersionAndKind ref).2 namespace name ""
    (ToAPIVersionAndKind ref).1 "" "".

(** A reference to [ref] itself. *)
Definition plainReference (ref : PolicyObject) : ObjectReference :=
  policyReference ref (policyNamespace ref) (policyName ref).

(** What [instantiateTemplateResourceRefs] makes of one entry: the
    namespace is resolved against the one of the cluster, the name is
    instantiated, the rest is copied. *)
Definition instantiatedRef (templateName : string) (clusterContent : Content)
    (data : TemplateData) (ref out : TemplateResourceRef.t) : Prop :=
  exists name,
    Policies.instantiateSection templateName
      (Name (TemplateResourceRef.Resource ref)) data = ok name
    /\ out
       = TemplateResourceRef.mk
           (mkRef (Kind (TemplateResourceRef.Resource ref))
              (GetReferenceResourceNamespace (contentNamespace clusterContent)
                 (Namespace (TemplateResourceRef.Resource ref)))
              name
              (UID (TemplateResourceRef.Resource ref))
              (APIVersion (TemplateResourceRef.Resource ref))
              (ResourceVersion (TemplateResourceRef.Resource ref))
              (FieldPath (TemplateResourceRef.Resource ref)))
           (TemplateResourceRef.Identifier ref).

(** [o] is the reference inserted for [ref]: to [ref] itself when it is
    not a template, to an object of the report namespace when it is. *)
Definition referenceFor (ref : PolicyObject) (o : ObjectReference) : Prop :=
  if Policies.isTemplate ref then
    o = policyReference ref ReportNamespace (Name o)
  else o = plainReference ref.

End PolicyVocabulary.
(** ** Concrete collaborators and inputs for the jobs and the undeploy *)

Module JobFixture.
Import Fixture.

(** Every EventSource name but the empty one is found in the management
    cluster; an owner reference to the trigger is appended unless there
    is one. *)
Definition eventSources : EventSourceDeployment := {|
  fetchEventSource _ _ eventSourceName _ :=
    if bool_decide (eventSourceName = "") then ok None
    else ok (Some (EventSource.mk eventSourceName None None []
                     ("spec of " +:+ eventSourceName)));
  AddOwnerReference refs resource :=
    if existsb (refersTo resource) refs then refs
    else refs
         ++ [OwnerReference.mk "lib.projectsveltos.io/v1beta1" "EventTrigger"
               (EventTrigger.Name resource) ""];
  DeployedBySveltosAnnotation := "projectsveltos.io/deployed-by-sveltos";
|}.

End JobFixture.

Module JobScenario.
Import Fixture Scenario JobFixture.

Definition undeploy :=
  @undeployEventTrigger TableDispatcher dispatcher clusterProxy.

(** *** A trigger without status entries, undeployed from the cluster [a] *)
Definition undeployRun :=
  undeploy reconciler (trigger [] []) eventTriggerFeature [entryOf "a"]
    (world []).

(** *** The same for a cluster of another shard *)
Definition undeployForeignRun :=
  undeploy reconciler (trigger [] []) eventTriggerFeature [foreignEntry]
    (world []).

Definition removeRun :=
  @removeEventTrigger TableDispatcher dispatcher clusterProxy (trigger [] [])
    c1 eventTriggerFeature (world []).

(** *** Two triggers that differ in the hash of their entry *)
Definition triggerA : EventTrigger := trigger [] [provisionedEntry].
Definition triggerB : EventTrigger := trigger [] [outdatedEntry].

(** *** One pulled EventReport, no failure *)
Definition apiWithReport : ApiServer :=
  mkApi ∅ ∅ ∅ ∅ {[ ("shardA", "er-old") := pulledReport ]} ∅ [].

Definition reportsRun :=
  @removeStaleEventReports keys "shardA" "c1" "es-old" ClusterTypeCapi
    apiWithReport.

(** *** The referenced EventSource, deployed to an empty managed cluster *)
Definition referenced : EventSource :=
  EventSource.mk "es1" None None [] "spec of es1".

Definition createRun :=
  @createOrUpdateEventSource eventSources (trigger [] []) referenced emptyApi.

Definition jobRun :=
  @processEventTriggerForCluster keys ownerRefs eventSources "shardA" "c1" "t1"
    ClusterTypeCapi apiWithTrigger.

(** *** The sweep of the ClusterProfile derived from [er0] *)
Definition sweepRun :=
  @removeInstantiatedResources nat clusterProxy unstructured templates
    "shardA" "c1" ClusterTypeCapi (trigger [c1] []) (Some deletedReport) []
    (mkMgmt apiWithProfile 0%nat).

Definition apiWithTriggerAndProfile : ApiServer :=
  mkApi {[ "t1" := trigger [] [] ]} {[ "sveltos-other" := otherProfile ]}
        ∅ ∅ ∅ ∅ [].

Definition cleanupJobRun :=
  @undeployEventTriggerResourcesFromCluster nat keys ownerRefs clusterProxy
    unstructured templates "shardA" "c1" "t1" ClusterTypeCapi
    (mkMgmt apiWithTriggerAndProfile 0%nat).

(** *** A cluster-scoped and a namespaced matching resource of one name *)
Definition scopedResource : ObjectReference :=
  mkRef "Namespace" "" "web" "" "v1" "" "".
Definition namespacedResource : ObjectReference :=
  mkRef "Service" "app" "web" "" "v1" "" "".

(** *** A new spec for the stored ClusterProfile *)
Definition newSpec : ClusterProfile.Spec_t :=
  ClusterProfile.mkSpec "" None "" "Continuous" 0 false false None None [] []
    None None [] [] [].

Definition specRun :=
  @updateClusterProfileSpec nat (ClusterProfile.mk "sveltos-other" None newSpec)
    (mkMgmt apiWithProfile 0%nat).

End JobScenario.

Module PolicyFixture.
Import Fixture.

(** One entry of the printed content, [key=value]. *)
Definition contentEntry (piece : string) : option (string * string) :=
  match Split piece "=" with
  | [key; value] => Some (key, value)
  | _ => None
  end.

(** Templates that expand to themselves, unless they open an action
    they do not close; content printed as [key=value;] entries. *)
Definition policyTemplates : @PolicyTemplates clusterProxy unstructured := {|
  Template := string;
  parseTemplate _ text :=
    if bool_decide (text = "{{") then fail (Errorf "unclosed action")
    else ok text;
  executeParsed tmpl _ := ok tmpl;
  marshalContent content :=
    ok (String.concat ""
          (map (fun kv : string * string => kv.1 +:+ "=" +:+ kv.2 +:+ ";")
             (map_to_list (default ∅ content))));
  unmarshalContent text := ok (list_to_map (omap contentEntry (Split text ";")));
  ToAPIVersionAndKind ref :=
    match ref with
    | PolicyConfigMap _ => ("v1", "ConfigMap")
    | PolicySecret _ => ("v1", "Secret")
    end;
  contentNamespace :=
    (fun cluster : string => cluster) : @Content clusterProxy unstructured -> string;
  PolicyTemplateAnnotation := "projectsveltos.io/template";
  ClusterProfileSecretType := "addons.projectsveltos.io/cluster-profile";
  GetReferenceResourceNamespace clusterNamespace referencedNamespace :=
    if bool_decide (referencedNamespace = "") then clusterNamespace
    else referencedNamespace;
|}.

End PolicyFixture.

Module PolicyScenario.
Import Fixture Scenario PolicyFixture.

Definition data : @TemplateData clusterProxy unstructured :=
  @AllResources clusterProxy unstructured
    (@mkCurrentObjects clusterProxy unstructured [] [] "shardA").

Definition baseLabels : gmap string string :=
  triggerClusterLabels "shardA" "c1" ClusterTypeCapi (trigger [] []).

(** *** A ConfigMap that is a template, and a Secret that is not *)
Definition templateRef : PolicyObject :=
  PolicyConfigMap
    (ConfigMap.mk "default" "policy" None
       (Some {[ "projectsveltos.io/template" := "ok" ]})
       (Some {[ "rule" := "allow" ]})).

Definition changedTemplateRef : PolicyObject :=
  PolicyConfigMap
    (ConfigMap.mk "default" "policy" None
       (Some {[ "projectsveltos.io/template" := "ok" ]})
       (Some {[ "rule" := "deny" ]})).

Definition plainRef : PolicyObject :=
  PolicySecret (Secret.mk "default" "token" None None None "Opaque").

Definition instantiatePolicy :=
  @Policies.instantiateReferencedPolicy nat random clusterProxy unstructured
    policyTemplates.

Definition instantiateAll :=
  @Policies.instantiateResources nat random clusterProxy unstructured
    policyTemplates.

Definition derivedName : string :=
  "sveltos-" +:+ (@RandomString nat random nameLength 0%nat).1.

(** *** The template instantiated on an empty management cluster, twice *)
Definition policyRun :=
  instantiatePolicy templateRef "template" data baseLabels
    (mkMgmt emptyApi 0%nat).

Definition secondRun :=
  instantiatePolicy changedTemplateRef "template" data baseLabels policyRun.2.

(** *** The references of a trigger *)
Definition plainRun :=
  instantiateAll "template" [plainRef] data baseLabels (mkMgmt emptyApi 0%nat).

Definition mixedRun :=
  instantiateAll "template" [templateRef; plainRef] data baseLabels
    (mkMgmt emptyApi 0%nat).

End PolicyScenario.
(** * Properties *)

(** ** The deploy path of [processEventTrigger] *)

Section DeployPath.
Context {D : Type} `{!DeployerInterface D} `{!ClusterProxy}.
Context `{!GoRuntime} `{!GoRender} `{!ReferencedResources}.

(** With an unchanged hash and a failed deploy result,
    [processEventTrigger] answers with a ClusterInfo for the cluster
    whose status is Failed, whose hash is the new fingerprint and which
    carries no failure message; it reports no error of its own and
    submits nothing: the dispatcher is only asked for the state of the
    cleanup and for the result. *)
Theorem processEventTrigger_failed_result
    (resource : EventTrigger) (cluster : ObjectReference) (f : feature)
    (w : World D) (h : list byte) (e : error) (d2 : D) :
  let kc := deployerKey cluster resource f true in
  let kd := deployerKey cluster resource f false in
  let d1 := CleanupEntries (deployer w) kc in
  isClusterStillMatching resource cluster = true ->
  eventTriggerHash resource cluster = ok h ->
  canProceed resource cluster = ok true ->
  IsInProgress d1 kc = false ->
  (getClusterHashAndStatus resource cluster).1 = Some h ->
  GetResult d1 kd = (Result.mk Failed (Some e), d2) ->
  exists ci w',
    processEventTrigger resource cluster f w = ((Some ci, None), w')
    /\ Cluster ci = cluster
    /\ Status ci = SveltosStatusFailed
    /\ Hash ci = Some h
    /\ FailureMessage ci = None
    /\ deployer w' = d2
    /\ calls w' = calls w ++ openingCalls kc ++ [CallGetResult kd].
Proof.
  intros kc kd d1 Hmatch Hhash Hproceed Hprog Hsame Hres.
  destruct (getClusterHashAndStatus resource cluster) as [hash st] eqn:Hgs.
  simpl in Hsame. subst hash.
  eexists _, _. split.
  { unfold processEventTrigger.
    rewrite Hmatch, Hhash, Hproceed. simpl.
    fold kc kd. unfold doIsInProgress, doCleanupEntries. simpl.
    fold d1. rewrite Hprog, Hgs.
    rewrite (bool_decide_eq_true_2 (Some h = Some h)) by done.
    unfold doGetResult. simpl. rewrite Hres. simpl.
    reflexivity. }
  simpl. unfold openingCalls. by rewrite <- !app_assoc.
Qed.

(** C2, as the code has it. On the deploy path, a changed hash makes
    the status Provisioning and submits the deploy job. With an
    unchanged hash and no dispatcher result the same happens unless the
    recorded status is Provisioned; in that case the status stays
    Provisioned and nothing is submitted. ("Submits" is a [Deploy] call
    that the dispatcher accepts.) *)
Theorem processEventTrigger_submits
    (resource : EventTrigger) (cluster : ObjectReference) (f : feature)
    (w : World D) (h : list byte) :
  let kc := deployerKey cluster resource f true in
  let kd := deployerKey cluster resource f false in
  let d1 := CleanupEntries (deployer w) kc in
  let job := processEventTriggerForClusterHandler in
  isClusterStillMatching resource cluster = true ->
  eventTriggerHash resource cluster = ok h ->
  canProceed resource cluster = ok true ->
  IsInProgress d1 kc = false ->
  ((getClusterHashAndStatus resource cluster).1 <> Some h ->
   forall d2, Deploy d1 kd job = (None, d2) ->
   processEventTrigger resource cluster f w =
     ((Some (mkClusterInfo cluster (Some h) SveltosStatusProvisioning None),
       None),
      mkWorld d2 (calls w ++ openingCalls kc ++ [CallDeploy kd job]) (api w)))
  /\
  (forall st res d2,
     getClusterHashAndStatus resource cluster = (Some h, st) ->
     GetResult d1 kd = (res, d2) ->
     Result.ResultStatus res = Unavailable ->
     (st <> Some SveltosStatusProvisioned ->
      forall d3, Deploy d2 kd job = (None, d3) ->
      processEventTrigger resource cluster f w =
        ((Some (mkClusterInfo cluster (Some h) SveltosStatusProvisioning None),
          None),
         mkWorld d3
           (calls w ++ openingCalls kc ++ [CallGetResult kd; CallDeploy kd job])
           (api w)))
     /\
     (st = Some SveltosStatusProvisioned ->
      processEventTrigger resource cluster f w =
        ((Some (mkClusterInfo cluster (Some h) SveltosStatusProvisioned None),
          None),
         mkWorld d2 (calls w ++ openingCalls kc ++ [CallGetResult kd]) (api w)))).
Proof.
  intros kc kd d1 job Hmatch Hhash Hproceed Hprog.
  split.
  - intros Hdiff d2 Hdep.
    unfold processEventTrigger.
    rewrite Hmatch, Hhash, Hproceed. simpl. fold kc kd.
    unfold doIsInProgress, doCleanupEntries. simpl. fold d1. rewrite Hprog.
    destruct (getClusterHashAndStatus resource cluster) as [hash st] eqn:Hgs.
    simpl in Hdiff.
    rewrite (bool_decide_eq_false_2 (hash = Some h)) by done.
    simpl. unfold doDeploy. simpl. fold job. rewrite Hdep.
    unfold openingCalls. by rewrite <- !app_assoc.
  - intros st res d2 Hgs Hres Hun. split.
    + intros Hst d3 Hdep.
      unfold processEventTrigger.
      rewrite Hmatch, Hhash, Hproceed. simpl. fold kc kd.
      unfold doIsInProgress, doCleanupEntries. simpl. fold d1.
      rewrite Hprog, Hgs.
      rewrite (bool_decide_eq_true_2 (Some h = Some h)) by done.
      unfold doGetResult. simpl. rewrite Hres.
      unfold convertResultStatus. rewrite Hun. simpl.
      rewrite (bool_decide_eq_false_2 (st = Some SveltosStatusProvisioned))
        by done.
      unfold doDeploy. simpl. fold job. rewrite Hdep.
      unfold openingCalls. by rewrite <- !app_assoc.
    + intros ->.
      unfold processEventTrigger.
      rewrite Hmatch, Hhash, Hproceed. simpl. fold kc kd.
      unfold doIsInProgress, doCleanupEntries. simpl. fold d1.
      rewrite Hprog, Hgs.
      rewrite (bool_decide_eq_true_2 (Some h = Some h)) by done.
      unfold doGetResult. simpl. rewrite Hres.
      unfold convertResultStatus. rewrite Hun. simpl.
      unfold openingCalls. by rewrite <- !app_assoc.
Qed.

End DeployPath.

(** ** The pass over the ClusterInfo entries *)

Section Rollup.
Context {D : Type} `{!DeployerInterface D} `{!ClusterProxy}.
Context `{!GoRuntime} `{!GoRender} `{!ReferencedResources}.

Lemma callsAdded_refl cluster (w : World D) : callsAdded cluster w w.
Proof. exists []. by rewrite app_nil_r. Qed.

Lemma callsAdded_trans cluster (w1 w2 w3 : World D) :
  callsAdded cluster w1 w2 -> callsAdded cluster w2 w3 -> callsAdded cluster w1 w3.
Proof.
  intros (n1 & E1 & F1) (n2 & E2 & F2). exists (n1 ++ n2).
  split; [by rewrite E2, E1, app_assoc | by apply Forall_app].
Qed.

Lemma callsAdded_one cluster (w w' : World D) call :
  calls w' = calls w ++ [call] ->
  keyCluster (callKey call) = clusterKey cluster ->
  callsAdded cluster w w'.
Proof. intros E K. exists [call]. split; [done | by constructor]. Qed.

Lemma callsAdded_cleanup cluster resource f b (w : World D) :
  callsAdded cluster w (doCleanupEntries (deployerKey cluster resource f b) w).
Proof. by eapply callsAdded_one. Qed.

Lemma callsAdded_isInProgress cluster resource f b (w : World D) r w' :
  doIsInProgress (deployerKey cluster resource f b) w = (r, w') ->
  callsAdded cluster w w'.
Proof. intros [= _ <-]. by eapply callsAdded_one. Qed.

Lemma callsAdded_getResult cluster resource f b (w : World D) r w' :
  doGetResult (deployerKey cluster resource f b) w = (r, w') ->
  callsAdded cluster w w'.
Proof.
  unfold doGetResult. destruct (GetResult _ _). intros [= _ <-].
  by eapply callsAdded_one.
Qed.

Lemma callsAdded_deploy cluster resource f b h (w : World D) r w' :
  doDeploy (deployerKey cluster resource f b) h w = (r, w') ->
  callsAdded cluster w w'.
Proof.
  unfold doDeploy. destruct (Deploy _ _ _). intros [= _ <-].
  by eapply callsAdded_one.
Qed.

Lemma callsAdded_setApi cluster (w : World D) a : callsAdded cluster w (setApi w a).
Proof. exists []. by rewrite app_nil_r. Qed.

Lemma removeEventTrigger_calls resource cluster f (w : World D) out w' :
  removeEventTrigger resource cluster f w = (out, w') ->
  callsAdded cluster w w'.
Proof.
  unfold removeEventTrigger. intros Hrun.
  pose proof (callsAdded_cleanup cluster resource f false w) as Hc0.
  repeat case_match; simplify_eq;
    repeat match goal with
    | H : doIsInProgress _ _ = _ |- _ => apply callsAdded_isInProgress in H
    | H : doGetResult _ _ = _ |- _ => apply callsAdded_getResult in H
    | H : doDeploy _ _ _ = _ |- _ => apply callsAdded_deploy in H
    end;
    eauto 6 using callsAdded_trans, callsAdded_setApi.
Qed.

Lemma processEventTrigger_calls resource cluster f (w : World D) out w' :
  processEventTrigger resource cluster f w = (out, w') ->
  callsAdded cluster w w'.
Proof.
  unfold processEventTrigger. intros Hrun.
  pose proof (callsAdded_cleanup cluster resource f true w) as Hc0.
  repeat case_match; simplify_eq;
    repeat match goal with
    | H : removeEventTrigger _ _ _ _ = _ |- _ => apply removeEventTrigger_calls in H
    | H : doIsInProgress _ _ = _ |- _ => apply callsAdded_isInProgress in H
    | H : doGetResult _ _ = _ |- _ => apply callsAdded_getResult in H
    | H : doDeploy _ _ _ = _ |- _ => apply callsAdded_deploy in H
    end;
    eauto 6 using callsAdded_trans, callsAdded_refl.
Qed.


Lemma isClusterAShardMatch_key r c1 c2 :
  clusterKey (Cluster c1) = clusterKey (Cluster c2) ->
  isClusterAShardMatch r c1 = isClusterAShardMatch r c2.
Proof.
  unfold clusterKey, isClusterAShardMatch. intros [= -> -> ->]. done.
Qed.

Lemma SetClusterInfo_eta (resource : EventTrigger) :
  SetClusterInfo resource (CIs resource) = resource.
Proof. by destruct resource as [? ? ? ? ? []]. Qed.



Lemma loop_frame r f indices :
  forall resource es ap (w : World D) exit resource' w',
  deployEventTriggerLoop r f indices resource es ap w = (exit, resource', w') ->
  resource' = SetClusterInfo resource (CIs resource')
  /\ length (CIs resource') = length (CIs resource)
  /\ (forall j, j ∉ indices -> CIs resource' !! j = CIs resource !! j).
Proof.
  induction indices as [|i rest IH]; intros resource es ap w exit resource' w' Hrun;
    simpl in Hrun.
  { simplify_eq. by rewrite SetClusterInfo_eta. }
  destruct (CIs resource !! i) as [c|] eqn:Hc;
    [|simplify_eq; by rewrite SetClusterInfo_eta].
  destruct (isClusterAShardMatch r c) as [[|] [err|]];
    try (simplify_eq; by rewrite SetClusterInfo_eta).
  - destruct (processEventTrigger resource (Cluster c) f w) as [[[ci|] err] w1].
    + apply IH in Hrun as (HA & HB & HC). simpl in *.
      split; [by rewrite HA at 1|]. split; [by rewrite HB, length_insert|].
      intros j [Hji Hj]%not_elem_of_cons.
      rewrite HC by done. by rewrite list_lookup_insert_ne.
    + apply IH in Hrun as (HA & HB & HC). split; [done|]. split; [done|].
      intros j [Hji Hj]%not_elem_of_cons. by apply HC.
  - apply IH in Hrun as (HA & HB & HC). simpl in *.
    split; [by rewrite HA at 1|]. split; [by rewrite HB, length_insert|].
    intros j [Hji Hj]%not_elem_of_cons.
    rewrite HC by done. by rewrite list_lookup_insert_ne.
Qed.


Lemma deferred_SetClusterInfo resource cis c :
  deferred (SetClusterInfo resource cis) c <-> deferred resource c.
Proof. done. Qed.

Lemma loop_monotone r f indices :
  forall resource es ap (w : World D) es' ap' resource' w',
  deployEventTriggerLoop r f indices resource es ap w
    = (LoopDone es' ap', resource', w') ->
  (ap' = true -> ap = true) /\ (es' = None -> es = None).
Proof.
  induction indices as [|i rest IH]; intros resource es ap w es' ap' resource' w' Hrun;
    simpl in Hrun.
  { by simplify_eq. }
  destruct (CIs resource !! i) as [c|] eqn:Hc; [|by simplify_eq].
  destruct (isClusterAShardMatch r c) as [[|] [err|]]; try done.
  - destruct (processEventTrigger resource (Cluster c) f w) as [[[ci|] err] w1];
      apply IH in Hrun as [Hap Hes]; split; intros ?;
      repeat case_match; naive_solver.
  - apply IH in Hrun as [Hap Hes]; split; intros ?;
      repeat case_match; naive_solver.
Qed.

(** Every dispatcher call of the loop is made for the cluster of an entry
    that this replica handles. *)
Lemma loop_calls r f indices :
  forall resource es ap (w : World D) exit resource' w',
  NoDup indices ->
  deployEventTriggerLoop r f indices resource es ap w = (exit, resource', w') ->
  exists new,
    calls w' = calls w ++ new
    /\ Forall (fun call => exists i c,
                 i ∈ indices /\ CIs resource !! i = Some c /\ homeShard r c
                 /\ keyCluster (callKey call) = clusterKey (Cluster c)) new.
Proof.
  induction indices as [|i rest IH];
    intros resource es ap w exit resource' w' Hnd Hrun; simpl in Hrun.
  { simplify_eq. exists []. by rewrite app_nil_r. }
  apply NoDup_cons in Hnd as [Hi Hnd].
  destruct (CIs resource !! i) as [c|] eqn:Hc;
    [|simplify_eq; exists []; by rewrite app_nil_r].
  assert (Hlater : forall x new,
    Forall (fun call => exists i0 c0,
              i0 ∈ rest /\ <[i:=x]> (CIs resource) !! i0 = Some c0
              /\ homeShard r c0
              /\ keyCluster (callKey call) = clusterKey (Cluster c0)) new ->
    Forall (fun call => exists i0 c0,
              i0 ∈ i :: rest /\ CIs resource !! i0 = Some c0 /\ homeShard r c0
              /\ keyCluster (callKey call) = clusterKey (Cluster c0)) new).
  { intros x new HF. eapply Forall_impl; [exact HF|].
    intros call (i0 & c0 & Hi0 & Hl & Hh & Hk).
    exists i0, c0. split; [set_solver|]. split; [|done].
    rewrite list_lookup_insert_ne in Hl; [done|]. by intros ->. }
  destruct (isClusterAShardMatch r c) as [[|] [err|]] eqn:Hshard;
    try (simplify_eq; exists []; by rewrite app_nil_r).
  - destruct (processEventTrigger resource (Cluster c) f w) as [[[ci|] err] w1] eqn:Hp;
      apply processEventTrigger_calls in Hp as (n1 & E1 & F1);
      apply IH in Hrun as (n2 & E2 & F2); try done;
      exists (n1 ++ n2); (split; [by rewrite E2, E1, app_assoc|]);
      apply Forall_app; split.
    + eapply Forall_impl; [exact F1|]. intros call Hk. exists i, c.
      split; [set_solver|]. by repeat split.
    + eapply Hlater. exact F2.
    + eapply Forall_impl; [exact F1|]. intros call Hk. exists i, c.
      split; [set_solver|]. by repeat split.
    + eapply Forall_impl; [exact F2|].
      intros call (i0 & c0 & Hi0 & Hl & Hh & Hk). exists i0, c0.
      split; [set_solver|done].
  - apply IH in Hrun as (n2 & E2 & F2); [|done].
    exists n2. split; [done|]. eapply Hlater. exact F2.
Qed.


Lemma foreignPost_unvisited err c : foreignPost (ShardLookupFailed err) c c.
Proof. unfold foreignPost. naive_solver. Qed.

Lemma loop_foreign r f indices :
  forall resource es ap (w : World D) exit resource' w',
  NoDup indices ->
  (forall i, i ∈ indices -> (i < length (CIs resource))%nat) ->
  deployEventTriggerLoop r f indices resource es ap w = (exit, resource', w') ->
  forall i c, i ∈ indices -> CIs resource !! i = Some c -> foreign r c ->
  exists c', CIs resource' !! i = Some c' /\ foreignPost exit c c'.
Proof.
  induction indices as [|i0 rest IH];
    intros resource es ap w exit resource' w' Hnd Hbound Hrun i c Hi Hc Hf.
  { by apply elem_of_nil in Hi. }
  apply NoDup_cons in Hnd as [Hi0 Hnd]. simpl in Hrun.
  destruct (lookup_lt_is_Some_2 (CIs resource) i0) as [c0 Hc0];
    [apply Hbound; set_solver|].
  rewrite Hc0 in Hrun.
  apply elem_of_cons in Hi as [->|Hi].
  - (* the entry visited now *)
    simplify_eq. rewrite Hf in Hrun.
    pose proof (loop_frame _ _ _ _ _ _ _ _ _ _ Hrun) as (_ & _ & HC).
    pose proof (loop_monotone r f rest) as Hmono.
    eexists. split.
    { rewrite HC by done. simpl. apply list_lookup_insert_eq.
      apply Hbound. set_solver. }
    unfold foreignPost.
    destruct (Hash c) eqn:Hh; simpl; rewrite ?Hh;
      refine (conj _ (conj _ (conj _ (conj _ _)))); try done;
      try (by left); try (by right);
      intros es' ap' ->; split; try done; intros Hst;
      destruct (Hmono _ _ _ _ _ _ _ _ Hrun) as [Hap _];
      rewrite (bool_decide_eq_false_2 _ Hst) in Hap;
      destruct ap'; try done; by specialize (Hap eq_refl).
  - assert (i <> i0) as Hne by (by intros ->).
    assert (Hstep : forall x es1 ap1 (w1 : World D),
      deployEventTriggerLoop r f rest
        (SetClusterInfo resource (<[i0:=x]> (CIs resource))) es1 ap1 w1
        = (exit, resource', w') ->
      exists c', CIs resource' !! i = Some c' /\ foreignPost exit c c').
    { intros x es1 ap1 w1 Hrun1.
      eapply (IH _ _ _ _ _ _ _ Hnd) in Hrun1; [exact Hrun1| |done| |done].
      - intros j Hj. simpl. rewrite length_insert. apply Hbound. set_solver.
      - simpl. by rewrite list_lookup_insert_ne. }
    destruct (isClusterAShardMatch r c0) as [[|] [err|]].
    + simplify_eq. eauto using foreignPost_unvisited.
    + destruct (processEventTrigger resource (Cluster c0) f w) as [[[ci|] err] w1].
      * by eapply Hstep.
      * eapply (IH _ _ _ _ _ _ _ Hnd) in Hrun; [exact Hrun| |done..].
        intros j Hj. apply Hbound. set_solver.
    + simplify_eq. eauto using foreignPost_unvisited.
    + by eapply Hstep.
Qed.



Lemma loop_completes r f indices :
  forall resource es ap (w : World D) exit resource' w',
  NoDup indices ->
  (forall i c, i ∈ indices -> CIs resource !! i = Some c ->
               (isClusterAShardMatch r c).2 = None) ->
  deployEventTriggerLoop r f indices resource es ap w = (exit, resource', w') ->
  exists es' ap', exit = LoopDone es' ap'.
Proof.
  induction indices as [|i0 rest IH];
    intros resource es ap w exit resource' w' Hnd Hok Hrun; simpl in Hrun.
  { simplify_eq. eauto. }
  apply NoDup_cons in Hnd as [Hi0 Hnd].
  destruct (CIs resource !! i0) as [c0|] eqn:Hc0; [|simplify_eq; eauto].
  assert (Hlater : forall x i c, i ∈ rest ->
    <[i0:=x]> (CIs resource) !! i = Some c ->
    (isClusterAShardMatch r c).2 = None).
  { intros x i c Hi Hl. rewrite list_lookup_insert_ne in Hl by (by intros ->).
    eapply Hok; [|done]. set_solver. }
  pose proof (Hok i0 c0 ltac:(set_solver) Hc0) as Hhead.
  destruct (isClusterAShardMatch r c0) as [[|] [err|]]; try done.
  - destruct (processEventTrigger resource (Cluster c0) f w) as [[[ci|] err] w1].
    + eapply (IH _ _ _ _ _ _ _ Hnd); [|exact Hrun]. simpl. by eapply Hlater.
    + eapply (IH _ _ _ _ _ _ _ Hnd); [|exact Hrun].
      intros i c Hi. apply Hok. set_solver.
  - eapply (IH _ _ _ _ _ _ _ Hnd); [|exact Hrun]. simpl. by eapply Hlater.
Qed.

Lemma loop_all_foreign r f indices :
  forall resource es ap (w : World D),
  NoDup indices ->
  (forall i c, i ∈ indices -> CIs resource !! i = Some c ->
               foreign r c /\ Status c = SveltosStatusProvisioned) ->
  exists resource',
    deployEventTriggerLoop r f indices resource es ap w
      = (LoopDone es ap, resource', w).
Proof.
  induction indices as [|i0 rest IH]; intros resource es ap w Hnd Hall; simpl.
  { eauto. }
  apply NoDup_cons in Hnd as [Hi0 Hnd].
  destruct (CIs resource !! i0) as [c0|] eqn:Hc0; [|eauto].
  destruct (Hall i0 c0 ltac:(set_solver) Hc0) as [Hf Hst].
  rewrite Hf, Hst. rewrite bool_decide_eq_true_2 by done.
  apply IH; [done|].
  intros i c Hi Hl. simpl in Hl.
  rewrite list_lookup_insert_ne in Hl by (by intros ->).
  eapply Hall; [|done]. set_solver.
Qed.


Lemma seq_indices (n : nat) :
  NoDup (seq 0 n) /\ (forall i, i ∈ seq 0 n -> (i < n)%nat).
Proof.
  split; [apply NoDup_seq|]. intros i Hi. apply elem_of_seq in Hi. lia.
Qed.

(** The pass as a run of the loop over all indices. *)
Lemma deployEventTrigger_loop r resource f (w : World D) err resource' w' :
  deployEventTrigger r resource f w = (err, resource', w') ->
  exists exit r1,
    deployEventTriggerLoop r f (seq 0 (length (CIs resource))) resource
      None true w = (exit, r1, w')
    /\ CIs resource' = CIs r1
    /\ err = match exit with
             | ShardLookupFailed e => Some e
             | LoopDone (Some e) _ => Some e
             | LoopDone None false => Some stillQueued
             | LoopDone None true => None
             end.
Proof.
  unfold deployEventTrigger.
  destruct (deployEventTriggerLoop _ _ _ _ _ _ _) as [[exit r1] w1].
  destruct exit as [e|[e|] [|]]; simpl; intros [= <- <- <-];
    eexists _, _; (split; [reflexivity|]); by split.
Qed.





(** The sentinel is the text [ZW1wdHk=], the base64 encoding of
    [empty]. *)
Lemma emptyHashSentinel_text :
  emptyHashSentinel = bytes_of_string "ZW1wdHk=".
Proof. vm_compute. reflexivity. Qed.

(** C7: an entry whose cluster is handled by another shard keeps its
    cluster, status and failure message; its hash is kept, or replaced
    when it was nil by the sentinel, the bytes of the text [ZW1wdHk=],
    which is the base64 encoding of [empty] (and it is replaced whenever
    no shard lookup fails); no dispatcher call is made for its cluster;
    a status other than Provisioned makes the pass end with an error. A
    pass over entries that are all handled by other shards and
    Provisioned succeeds without touching the dispatcher or the API
    server. *)
Theorem deployEventTrigger_foreign_shard r resource f (w : World D)
    err resource' w' :
  deployEventTrigger r resource f w = (err, resource', w') ->
  EncodeToString (bytes_of_string "empty") = "ZW1wdHk="
  /\ (forall i c, CIs resource !! i = Some c -> foreign r c ->
   exists c',
     CIs resource' !! i = Some c'
     /\ Cluster c' = Cluster c
     /\ Status c' = Status c
     /\ FailureMessage c' = FailureMessage c
     /\ (Hash c' = Hash c
         \/ (Hash c = None /\ Hash c' = Some (bytes_of_string "ZW1wdHk=")))
     /\ ((forall c0, c0 ∈ CIs resource -> (isClusterAShardMatch r c0).2 = None) ->
         Hash c' = Some (default (bytes_of_string "ZW1wdHk=") (Hash c)))
     /\ (Status c <> SveltosStatusProvisioned -> err <> None)
     /\ exists new,
          calls w' = calls w ++ new
          /\ Forall (fun call => keyCluster (callKey call) <> clusterKey (Cluster c))
               new)
  /\ (Forall (fun c => foreign r c /\ Status c = SveltosStatusProvisioned)
        (CIs resource) ->
      err = None /\ w' = w).
Proof.
  intros Hrun. rewrite <- emptyHashSentinel_text.
  apply deployEventTrigger_loop in Hrun as (exit & r1 & Hloop & Hcis & ->).
  destruct (seq_indices (length (CIs resource))) as [Hnd Hbound].
  split_and!.
  - vm_compute. reflexivity.
  - intros i c Hc Hf.
    assert (i ∈ seq 0 (length (CIs resource))) as Hi.
    { apply elem_of_seq. apply lookup_lt_Some in Hc. lia. }
    destruct (loop_foreign _ _ _ _ _ _ _ _ _ _ Hnd Hbound Hloop i c Hi Hc Hf)
      as (c' & Hc' & HCl & HSt & HFm & HHash & Hdone).
    exists c'. rewrite Hcis.
    refine (conj Hc' (conj HCl (conj HSt (conj HFm (conj HHash
             (conj _ (conj _ _))))))).
    + intros Hnofail.
      destruct (loop_completes _ _ _ _ _ _ _ _ _ _ Hnd
                  (fun i c _ Hl => Hnofail c (list_elem_of_lookup_2 _ _ _ Hl))
                  Hloop) as (es' & ap' & ->).
      by destruct (Hdone es' ap' eq_refl).
    + intros Hst. destruct exit as [e|[e|] [|]]; try done.
      by destruct (Hdone None true eq_refl) as [_ Hap]; specialize (Hap Hst).
    + destruct (loop_calls _ _ _ _ _ _ _ _ _ _ Hnd Hloop) as (new & Hnew & Hall).
      exists new. split; [done|].
      eapply Forall_impl; [exact Hall|].
      intros call (i0 & c0 & _ & _ & Hhome & Hkey) Heq.
      rewrite Heq in Hkey.
      unfold homeShard, foreign in *.
      rewrite (isClusterAShardMatch_key r c c0 Hkey) in Hf. congruence.
  - intros Hall.
    destruct (loop_all_foreign r f _ resource None true w Hnd) as [r2 Hloop2].
    { intros i c _ Hl. eapply Forall_lookup_1 in Hall; [exact Hall|exact Hl]. }
    rewrite Hloop in Hloop2. by simplify_eq.
Qed.

End Rollup.

(** ** Removal of a ClusterInfo entry *)

Section RemoveEntry.
Context `{!ClusterProxy}.

Lemma insert_delete_perm {A} (t : list A) (i : nat) (y : A) :
  (i < length t)%nat -> <[i:=y]> t ≡ₚ y :: delete i t.
Proof.
  revert i. induction t as [|a t IH]; intros [|i] Hlt; simpl in *; try lia.
  - done.
  - rewrite IH by lia. apply Permutation_swap.
Qed.

Lemma delete_app_left {A} (l1 l2 : list A) (i : nat) :
  (i < length l1)%nat -> delete i (l1 ++ l2) = delete i l1 ++ l2.
Proof.
  revert i. induction l1 as [|a l1 IH]; intros [|i] Hlt; simpl in *; try lia.
  - done.
  - by rewrite IH by lia.
Qed.

Lemma remove_perm (s : list ClusterInfo) (i : nat) :
  (i < length s)%nat -> remove s i ≡ₚ delete i s.
Proof.
  intros Hlt. unfold remove.
  destruct (lookup_lt_is_Some_2 s (length s - 1)) as [y Hy]; [lia|].
  rewrite Hy.
  assert (s = take (length s - 1) s ++ [y]) as Hs.
  { rewrite <- (take_drop_middle s (length s - 1) y Hy) at 1.
    f_equal. f_equal. apply drop_ge. lia. }
  destruct (decide (i = length s - 1)%nat) as [->|Hne].
  - rewrite list_insert_id by done.
    rewrite delete_take_drop. rewrite (drop_ge s) by lia.
    by rewrite app_nil_r.
  - rewrite take_insert_lt by lia.
    rewrite Hs at 3.
    rewrite delete_app_left by (rewrite length_take; lia).
    rewrite insert_delete_perm by (rewrite length_take; lia).
    by rewrite Permutation_cons_append.
Qed.

Lemma triggersNamed_lookup a k e :
  triggersNamed a = true ->
  storedEventTriggers a !! k = Some e -> EventTrigger.Name e = k.
Proof.
  unfold triggersNamed. rewrite forallb_forall. intros Hall Hl.
  apply elem_of_map_to_list, list_elem_of_In, Hall in Hl.
  by apply bool_decide_eq_true_1 in Hl.
Qed.

Lemma takeFault_triggers a :
  storedEventTriggers (takeFault a).2 = storedEventTriggers a.
Proof. unfold takeFault. by destruct (faults a). Qed.

Lemma attempt_spec ns name ct resource a err a' :
  triggersNamed a = true ->
  removeClusterInfoEntryAttempt ns name ct resource a = (err, a') ->
  storedEventTriggers a' = storedEventTriggers a
  \/ (err = None /\ entryRemoved ns name ct resource a a').
Proof.
  intros Hwf.
  unfold removeClusterInfoEntryAttempt, getEventTrigger, statusUpdateEventTrigger.
  pose proof (takeFault_triggers a) as Ha.
  destruct (takeFault a) as [[e|] a1]; simpl in Ha; [intros; simplify_eq; by left|].
  destruct (storedEventTriggers a1 !! EventTrigger.Name resource) as [stored|] eqn:Hst;
    [|intros; simplify_eq; by left].
  destruct (findClusterInfo (CIs stored) ns name ct) as [[i c]|] eqn:Hfind;
    [|intros; simplify_eq; by left].
  pose proof (takeFault_triggers a1) as Ha1.
  destruct (takeFault a1) as [[e|] a2]; simpl in Ha1;
    [intros; simplify_eq; left; congruence|].
  simpl.
  rewrite (triggersNamed_lookup a (EventTrigger.Name resource) stored Hwf)
    by (by rewrite <- Ha).
  rewrite Ha1, Hst. intros [= <- <-]. right. split; [done|].
  exists stored, i, c. rewrite <- Ha. by split_and!.
Qed.

Lemma triggersNamed_same a a' :
  storedEventTriggers a' = storedEventTriggers a ->
  triggersNamed a = true -> triggersNamed a' = true.
Proof. unfold triggersNamed. by intros ->. Qed.

Lemma retry_spec ns name ct resource steps :
  forall last a err a',
  triggersNamed a = true ->
  RetryOnConflict steps (removeClusterInfoEntryAttempt ns name ct resource)
    last a = (err, a') ->
  storedEventTriggers a' = storedEventTriggers a
  \/ (err = None /\ entryRemoved ns name ct resource a a').
Proof.
  induction steps as [|n IH]; intros last a err a' Hwf Hrun; simpl in Hrun.
  { simplify_eq. by left. }
  destruct (removeClusterInfoEntryAttempt ns name ct resource a)
    as [[e|] a1] eqn:Hatt.
  - apply attempt_spec in Hatt as [Hsame|[? _]]; [|done..].
    destruct (IsConflict e); [|simplify_eq; by left].
    apply IH in Hrun as [Hsame'|[-> (stored & i & c & H1 & H2 & H3)]];
      [| |by eapply triggersNamed_same].
    + left. congruence.
    + right. split; [done|]. exists stored, i, c. by rewrite <- Hsame.
  - simplify_eq. by apply attempt_spec in Hatt.
Qed.

(** C10: [removeClusterInfoEntry] leaves the stored triggers as they
    are, or returns nil after replacing the ClusterInfo list of the
    trigger by the list with its first entry for the cluster removed,
    which holds the other entries (reordered). When the stored trigger
    has no entry for the cluster, an attempt consists of the read request
    alone, and the stored triggers are left as they are. *)
Theorem removeClusterInfoEntry_removes_first ns name ct resource a err a' :
  triggersNamed a = true ->
  removeClusterInfoEntry ns name ct resource a = (err, a') ->
  (storedEventTriggers a' = storedEventTriggers a
   \/ exists stored i c,
        err = None
        /\ storedEventTriggers a !! EventTrigger.Name resource = Some stored
        /\ CIs stored !! i = Some c
        /\ isClusterInfoForCluster c ns name ct = true
        /\ (forall j c0, CIs stored !! j = Some c0 -> (j < i)%nat ->
            isClusterInfoForCluster c0 ns name ct <> true)
        /\ storedEventTriggers a'
           = <[EventTrigger.Name resource :=
                 SetClusterInfo stored (remove (CIs stored) i)]>
               (storedEventTriggers a)
        /\ remove (CIs stored) i ≡ₚ delete i (CIs stored))
  /\ (forall stored,
        storedEventTriggers a !! EventTrigger.Name resource = Some stored ->
        findClusterInfo (CIs stored) ns name ct = None ->
        storedEventTriggers a' = storedEventTriggers a
        /\ forall a0,
             storedEventTriggers a0 = storedEventTriggers a ->
             removeClusterInfoEntryAttempt ns name ct resource a0
             = (match (getEventTrigger (EventTrigger.Name resource) a0).1 with
                | ok _ => None
                | fail e => Some e
                end,
                (getEventTrigger (EventTrigger.Name resource) a0).2)).
Proof.
  intros Hwf Hrun. apply retry_spec in Hrun; [|done]. split.
  - destruct Hrun as [Hsame|[-> (stored & i & c & Hst & Hfind & Hnew)]];
      [by left|right].
    exists stored, i, c.
    apply list_find_Some in Hfind as (Hi & Hc & Hfirst).
    split_and!; try done.
    apply remove_perm. by eapply lookup_lt_Some.
  - intros stored Hst Hnone. split.
    + destruct Hrun as [Hsame|[_ (stored' & i & c & Hst' & Hfind & _)]];
        [done|]. congruence.
    + intros a0 Ha0. unfold removeClusterInfoEntryAttempt.
      destruct (getEventTrigger (EventTrigger.Name resource) a0)
        as [[cur|e] a1] eqn:Hget; simpl; [|done].
      assert (cur = stored) as ->; [|by rewrite Hnone].
      unfold getEventTrigger in Hget.
      pose proof (takeFault_triggers a0) as Hf.
      destruct (takeFault a0) as [[e|] a2]; simpl in Hf; [done|].
      rewrite Hf, Ha0, Hst in Hget. by simplify_eq.
Qed.

End RemoveEntry.

(** ** Names of derived objects *)

Section Names.
Context {G : Type} `{!Random G}.

Lemma stored_takeFault {K V : Type} `{Countable K}
    (field : ApiServer -> gmap K V) (a : ApiServer) :
  (forall a fs, field (setFaults a fs) = field a) ->
  field (takeFault a).2 = field a.
Proof.
  intros Hfield. unfold takeFault. destruct (faults a); simpl; [done|apply Hfield].
Qed.

Lemma nameFromObjects_resolved {K V : Type} `{Countable K}
    (field : ApiServer -> gmap K V) (sel : V -> bool) (nameOf : V -> string)
    (s : Mgmt G) :
  (forall a fs, field (setFaults a fs) = field a) ->
  nameResolved
    (map nameOf (List.filter sel (map_to_list (field (server s))).*2)) s
    ((let* items := request (listObjects field sel) in
      nameFromObjects (map nameOf items)) s).
Proof.
  intros Hfield. unfold nameResolved, bind, request, listObjects.
  pose proof (stored_takeFault field (server s) Hfield) as Hstored.
  destruct (takeFault (server s)) as [[e|] a1]; simpl in *; [done|].
  rewrite Hstored. unfold nameFromObjects, getInstantiatedObjectName.
  destruct (map nameOf _) as [|name [|name2 names]]; simpl; try done.
  pose proof (RandomString_length 20 (rng s)) as Hlen. unfold nameLength.
  destruct (RandomString 20 (rng s)) as [rnd g'] eqn:Hrnd. by exists rnd, g'.
Qed.

(** C5: the name of a derived ClusterProfile, ConfigMap or Secret is
    resolved from the stored objects that carry its identifying labels
    (for ConfigMaps and Secrets, those of the report namespace). Without
    such an object the name is [sveltos-] followed by a random string of
    20 characters and the object is to be created; with one object its
    name is reused and nothing is created; with two or more the error
    "more than one resource" is returned, whatever they are. *)
Theorem getInstantiatedObjectName_cases (g : G)
    (labels : gmap string string) (s : Mgmt G) :
  ((exists rnd g',
      RandomString 20 g = (rnd, g')
      /\ String.length rnd = 20%nat
      /\ getInstantiatedObjectName [] g = (("sveltos-" +:+ rnd, true, None), g'))
   /\ (forall object,
         getInstantiatedObjectName [object] g = ((object, false, None), g))
   /\ (forall object1 object2 others,
         getInstantiatedObjectName (object1 :: object2 :: others) g
         = (("", false, Some (Errorf "more than one resource")), g)))
  /\ nameResolved
       (map ClusterProfile.Name
          (List.filter
             (fun cp => matchesLabels labels (ClusterProfile.Labels cp))
             (map_to_list (storedClusterProfiles (server s))).*2))
       s (getClusterProfileName labels s)
  /\ nameResolved
       (map ConfigMap.Name
          (List.filter
             (fun cm => matchesLabels labels (ConfigMap.Labels cm)
                        && bool_decide (ConfigMap.Namespace cm = ReportNamespace))
             (map_to_list (storedConfigMaps (server s))).*2))
       s (getConfigMapName labels s)
  /\ nameResolved
       (map Secret.Name
          (List.filter
             (fun sec => matchesLabels labels (Secret.Labels sec)
                         && bool_decide (Secret.Namespace sec = ReportNamespace))
             (map_to_list (storedSecrets (server s))).*2))
       s (getSecretName labels s).
Proof.
  split_and!.
  - pose proof (RandomString_length 20 g) as Hlen.
    unfold getInstantiatedObjectName, nameLength.
    destruct (RandomString 20 g) as [rnd g'] eqn:Hrnd. by exists rnd, g'.
  - done.
  - done.
  - by apply (nameFromObjects_resolved storedClusterProfiles).
  - by apply (nameFromObjects_resolved storedConfigMaps).
  - by apply (nameFromObjects_resolved storedSecrets).
Qed.

End Names.
(** ** Sweeps *)

Section Sweep.
Context {G : Type} {K V : Type} `{Countable K}.
Context (field : ApiServer -> gmap K V).
Context (setField : ApiServer -> gmap K V -> ApiServer).
Context (key : V -> K) (sel stale : V -> bool).

(** [field] and [setField] address one map of the API server. *)
Hypothesis field_set : forall a v, field (setField a v) = v.
Hypothesis field_setFaults : forall a fs, field (setFaults a fs) = field a.

Lemma field_takeFault a : field (takeFault a).2 = field a.
Proof. unfold takeFault. destruct (faults a); simpl; [done|apply field_setFaults]. Qed.

Lemma deleteObject_field k a a' :
  deleteObject field setField k a = (None, a') -> field a' = delete k (field a).
Proof.
  unfold deleteObject. pose proof (field_takeFault a) as Hf.
  destruct (takeFault a) as [[e|] a1]; simpl in Hf; [done|].
  destruct (field a1 !! k); [|done].
  intros [= <-]. by rewrite field_set, Hf.
Qed.

Lemma deleteStale_field items :
  forall (s s' : Mgmt G),
  deleteStale stale (fun v => deleteObject field setField (key v)) items s
    = (ok tt, s') ->
  forall k v, field (server s') !! k = Some v ->
    field (server s) !! k = Some v
    /\ forall x, x ∈ items -> stale x = true -> key x <> k.
Proof.
  induction items as [|x items IH]; intros s s' Hrun k v Hl; simpl in Hrun.
  { unfold ret in Hrun. simplify_eq. split; [done|]. by intros x ?%elem_of_nil. }
  destruct (stale x) eqn:Hx.
  - unfold bind, requestErr in Hrun.
    destruct (deleteObject field setField (key x) (server s)) as [[e|] a1] eqn:Hdel;
      [done|].
    apply deleteObject_field in Hdel.
    destruct (IH _ _ Hrun k v Hl) as [Hl1 Hrest]. simpl in Hl1.
    rewrite Hdel in Hl1. apply lookup_delete_Some in Hl1 as [Hne Hl1].
    split; [done|]. intros y [->|Hy]%elem_of_cons Hst; [done|by apply Hrest].
  - destruct (IH _ _ Hrun k v Hl) as [Hl1 Hrest]. split; [done|].
    intros y [->|Hy]%elem_of_cons Hst; [congruence|by apply Hrest].
Qed.

(** After a sweep that deletes whatever it lists, the map holds only
    objects it held before, and none that [sel] selects. *)
Lemma sweep_clears (s s' : Mgmt G) :
  (forall v, sel v = true -> stale v = true) ->
  (forall k v, field (server s) !! k = Some v -> key v = k) ->
  sweep field setField key sel stale s = (ok tt, s') ->
  forall k v, field (server s') !! k = Some v ->
    field (server s) !! k = Some v /\ sel v = false.
Proof.
  intros Hstale Hwf. unfold sweep, bind, request, listObjects.
  pose proof (field_takeFault (server s)) as Hf.
  destruct (takeFault (server s)) as [[e|] a1]; simpl in Hf; [done|].
  intros Hrun k v Hl.
  destruct (deleteStale_field _ _ _ Hrun k v Hl) as [Hl1 Hnone].
  simpl in Hl1. rewrite Hf in Hl1. split; [done|].
  destruct (sel v) eqn:Hsel; [|done].
  exfalso. apply (Hnone v); [|by apply Hstale|by apply Hwf].
  apply list_elem_of_In, filter_In. split; [|done].
  apply list_elem_of_In, list_elem_of_fmap. exists (k, v). split; [done|].
  apply elem_of_map_to_list. by rewrite Hf.
Qed.

(** A sweep leaves alone what neither [setField] nor the fault schedule
    touches. *)
Lemma sweep_other {X : Type} (other : ApiServer -> X) (s s' : Mgmt G) r :
  (forall a v, other (setField a v) = other a) ->
  (forall a fs, other (setFaults a fs) = other a) ->
  sweep field setField key sel stale s = (r, s') -> other (server s') = other (server s).
Proof.
  intros Hset Hfaults.
  assert (Htake : forall a, other (takeFault a).2 = other a).
  { intros a. unfold takeFault. destruct (faults a); simpl; [done|apply Hfaults]. }
  assert (Hdel : forall k a, other (deleteObject field setField k a).2 = other a).
  { intros k a. unfold deleteObject. pose proof (Htake a) as Ha.
    destruct (takeFault a) as [[e|] a1]; simpl in *; [done|].
    destruct (field a1 !! k); simpl; [by rewrite Hset|done]. }
  assert (Hloop : forall items (s1 s2 : Mgmt G) r1,
    deleteStale stale (fun v => deleteObject field setField (key v)) items s1
      = (r1, s2) -> other (server s2) = other (server s1)).
  { induction items as [|x items IH]; intros s1 s2 r1 Hrun; simpl in Hrun.
    { unfold ret in Hrun. by simplify_eq. }
    destruct (stale x); [|by eapply IH].
    unfold bind, requestErr in Hrun.
    pose proof (Hdel (key x) (server s1)) as Hd.
    destruct (deleteObject field setField (key x) (server s1)) as [[e|] a1];
      simpl in Hd.
    - by simplify_eq.
    - apply IH in Hrun. by rewrite Hrun. }
  unfold sweep, bind, request, listObjects.
  pose proof (Htake (server s)) as Ha.
  destruct (takeFault (server s)) as [[e|] a1]; simpl in Ha.
  - intros ?; by simplify_eq.
  - intros Hrun. apply Hloop in Hrun. by rewrite Hrun.
Qed.

End Sweep.

Lemma forallb_map_to_list {K V : Type} `{Countable K} (P : K * V -> bool)
    (m : gmap K V) k v :
  forallb P (map_to_list m) = true -> m !! k = Some v -> P (k, v) = true.
Proof.
  rewrite forallb_forall. intros Hall Hl.
  by apply elem_of_map_to_list, list_elem_of_In, Hall in Hl.
Qed.

Section Expansion.
Context {G : Type} `{!Random G} `{!GoRuntime} `{!LibsveltosKeys}.
Context `{!ClusterProxy} `{!UnstructuredObjects} `{!TemplateExpansion G}.

Lemma removeClusterProfiles_sweep ns name ct trigger er cps :
  removeClusterProfiles ns name ct trigger er cps
  = sweep (G := G) storedClusterProfiles setClusterProfiles ClusterProfile.Name
      (fun cp => matchesLabels
                   (getInstantiatedObjectLabels ns name
                      (EventTrigger.Name trigger) er ct)
                   (ClusterProfile.Labels cp))
      (fun cp => negb (bool_decide
                   (ClusterProfile.Name cp
                    ∈ (list_to_set (map ClusterProfile.Name cps) : gset string)))).
Proof. reflexivity. Qed.

Lemma removeConfigMaps_sweep ns name ct trigger er policyRefs :
  removeConfigMaps ns name ct trigger er policyRefs
  = sweep (G := G) storedConfigMaps setConfigMaps
      (fun cm => (ConfigMap.Namespace cm, ConfigMap.Name cm))
      (fun cm => matchesLabels
                   (getInstantiatedObjectLabels ns name
                      (EventTrigger.Name trigger) er ct)
                   (ConfigMap.Labels cm)
                 && bool_decide (ConfigMap.Namespace cm = ReportNamespace))
      (fun cm => negb (bool_decide (getPolicyRefOfConfigMap cm ∈ policyRefs))).
Proof. reflexivity. Qed.

Lemma removeSecrets_sweep ns name ct trigger er policyRefs :
  removeSecrets ns name ct trigger er policyRefs
  = sweep (G := G) storedSecrets setSecrets
      (fun sec => (Secret.Namespace sec, Secret.Name sec))
      (fun sec => matchesLabels
                    (getInstantiatedObjectLabels ns name
                       (EventTrigger.Name trigger) er ct)
                    (Secret.Labels sec)
                  && bool_decide (Secret.Namespace sec = ReportNamespace))
      (fun sec => negb (bool_decide (getPolicyRefOfSecret sec ∈ policyRefs))).
Proof. reflexivity. Qed.

Lemma removeInstantiatedResources_clears ns name ct trigger er (s s' : Mgmt G) :
  derivedNamed (server s) = true ->
  removeInstantiatedResources ns name ct trigger (Some er) [] s = (ok tt, s') ->
  derivedCleared ns name ct trigger er (server s')
  /\ storedClusterProfiles (server s') ⊆ storedClusterProfiles (server s).
Proof.
  intros Hnamed. apply andb_prop in Hnamed as [Hnamed Hsec].
  apply andb_prop in Hnamed as [Hcp Hcm].
  unfold removeInstantiatedResources, bind.
  destruct (removeClusterProfiles ns name ct trigger (Some er) [] s)
    as [[[]|e] s1] eqn:Hr1; [|done].
  destruct (removeConfigMaps ns name ct trigger (Some er) (neededPolicyRefs ∅ []) s1)
    as [[[]|e] s2] eqn:Hr2; [|done].
  intros Hr3.
  rewrite removeClusterProfiles_sweep in Hr1.
  rewrite removeConfigMaps_sweep in Hr2.
  rewrite removeSecrets_sweep in Hr3.
  (* what each sweep leaves alone *)
  assert (Hcm1 := Hr1). assert (Hsec1 := Hr1).
  assert (Hcp2 := Hr2). assert (Hsec2 := Hr2).
  assert (Hcp3 := Hr3). assert (Hcm3 := Hr3).
  eapply sweep_other with (other := storedConfigMaps) in Hcm1; [|done..].
  eapply sweep_other with (other := storedSecrets) in Hsec1; [|done..].
  eapply sweep_other with (other := storedClusterProfiles) in Hcp2; [|done..].
  eapply sweep_other with (other := storedSecrets) in Hsec2; [|done..].
  eapply sweep_other with (other := storedClusterProfiles) in Hcp3; [|done..].
  eapply sweep_other with (other := storedConfigMaps) in Hcm3; [|done..].
  (* what each sweep clears *)
  set (labels := getInstantiatedObjectLabels ns name
                    (EventTrigger.Name trigger) (Some er) ct) in *.
  assert (Hc1 : forall k v,
    storedClusterProfiles (server s1) !! k = Some v ->
    storedClusterProfiles (server s) !! k = Some v
    /\ matchesLabels labels (ClusterProfile.Labels v) = false).
  { intros k v.
    lazymatch type of Hr1 with
    | sweep ?fld ?setf ?key ?sel ?stale _ = _ =>
        eapply (sweep_clears fld setf key sel stale)
    end;
      [done|done| | |exact Hr1].
    - intros v0 _. cbv beta.
      by rewrite bool_decide_eq_false_2 by apply not_elem_of_empty.
    - intros k0 v0 Hl.
      by apply (forallb_map_to_list _ _ _ _ Hcp), bool_decide_eq_true_1 in Hl. }
  assert (Hc2 : forall k v,
    storedConfigMaps (server s2) !! k = Some v ->
    storedConfigMaps (server s1) !! k = Some v
    /\ matchesLabels labels (ConfigMap.Labels v)
       && bool_decide (ConfigMap.Namespace v = ReportNamespace) = false).
  { intros k v.
    lazymatch type of Hr2 with
    | sweep ?fld ?setf ?key ?sel ?stale _ = _ =>
        eapply (sweep_clears fld setf key sel stale)
    end;
      [done|done| | |exact Hr2].
    - intros v0 _. cbv beta.
      by rewrite bool_decide_eq_false_2 by apply not_elem_of_empty.
    - intros k0 v0 Hl. rewrite Hcm1 in Hl.
      by apply (forallb_map_to_list _ _ _ _ Hcm), bool_decide_eq_true_1 in Hl. }
  assert (Hc3 : forall k v,
    storedSecrets (server s') !! k = Some v ->
    storedSecrets (server s2) !! k = Some v
    /\ matchesLabels labels (Secret.Labels v)
       && bool_decide (Secret.Namespace v = ReportNamespace) = false).
  { intros k v.
    lazymatch type of Hr3 with
    | sweep ?fld ?setf ?key ?sel ?stale _ = _ =>
        eapply (sweep_clears fld setf key sel stale)
    end;
      [done|done| | |exact Hr3].
    - intros v0 _. cbv beta.
      by rewrite bool_decide_eq_false_2 by apply not_elem_of_empty.
    - intros k0 v0 Hl. rewrite Hsec2, Hsec1 in Hl.
      by apply (forallb_map_to_list _ _ _ _ Hsec), bool_decide_eq_true_1 in Hl. }
  split; [split_and!|].
  - intros k cp Hl. rewrite Hcp3, Hcp2 in Hl. by apply Hc1 in Hl as [_ ?].
  - intros k cm Hl Hns. rewrite Hcm3 in Hl. apply Hc2 in Hl as [_ Hl].
    apply andb_false_iff in Hl as [?|Hl]; [done|].
    by apply bool_decide_eq_false_1 in Hl.
  - intros k sec Hl Hns. apply Hc3 in Hl as [_ Hl].
    apply andb_false_iff in Hl as [?|Hl]; [done|].
    by apply bool_decide_eq_false_1 in Hl.
  - rewrite Hcp3, Hcp2. apply map_subseteq_spec. intros k cp Hl.
    by apply Hc1 in Hl as [? _].
Qed.

Lemma perMatchingResource_spec ns name ct trigger er mrs :
  forall acc (s s' : Mgmt G) cps,
  instantiatePerMatchingResource ns name ct trigger er mrs acc s = (ok cps, s') ->
  exists new,
    cps = acc ++ new
    /\ Forall2 (fun cp mr => expandedFrom ns name ct trigger er mr None cp) new mrs.
Proof.
  induction mrs as [|mr mrs IH]; intros acc s s' cps Hrun; simpl in Hrun.
  { unfold ret in Hrun. simplify_eq. exists []. by rewrite app_nil_r. }
  unfold bind in Hrun.
  destruct (instantiateClusterProfileForResource ns name ct trigger er mr None s)
    as [[cp|e] s1] eqn:Hcp; [|done].
  apply IH in Hrun as (new & -> & Hall).
  exists (cp :: new). split; [by rewrite <- app_assoc|].
  constructor; [by exists s, s1|done].
Qed.

Lemma perCollectedResource_spec ns name ct trigger er rs :
  forall acc (s s' : Mgmt G) cps,
  instantiatePerCollectedResource ns name ct trigger er rs acc s = (ok cps, s') ->
  exists new,
    cps = acc ++ new
    /\ Forall2 (fun cp r => expandedFrom ns name ct trigger er
                              (matchingResourceOf r) (Some r) cp) new rs.
Proof.
  induction rs as [|r rs IH]; intros acc s s' cps Hrun; simpl in Hrun.
  { unfold ret in Hrun. simplify_eq. exists []. by rewrite app_nil_r. }
  unfold bind in Hrun.
  destruct (instantiateClusterProfileForResource ns name ct trigger er
              (matchingResourceOf r) (Some r) s) as [[cp|e] s1] eqn:Hcp; [|done].
  apply IH in Hrun as (new & -> & Hall).
  exists (cp :: new). split; [by rewrite <- app_assoc|].
  constructor; [by exists s, s1|done].
Qed.

(** With an EventReport that is being deleted or lists no matching
    resource, [updateClusterProfiles] is the sweep with an empty
    expansion set, and when it succeeds no derived ClusterProfile,
    ConfigMap or Secret carrying the labels of the trigger, cluster and
    EventReport is left (and no ClusterProfile was added). Otherwise,
    with [oneForEvent] the expansion set holds one ClusterProfile per
    collected resource body when there are any, each expanded with the
    reference taken from the body and the body, and else one per
    matching-resource reference, each expanded with that reference and
    no body, so that the template object has a nil Resource; without
    [oneForEvent] the expansion set holds exactly one ClusterProfile. *)
Theorem updateClusterProfiles_expansion ns name ct trigger er (s : Mgmt G) :
  (nothingMatches er = true ->
   updateClusterProfiles ns name ct trigger er s
   = removeInstantiatedResources ns name ct trigger (Some er) [] s
   /\ forall s',
        derivedNamed (server s) = true ->
        updateClusterProfiles ns name ct trigger er s = (ok tt, s') ->
        derivedCleared ns name ct trigger er (server s')
        /\ storedClusterProfiles (server s') ⊆ storedClusterProfiles (server s))
  /\ (nothingMatches er = false ->
      EventTrigger.OneForEvent (EventTrigger.Spec trigger) = true ->
      updateClusterProfiles ns name ct trigger er s
      = bind (instantiateOneClusterProfilePerResource ns name ct trigger er)
          (fun cps => removeInstantiatedResources ns name ct trigger (Some er) cps)
          s
      /\ forall cps s',
           instantiateOneClusterProfilePerResource ns name ct trigger er s
           = (ok cps, s') ->
           exists resources,
             getResources er = ok resources
             /\ ((resources = []
                  /\ Forall2 (fun cp mr =>
                                expandedFrom ns name ct trigger er mr None cp)
                       cps (EventReport.MatchingResources (EventReport.Spec er)))
                 \/ (resources <> []
                     /\ Forall2 (fun cp r =>
                                   expandedFrom ns name ct trigger er
                                     (matchingResourceOf r) (Some r) cp)
                          cps resources)))
  /\ (nothingMatches er = false ->
      EventTrigger.OneForEvent (EventTrigger.Spec trigger) = false ->
      updateClusterProfiles ns name ct trigger er s
      = bind (instantiateOneClusterProfilePerAllResource ns name ct trigger er)
          (fun cps => removeInstantiatedResources ns name ct trigger (Some er) cps)
          s
      /\ forall cps s',
           instantiateOneClusterProfilePerAllResource ns name ct trigger er s
           = (ok cps, s') ->
           length cps = 1%nat)
  /\ (forall mr object,
        prepareCurrentObject ns name ct None mr = ok object ->
        MatchingResource object = mr /\ Resource object = None).
Proof.
  split_and!.
  - intros Hnone.
    assert (updateClusterProfiles ns name ct trigger er s
            = removeInstantiatedResources ns name ct trigger (Some er) [] s) as Heq.
    { unfold updateClusterProfiles. unfold nothingMatches in Hnone.
      by rewrite Hnone. }
    split; [done|]. intros s' Hnamed Hrun. rewrite Heq in Hrun.
    by apply removeInstantiatedResources_clears.
  - intros Hsome Hone. split.
    { unfold updateClusterProfiles. unfold nothingMatches in Hsome.
      by rewrite Hsome, Hone. }
    intros cps s'. unfold instantiateOneClusterProfilePerResource, bind, liftResult.
    destruct (getResources er) as [resources|e]; [|done].
    intros Hrun. exists resources. split; [done|].
    destruct resources as [|r rs].
    + left. split; [done|]. simpl in Hrun.
      by apply perMatchingResource_spec in Hrun as (new & -> & Hall).
    + right. split; [done|].
      rewrite bool_decide_eq_false_2 in Hrun by done.
      by apply perCollectedResource_spec in Hrun as (new & -> & Hall).
  - intros Hsome Hone. split.
    { unfold updateClusterProfiles. unfold nothingMatches in Hsome.
      by rewrite Hsome, Hone. }
    intros cps s'.
    unfold instantiateOneClusterProfilePerAllResource, bind, liftResult, ret.
    intros Hrun. repeat case_match; by simplify_eq.
  - intros mr object. unfold prepareCurrentObject.
    destruct (fecthClusterObjects ns name ct); [|done].
    by intros [= <-].
Qed.

End Expansion.

(** ** The fingerprint *)

Section FingerprintFacts.
Context `{!GoRender}.
Hypothesis sorted : sortsKeys.

Lemma mapRange_runtimes (R1 R2 : GoRuntime) {V : Type} (m : gmap string V) :
  @mapRange R1 _ _ _ _ m ≡ₚ @mapRange R2 _ _ _ _ m.
Proof. by rewrite !mapRange_perm. Qed.

Lemma AsCode_map_runtimes (R1 R2 : GoRuntime) (m : GoMap) :
  AsCode_map (@mapRange R1 _ _ _ _ <$> m) = AsCode_map (@mapRange R2 _ _ _ _ <$> m).
Proof.
  destruct m as [m|]; simpl; [|done].
  apply sorted, mapRange_runtimes.
Qed.

Lemma renderReferenced_runtimes (R1 R2 : GoRuntime) (r1 r2 : ReferencedObject) :
  sameBody r1 r2 ->
  @renderReferenced R1 _ r1 = @renderReferenced R2 _ r2.
Proof.
  destruct r1 as [cm1|sec1|es1|er1], r2 as [cm2|sec2|es2|er2]; simpl;
    try done; intros <-; try done.
  - apply AsCode_map_runtimes.
  - destruct (Secret.Data sec1) as [m|]; simpl; [|done].
    apply sorted, mapRange_runtimes.
Qed.

Lemma renderAll_runtimes (R1 R2 : GoRuntime)
    (resources1 resources2 : list ReferencedObject) :
  Forall2 sameBody resources1 resources2 ->
  forall config,
    @renderAll R1 _ config resources1 = @renderAll R2 _ config resources2.
Proof.
  induction 1 as [|r1 r2 rest1 rest2 Hbody _ IH]; intros config; simpl; [done|].
  by rewrite IH, (renderReferenced_runtimes R1 R2 r1 r2 Hbody).
Qed.

Lemma hashInput_runtimes (R1 R2 : GoRuntime) e1 e2 resources1 resources2 :
  EventTrigger.Spec e1 = EventTrigger.Spec e2 ->
  EventTrigger.Labels e1 = EventTrigger.Labels e2 ->
  Forall2 sameBody resources1 resources2 ->
  @hashInput R1 _ e1 resources1 = @hashInput R2 _ e2 resources2.
Proof.
  intros Hspec Hlabels Hbodies. unfold hashInput.
  rewrite Hspec, Hlabels, (AsCode_map_runtimes R1 R2).
  by apply renderAll_runtimes.
Qed.

Lemma sameBody_refl r : sameBody r r.
Proof. by destruct r. Qed.

(** C8. Provided the renderer prints a map whatever the order in which
    its entries are enumerated, the digest is a function of the spec,
    the labels and the bodies of the fetched resources in their fetch
    order: two computations agree whatever order the runtime enumerates
    maps in, and whatever else differs between the two triggers or the
    fetched objects (their names, labels, annotations). Maps built by
    inserting the same entries in different orders give the same
    digest. *)
Theorem eventTriggerHash_deterministic (R1 R2 : GoRuntime) :
  (forall (F1 F2 : ReferencedResources) e1 e2 cluster1 cluster2
          resources1 resources2,
     EventTrigger.Spec e1 = EventTrigger.Spec e2 ->
     EventTrigger.Labels e1 = EventTrigger.Labels e2 ->
     @fetchReferencedResources F1 e1 cluster1 = ok resources1 ->
     @fetchReferencedResources F2 e2 cluster2 = ok resources2 ->
     Forall2 sameBody resources1 resources2 ->
     exists digest,
       @eventTriggerHash R1 _ F1 e1 cluster1 = ok digest
       /\ @eventTriggerHash R2 _ F2 e2 cluster2 = ok digest)
  /\ (forall e cm secret before after
             (labels labels' data data' : list (string * string))
             (bytes bytes' : list (string * list byte)),
        NoDup labels.*1 -> labels ≡ₚ labels' ->
        NoDup data.*1 -> data ≡ₚ data' ->
        NoDup bytes.*1 -> bytes ≡ₚ bytes' ->
        sha256 (@hashInput R1 _ (withLabels e (Some (list_to_map labels)))
                  (before
                   ++ RefConfigMap (withData cm (Some (list_to_map data)))
                   :: RefSecret (withBytes secret (Some (list_to_map bytes)))
                   :: after))
        = sha256 (@hashInput R2 _ (withLabels e (Some (list_to_map labels')))
                    (before
                     ++ RefConfigMap (withData cm (Some (list_to_map data')))
                     :: RefSecret (withBytes secret (Some (list_to_map bytes')))
                     :: after))).
Proof.
  split.
  - intros F1 F2 e1 e2 cluster1 cluster2 resources1 resources2
      Hspec Hlabels Hfetch1 Hfetch2 Hbodies.
    unfold eventTriggerHash. rewrite Hfetch1, Hfetch2.
    eexists. split; [reflexivity|].
    by rewrite (hashInput_runtimes R1 R2 e1 e2 resources1 resources2).
  - intros e cm secret before after labels labels' data data' bytes bytes'
      Hnd Hperm Hnd' Hperm' Hnd'' Hperm''.
    rewrite (list_to_map_proper labels labels' Hnd Hperm).
    rewrite (list_to_map_proper data data' Hnd' Hperm').
    rewrite (list_to_map_proper bytes bytes' Hnd'' Hperm'').
    f_equal. apply hashInput_runtimes; try done.
    apply Forall2_same_length_lookup. split; [done|].
    intros i r1 r2 Hr1 Hr2. assert (r1 = r2) as -> by congruence.
    apply sameBody_refl.
Qed.

End FingerprintFacts.
(** ** The matcher *)

Section MatcherFacts.
Context `{!GoRuntime} `{!LabelSelectors}.

Lemma NoDup_setItems {K : Type} `{Countable K} (s : gset K) : NoDup (setItems s).
Proof. rewrite setItems_perm. apply NoDup_elements. Qed.

Lemma elem_of_setItems {K : Type} `{Countable K} (s : gset K) (x : K) :
  x ∈ setItems s <-> x ∈ s.
Proof. rewrite setItems_perm. apply elem_of_elements. Qed.

Lemma NoDup_List_filter {A : Type} (p : A -> bool) (l : list A) :
  NoDup l -> NoDup (List.filter p l).
Proof.
  induction 1 as [|x l Hx Hl IH]; simpl; [constructor|].
  destruct (p x); [|done]. constructor; [|done].
  rewrite list_elem_of_In, filter_In, <- list_elem_of_In. tauto.
Qed.

Lemma tracked_default (m : gmap ObjectReference (gset ObjectReference)) k x :
  x ∈ default ∅ (m !! k) -> exists s, m !! k = Some s /\ x ∈ s.
Proof.
  destruct (m !! k) as [s|]; simpl; [eauto|]. by intros ?%not_elem_of_empty.
Qed.

(** Requests built from the items of one set of the index. *)
Lemma NoDup_requests (r : Index) (s : gset ObjectReference)
    (mk : ObjectReference -> Request.t) :
  triggersByName r ->
  (forall x, x ∈ s -> tracked r x) ->
  (forall x y, mk x = mk y -> Name x = Name y) ->
  NoDup (map mk (setItems s)).
Proof.
  intros Hnames Htracked Hmk.
  apply (NoDup_fmap_2_strong mk); [|apply NoDup_setItems].
  intros x y Hx%elem_of_setItems Hy%elem_of_setItems Heq.
  apply Hnames; auto.
Qed.

Lemma NoDup_matchingTriggerRequests (r : Index) (labels : GoMap) :
  triggersByName r -> NoDup (matchingTriggerRequests r labels).
Proof.
  intros Hnames. unfold matchingTriggerRequests.
  assert (Hin : forall kv, kv ∈ mapRange (EventTriggers r) ->
                           EventTriggers r !! kv.1 = Some kv.2).
  { intros [k v]. rewrite mapRange_perm. apply elem_of_map_to_list. }
  apply (NoDup_fmap_2_strong
           (fun kv : ObjectReference * Selector => nameRequest kv.1)).
  - intros [k1 v1] [k2 v2] H1 H2 Heq.
    apply list_elem_of_In, filter_In in H1 as [H1%list_elem_of_In%Hin _].
    apply list_elem_of_In, filter_In in H2 as [H2%list_elem_of_In%Hin _].
    simpl in *. injection Heq as Heq.
    assert (k1 = k2) as ->.
    { apply Hnames; [right; eauto..|done]. }
    congruence.
  - apply NoDup_List_filter. rewrite mapRange_perm.
    apply NoDup_map_to_list.
Qed.

(** C9, as the code has it: the EventReport, EventSource and reference
    matchers return each trigger once. The cluster matcher returns the
    triggers that tracked the cluster, each once, followed by the
    triggers whose selector matches the labels, each once; a trigger in
    both groups is returned twice. The machine matcher returns two such
    groups for the cluster of the machine. *)
Theorem requeue_requests (r : Index) :
  triggersByName r ->
  (forall eventReport, NoDup (requeueEventTriggerForEventReport r eventReport))
  /\ (forall eventSource, NoDup (requeueEventTriggerForEventSource r eventSource))
  /\ (forall o, NoDup (requeueEventTriggerForReference r o))
  /\ (forall apiVersion kind namespace name labels,
        let clusterInfo := mkRef kind namespace name "" apiVersion "" "" in
        exists previous current,
          (requeueEventTriggerForCluster r apiVersion kind namespace name labels).1
          = previous ++ current
          /\ NoDup previous /\ NoDup current
          /\ (forall t, t ∈ getClusterMapForEntry r clusterInfo ->
                        nameRequest t ∈ previous)
          /\ (forall t sel, EventTriggers r !! t = Some sel ->
                            Matches sel labels = true ->
                            nameRequest t ∈ current))
  /\ (forall apiVersion namespace machineLabels requests,
        requeueEventTriggerForMachine r apiVersion namespace machineLabels
        = Some requests ->
        exists previous current,
          requests = previous ++ current /\ NoDup previous /\ NoDup current).
Proof.
  intros Hnames. split_and!.
  - intros er. apply (NoDup_requests r); [done| |by intros x y [= ?]].
    intros x (s & Hs & Hx)%tracked_default. left. eauto 6.
  - intros es. apply (NoDup_requests r); [done| |by intros x y [= ?]].
    intros x (s & Hs & Hx)%tracked_default. left. eauto 6.
  - intros o. apply (NoDup_requests r); [done| |by intros x y [= ?]].
    intros x (s & Hs & Hx)%tracked_default. left. eauto 6.
  - intros apiVersion kind namespace name labels clusterInfo.
    eexists _, _. split; [reflexivity|]. split_and!.
    + apply (NoDup_requests r); [done| |by intros x y [= ?]].
      intros x (s & Hs & Hx)%tracked_default. left. eauto 6.
    + by apply (NoDup_matchingTriggerRequests
                  (mkIndex (ClusterMap r) (EventSourceMap r) (ReferenceMap r)
                     (EventTriggers r) (<[clusterInfo:=labels]> (ClusterLabels r)))).
    + intros t Ht. apply list_elem_of_fmap. exists t. split; [done|].
      by apply elem_of_setItems.
    + intros t sel Ht Hm. unfold matchingTriggerRequests. simpl.
      apply list_elem_of_fmap. exists (t, sel). split; [done|].
      apply list_elem_of_In, filter_In. split; [|done].
      apply list_elem_of_In. rewrite mapRange_perm.
      by apply elem_of_map_to_list.
  - intros apiVersion namespace machineLabels requests.
    unfold requeueEventTriggerForMachine.
    destruct (default ∅ machineLabels !! ClusterNameLabel)
      as [clusterLabelName|]; [|done].
    set (previous := map nameRequest _).
    assert (NoDup previous) as Hprevious.
    { apply (NoDup_requests r); [done| |by intros x y [= ?]].
      intros x (s & Hs & Hx)%tracked_default. left. eauto 6. }
    destruct (ClusterLabels r !! _) as [clusterLabels|]; intros [= <-].
    + exists previous, (matchingTriggerRequests r clusterLabels).
      split_and!; [done..|]. by apply NoDup_matchingTriggerRequests.
    + exists previous, []. rewrite app_nil_r. split_and!; [done..|].
      constructor.
Qed.

End MatcherFacts.

(** ** The statements on concrete inputs *)

Section Runs.
Import Fixture Scenario.
#[local] Existing Instance dispatcher.
#[local] Existing Instance clusterProxy.
#[local] Existing Instance runtime.
#[local] Existing Instance render.
#[local] Existing Instance noReferences.
#[local] Existing Instance keys.
#[local] Existing Instance ownerRefs.
#[local] Existing Instance selectors.
#[local] Existing Instance random.
#[local] Existing Instance unstructured.
#[local] Existing Instance templates.

(** Settles a decidable statement by evaluating its decision. *)
Ltac decide_by_evaluation :=
  lazymatch goal with
  | |- ?P => apply (bool_decide_unpack P); vm_compute; exact I
  end.

(** The trigger of [Scenario.failedRun]: its entry for [c1] is Provisioned
    with the current fingerprint, and the dispatcher holds the failed
    result [boom] for it. The run answers Failed. *)
Lemma processEventTrigger_failed_result_witness :
  exists ci w',
    failedRun = ((Some ci, None), w')
    /\ Status ci = SveltosStatusFailed
    /\ Hash ci = Some fingerprint
    /\ FailureMessage ci = None.
Proof.
  destruct (processEventTrigger_failed_result
              (trigger [c1] [provisionedEntry]) c1 eventTriggerFeature
              failedWorld fingerprint boom (deployer failedWorld))
    as (ci & w' & Hrun & _ & Hst & Hh & Hmsg & _);
    try (vm_compute; reflexivity).
  by exists ci, w'.
Defined.

(** C1, as the code has it: a failed deploy is neither reported as an
    error nor described. On the input of [Scenario.failedRun] the
    cluster still matches, the hash is unchanged and the dispatcher
    holds the result Failed with the error [boom];
    [processEventTrigger] returns no error, and the ClusterInfo it
    returns has status Failed and no failure message: the text of
    [boom] is put in a ClusterInfo that this path does not return. *)
Lemma processEventTrigger_failed_no_error :
  isClusterStillMatching (trigger [c1] [provisionedEntry]) c1 = true
  /\ (getClusterHashAndStatus (trigger [c1] [provisionedEntry]) c1).1
     = Some fingerprint
  /\ eventTriggerHash (trigger [c1] [provisionedEntry]) c1 = ok fingerprint
  /\ (GetResult (deployer failedWorld) (keyOf c1 false)).1
     = Result.mk Failed (Some boom)
  /\ failedRun.1
     = (Some (mkClusterInfo c1 (Some fingerprint) SveltosStatusFailed None),
        None).
Proof. vm_compute. by repeat split. Qed.

(** The two runs without a Failed result: a changed hash submits the
    deploy job, an unchanged hash of a Provisioned entry without result
    does not. *)
Lemma processEventTrigger_submits_witness :
  changedRun.1
  = (Some (mkClusterInfo c1 (Some fingerprint) SveltosStatusProvisioning None),
     None)
  /\ calls changedRun.2
     = openingCalls (keyOf c1 true)
       ++ [CallDeploy (keyOf c1 false) processEventTriggerForClusterHandler]
  /\ noResultRun.1
     = (Some (mkClusterInfo c1 (Some fingerprint) SveltosStatusProvisioned None),
        None).
Proof.
  destruct (processEventTrigger_submits
              (trigger [c1] [outdatedEntry]) c1 eventTriggerFeature
              (world []) fingerprint) as [Hchanged _];
    try (vm_compute; reflexivity).
  destruct (processEventTrigger_submits
              (trigger [c1] [provisionedEntry]) c1 eventTriggerFeature
              (world []) fingerprint) as [_ Hsame];
    try (vm_compute; reflexivity).
  unfold changedRun, noResultRun, process.
  rewrite (Hchanged ltac:(vm_compute; discriminate)
             (mkDispatcher [] [] None
                [(keyOf c1 false, processEventTriggerForClusterHandler)])
             ltac:(vm_compute; reflexivity)).
  destruct (Hsame (Some SveltosStatusProvisioned)
              (Result.mk Unavailable None) (mkDispatcher [] [] None [])
              ltac:(vm_compute; reflexivity) ltac:(vm_compute; reflexivity)
              ltac:(reflexivity)) as [_ Hkept].
  rewrite (Hkept eq_refl).
  by vm_compute.
Defined.

(** The entry for [c1] is Provisioned with the current fingerprint and
    the dispatcher has no result for it: the status stays Provisioned,
    and the dispatcher is asked for the result and nothing else. *)
Lemma processEventTrigger_provisioned_not_resubmitted :
  (getClusterHashAndStatus (trigger [c1] [provisionedEntry]) c1)
  = (Some fingerprint, Some SveltosStatusProvisioned)
  /\ eventTriggerHash (trigger [c1] [provisionedEntry]) c1 = ok fingerprint
  /\ Result.ResultStatus
       (GetResult (deployer (world [])) (keyOf c1 false)).1 = Unavailable
  /\ noResultRun.1
     = (Some (mkClusterInfo c1 (Some fingerprint) SveltosStatusProvisioned None),
        None)
  /\ calls noResultRun.2
     = openingCalls (keyOf c1 true) ++ [CallGetResult (keyOf c1 false)]
  /\ queue (deployer noResultRun.2) = [].
Proof. vm_compute. by repeat split. Qed.



(** C4, as the code has it: a failure to delete the EventReports is not
    reported. The EventSource [es-old] is owned by the trigger alone and
    everything deployed by the trigger is to be removed; the deletion of
    the EventReport pulled for it fails. [removeStaleEventReports] returns
    the error, [removeStaleEventSources] makes its four requests and
    returns nil; the EventReport and the EventSource are still stored. *)
Theorem removeStaleEventSources_swallows_report_failure :
  (removeStaleEventReports "shardA" "c1" "es-old" ClusterTypeCapi
     (mkApi ∅ ∅ ∅ ∅ (storedEventReports apiWithEventSource)
        (storedEventSources apiWithEventSource) [None; Some deleteFails])).1
  = Some deleteFails
  /\ cleanupRun.1 = None
  /\ faults cleanupRun.2 = []
  /\ storedEventReports cleanupRun.2 !! ("shardA", "er-old") = Some pulledReport
  /\ storedEventSources cleanupRun.2 !! "es-old" = Some ownedEventSource.
Proof. vm_compute. by repeat split. Qed.

(** The sweep for an EventReport that is being deleted. *)
Lemma updateClusterProfiles_expansion_witness :
  derivedCleared "shardA" "c1" ClusterTypeCapi (trigger [c1] []) deletedReport
    (server clearedRun.2)
  /\ storedClusterProfiles (server clearedRun.2)
     ⊆ storedClusterProfiles apiWithProfile.
Proof.
  destruct (updateClusterProfiles_expansion "shardA" "c1" ClusterTypeCapi
              (trigger [c1] []) deletedReport (mkMgmt apiWithProfile 0%nat))
    as [Hnone _].
  destruct (Hnone ltac:(vm_compute; reflexivity)) as [_ Hcleared].
  apply Hcleared; vm_compute; reflexivity.
Defined.

(** C6, as the code has it: the sweep of [updateClusterProfiles] does
    not remove all derived objects of the trigger and the cluster. The
    ClusterProfile [sveltos-other] carries the labels of the trigger
    [t1] and the cluster [shardA/c1], and was derived from the
    EventReport [er0]. The EventReport [er1] of the same trigger and
    cluster is being deleted, so the expansion set is empty; the sweep
    lists by the labels of [er1] too, succeeds, and leaves
    [sveltos-other] stored. *)
Lemma updateClusterProfiles_keeps_other_report :
  nothingMatches deletedReport = true
  /\ storedClusterProfiles apiWithProfile !! "sveltos-other" = Some otherProfile
  /\ matchesLabels
       (triggerClusterLabels "shardA" "c1" ClusterTypeCapi (trigger [c1] []))
       (ClusterProfile.Labels otherProfile) = true
  /\ clearedRun.1 = ok tt
  /\ storedClusterProfiles (server clearedRun.2) !! "sveltos-other"
     = Some otherProfile.
Proof. vm_compute. by repeat split. Qed.

(** A pass over the entry of a cluster of another shard, without hash. *)
Lemma deployEventTrigger_foreign_shard_witness :
  exists c',
    CIs foreignPass.1.2 !! 0%nat = Some c'
    /\ Cluster c' = foreignCluster
    /\ Status c' = SveltosStatusProvisioning
    /\ Hash c' = Some (bytes_of_string "ZW1wdHk=")
    /\ foreignPass.1.1 <> None
    /\ calls foreignPass.2 = [].
Proof.
  destruct (deployEventTrigger_foreign_shard reconciler foreignTrigger
              eventTriggerFeature (world [])
              foreignPass.1.1 foreignPass.1.2 foreignPass.2)
    as (_ & Hentry & _).
  { vm_compute. reflexivity. }
  destruct (Hentry 0%nat foreignEntry eq_refl ltac:(vm_compute; reflexivity))
    as (c' & Hc' & HCl & HSt & _ & _ & Hsentinel & Herr & _).
  exists c'. refine (conj Hc' (conj HCl (conj HSt (conj _ (conj _ _))))).
  - apply Hsentinel. intros c0 Hin.
    apply list_elem_of_singleton in Hin as ->. vm_compute. reflexivity.
  - apply Herr. vm_compute. discriminate.
  - vm_compute. reflexivity.
Defined.

(** The renderer of the fixture sorts the entries before printing. *)
Lemma render_sortsKeys : @sortsKeys render.
Proof.
  split; intros l l' Hperm; simpl; unfold printMap, sortByCode.
  all: assert (merge_sort byCode l = merge_sort byCode l') as ->; [|reflexivity].
  all: apply (Sorted_unique byCode);
         [apply (Sorted_merge_sort byCode) | apply (Sorted_merge_sort byCode)
         | by rewrite !merge_sort_Permutation].
Qed.

(** The labels and the data inserted in two orders; and two fetches
    that answer ConfigMaps with the same data under different names. *)
Lemma eventTriggerHash_deterministic_witness :
  sha256 (hashInput (withLabels (trigger [] []) (Some (list_to_map someLabels)))
            [RefConfigMap (withData someConfigMap (Some (list_to_map someLabels)));
             RefSecret (withBytes someSecret (Some (list_to_map someBytes)))])
  = sha256 (hashInput (withLabels (trigger [] []) (Some (list_to_map someLabels')))
              [RefConfigMap
                 (withData someConfigMap (Some (list_to_map someLabels')));
               RefSecret (withBytes someSecret (Some (list_to_map someBytes')))])
  /\ @eventTriggerHash runtime render (fetching [RefConfigMap someConfigMap])
       (trigger [] []) c1
     = @eventTriggerHash runtime render (fetching [RefConfigMap renamedConfigMap])
         (trigger [] []) c1.
Proof.
  destruct (eventTriggerHash_deterministic render_sortsKeys runtime runtime)
    as [Hbodies Horder].
  split.
  - apply (Horder (trigger [] []) someConfigMap someSecret [] []
             someLabels someLabels' someLabels someLabels' someBytes someBytes').
    + decide_by_evaluation.
    + apply perm_swap.
    + decide_by_evaluation.
    + apply perm_swap.
    + decide_by_evaluation.
    + apply perm_swap.
  - destruct (Hbodies (fetching [RefConfigMap someConfigMap])
                (fetching [RefConfigMap renamedConfigMap])
                (trigger [] []) (trigger [] []) c1 c1
                [RefConfigMap someConfigMap] [RefConfigMap renamedConfigMap]
                eq_refl eq_refl eq_refl eq_refl)
      as (digest & -> & ->); [|reflexivity].
    constructor; [reflexivity|constructor].
Defined.

(** The index of [Scenario.index] holds the identifier of [t1] only. *)
Lemma tracked_index (x : ObjectReference) : tracked index x -> x = t1Ref.
Proof.
  intros [(k & s & Hmap & Hin)|Htrig].
  - destruct Hmap as [Hmap|[Hmap|Hmap]]; simpl in Hmap.
    + apply lookup_singleton_Some in Hmap as [_ <-].
      by apply elem_of_singleton in Hin.
    + by rewrite lookup_empty in Hmap.
    + by rewrite lookup_empty in Hmap.
  - simpl in Htrig. destruct Htrig as [sel Hsel].
    by apply lookup_singleton_Some in Hsel as [-> _].
Qed.

(** The cluster matcher on an index in which [t1] tracks the cluster and
    selects its labels. *)
Lemma requeue_requests_witness :
  exists previous current,
    clusterRequests = previous ++ current
    /\ NoDup previous /\ NoDup current
    /\ nameRequest t1Ref ∈ previous
    /\ nameRequest t1Ref ∈ current.
Proof.
  assert (triggersByName index) as Hnames.
  { intros x y Hx Hy _.
    by rewrite (tracked_index x Hx), (tracked_index y Hy). }
  destruct (requeue_requests index Hnames) as (_ & _ & _ & Hcluster & _).
  destruct (Hcluster "cluster.x-k8s.io/v1beta1" "Cluster" "shardA" "c1"
              clusterLabels)
    as (previous & current & Heq & Hp & Hc & Hinp & Hinc).
  exists previous, current.
  refine (conj Heq (conj Hp (conj Hc (conj _ _)))).
  - apply Hinp. decide_by_evaluation.
  - apply (Hinc t1Ref "env"); vm_compute; reflexivity.
Defined.

(** On that index the cluster matcher returns [t1] twice. *)
Lemma requeueEventTriggerForCluster_duplicates :
  t1Ref ∈ getClusterMapForEntry index c1
  /\ EventTriggers index !! t1Ref = Some "env"
  /\ Matches "env" clusterLabels = true
  /\ clusterRequests = [nameRequest t1Ref; nameRequest t1Ref]
  /\ ~ NoDup clusterRequests.
Proof.
  split; [decide_by_evaluation|].
  split; [vm_compute; reflexivity|].
  split; [vm_compute; reflexivity|].
  split; [vm_compute; reflexivity|].
  intros Hnd.
  assert (clusterRequests = [nameRequest t1Ref; nameRequest t1Ref]) as Heq
    by (vm_compute; reflexivity).
  rewrite Heq in Hnd. apply NoDup_cons in Hnd as [Hnotin _].
  apply Hnotin. by constructor.
Qed.

(** Removing the entry of the cluster [a] from the stored trigger. *)
Lemma removeClusterInfoEntry_removes_first_witness :
  removal.1 = None
  /\ exists stored i,
       storedEventTriggers apiWithTrigger !! "t1" = Some stored
       /\ storedEventTriggers removal.2
          = <["t1" := SetClusterInfo stored (remove (CIs stored) i)]>
              (storedEventTriggers apiWithTrigger)
       /\ remove (CIs stored) i ≡ₚ delete i (CIs stored).
Proof.
  destruct (removeClusterInfoEntry_removes_first "shardA" "a" ClusterTypeCapi
              storedTrigger apiWithTrigger removal.1 removal.2)
    as [[Hsame|(stored & i & c & Herr & Hstored & _ & _ & _ & Hafter & Hperm)] _].
  - vm_compute. reflexivity.
  - vm_compute. reflexivity.
  - apply (f_equal (fun m => (fun e => CIs e) <$> m !! "t1")) in Hsame.
    vm_compute in Hsame. discriminate.
  - split; [done|]. by exists stored, i.
Defined.

End Runs.
(** ** Undeploy of a trigger *)

Section UndeployFacts.
Context {D : Type} `{!DeployerInterface D} `{!ClusterProxy}.

Lemma undeployEventTriggerLoop_spec r resource f clusterInfo :
  forall err0 (w : World D) clusterInfo' err w',
  undeployEventTriggerLoop r resource f clusterInfo err0 w
    = (clusterInfo', err, w') ->
  Forall2 (fun c c' => c' = c \/ c' = setStatus c SveltosStatusRemoved)
    clusterInfo clusterInfo'
  /\ (err = None ->
      err0 = None
      /\ Forall (fun c' => Status c' = SveltosStatusRemoved) clusterInfo').
Proof.
  induction clusterInfo as [|ci rest IH]; intros err0 w cis' err w' Hrun;
    simpl in Hrun.
  { simplify_eq. by repeat constructor. }
  destruct (isClusterAShardMatch r ci) as [shardMatch [tmpErr|]].
  - destruct (undeployEventTriggerLoop r resource f rest (Some tmpErr) w)
      as [[rest' err1] w1] eqn:Hrest. simplify_eq.
    apply IH in Hrest as [Hall Hnil].
    split; [constructor; [by left|done]|].
    intros ->. by destruct (Hnil eq_refl).
  - destruct (negb shardMatch
              && negb (bool_decide (Status ci = SveltosStatusRemoved))).
    + destruct (undeployEventTriggerLoop r resource f rest (Some removePending) w)
        as [[rest' err1] w1] eqn:Hrest. simplify_eq.
      apply IH in Hrest as [Hall Hnil].
      split; [constructor; [by left|done]|].
      intros ->. by destruct (Hnil eq_refl).
    + destruct (removeEventTrigger resource (Cluster ci) f w)
        as [[info [tmpErr|]] w1].
      * destruct (undeployEventTriggerLoop r resource f rest (Some tmpErr) w1)
          as [[rest' err1] w2] eqn:Hrest. simplify_eq.
        apply IH in Hrest as [Hall Hnil].
        split; [constructor; [by left|done]|].
        intros ->. by destruct (Hnil eq_refl).
      * destruct (undeployEventTriggerLoop r resource f rest err0 w1)
          as [[rest' err1] w2] eqn:Hrest. simplify_eq.
        apply IH in Hrest as [Hall Hnil].
        split; [constructor; [by right|done]|].
        intros ->. destruct (Hnil eq_refl) as [-> Hrem].
        split; [done|]. by constructor.
Qed.

(** [undeployEventTrigger] changes nothing of the entries but their
    status, which it leaves or sets to Removed, and it returns nil only
    when every entry ends with status Removed. *)
Theorem undeployEventTrigger_removed r resource f clusterInfo (w : World D)
    clusterInfo' err w' :
  undeployEventTrigger r resource f clusterInfo w = (clusterInfo', err, w') ->
  Forall2 (fun c c' => c' = c \/ c' = setStatus c SveltosStatusRemoved)
    clusterInfo clusterInfo'
  /\ (err = None ->
      Forall (fun c' => Status c' = SveltosStatusRemoved) clusterInfo').
Proof.
  intros Hrun. apply undeployEventTriggerLoop_spec in Hrun as [Hall Hnil].
  split; [done|]. intros Herr. by destruct (Hnil Herr).
Qed.

Lemma undeployEventTriggerLoop_pending r resource f clusterInfo :
  forall err0 (w : World D) clusterInfo' err w' i c,
  undeployEventTriggerLoop r resource f clusterInfo err0 w
    = (clusterInfo', err, w') ->
  clusterInfo !! i = Some c ->
  foreign r c ->
  Status c <> SveltosStatusRemoved ->
  clusterInfo' !! i = Some c /\ err <> None.
Proof.
  induction clusterInfo as [|ci rest IH];
    intros err0 w cis' err w' i c Hrun Hc Hf Hst; [done|].
  simpl in Hrun.
  destruct i as [|i]; simpl in Hc.
  - simplify_eq. unfold foreign in Hf. rewrite Hf in Hrun. simpl in Hrun.
    rewrite (bool_decide_eq_false_2 (Status c = SveltosStatusRemoved)) in Hrun
      by done.
    simpl in Hrun.
    destruct (undeployEventTriggerLoop r resource f rest (Some removePending) w)
      as [[rest' err1] w1] eqn:Hrest. simplify_eq.
    split; [done|].
    apply undeployEventTriggerLoop_spec in Hrest as [_ Hnil].
    intros ->. by destruct (Hnil eq_refl).
  - assert (forall ci' e (w0 : World D),
              (let '(rest0, err1, w1) :=
                 undeployEventTriggerLoop r resource f rest e w0 in
               (ci' :: rest0, err1, w1)) = (cis', err, w') ->
              cis' !! S i = Some c /\ err <> None) as Hstep.
    { intros ci' e w0 Heq.
      destruct (undeployEventTriggerLoop r resource f rest e w0)
        as [[rest' err1] w1] eqn:Hrest. simplify_eq. simpl.
      by eapply IH. }
    destruct (isClusterAShardMatch r ci) as [shardMatch [tmpErr|]];
      [by eapply Hstep|].
    destruct (negb shardMatch
              && negb (bool_decide (Status ci = SveltosStatusRemoved)));
      [by eapply Hstep|].
    destruct (removeEventTrigger resource (Cluster ci) f w)
      as [[info [tmpErr|]] w1]; by eapply Hstep.
Qed.

(** An entry whose cluster is handled by another shard and whose status
    is not Removed is left as it is and makes [undeployEventTrigger]
    return an error. An entry of another shard whose status is Removed is
    not skipped: [removeEventTrigger] runs for its cluster, so the
    dispatcher is called. *)
Theorem undeployEventTrigger_foreign r resource f clusterInfo (w : World D)
    clusterInfo' err w' :
  undeployEventTrigger r resource f clusterInfo w = (clusterInfo', err, w') ->
  (forall i c,
     clusterInfo !! i = Some c -> foreign r c ->
     Status c <> SveltosStatusRemoved ->
     clusterInfo' !! i = Some c /\ err <> None)
  /\ (forall c rest,
        clusterInfo = c :: rest -> foreign r c ->
        Status c = SveltosStatusRemoved ->
        exists new,
          calls w'
          = calls w
            ++ CallCleanupEntries (deployerKey (Cluster c) resource f false)
            :: new).
Proof.
  intros Hrun. split.
  - intros i c Hc Hf Hst. by eapply undeployEventTriggerLoop_pending.
  - intros c rest -> Hf Hst. unfold undeployEventTrigger in Hrun.
    simpl in Hrun. unfold foreign in Hf. rewrite Hf in Hrun. simpl in Hrun.
    rewrite (bool_decide_eq_true_2 (Status c = SveltosStatusRemoved)) in Hrun
      by done.
    simpl in Hrun.
    assert (forall out (w1 : World D),
              removeEventTrigger resource (Cluster c) f w = (out, w1) ->
              exists new,
                calls w1
                = calls w
                  ++ CallCleanupEntries (deployerKey (Cluster c) resource f false)
                  :: new) as Hfirst.
    { intros out w1. unfold removeEventTrigger, doIsInProgress, doGetResult,
        doDeploy, doCleanupEntries. simpl.
      intros Heq. repeat case_match; simplify_eq; simpl;
        rewrite <- ?app_assoc; simpl; eauto. }
    assert (forall cis e (w0 : World D) cis0 e0 w2,
              undeployEventTriggerLoop r resource f cis e w0 = (cis0, e0, w2) ->
              exists new, calls w2 = calls w0 ++ new) as Hgrow.
    { induction cis as [|ci cis IH]; intros e w0 cis0 e0 w2 Heq; simpl in Heq.
      { simplify_eq. exists []. by rewrite app_nil_r. }
      assert (forall ci' e1 (w3 : World D),
                (exists n, calls w3 = calls w0 ++ n) ->
                (let '(rest0, err1, w1) :=
                   undeployEventTriggerLoop r resource f cis e1 w3 in
                 (ci' :: rest0, err1, w1)) = (cis0, e0, w2) ->
                exists new, calls w2 = calls w0 ++ new) as Hstep.
      { intros ci' e1 w3 [n Hn] Heq1.
        destruct (undeployEventTriggerLoop r resource f cis e1 w3)
          as [[rest' err1] w1] eqn:Hrest. simplify_eq.
        apply IH in Hrest as [n' Hn']. exists (n ++ n').
        by rewrite Hn', Hn, app_assoc. }
      assert (exists n, calls w0 = calls w0 ++ n) as Hrefl
        by (exists []; by rewrite app_nil_r).
      destruct (isClusterAShardMatch r ci) as [shardMatch [tmpErr|]];
        [by eapply Hstep|].
      destruct (negb shardMatch
                && negb (bool_decide (Status ci = SveltosStatusRemoved)));
        [by eapply Hstep|].
      destruct (removeEventTrigger resource (Cluster ci) f w0)
        as [[info tmpErr] w1] eqn:Hrem.
      apply removeEventTrigger_calls in Hrem as (n & Hn & _).
      destruct tmpErr; (eapply Hstep; [|exact Heq]; eauto). }
    destruct (removeEventTrigger resource (Cluster c) f w)
      as [[info tmpErr] w1] eqn:Hrem.
    destruct (Hfirst _ _ eq_refl) as [n Hn].
    assert (exists ci' e1,
              (let '(rest0, err1, w2) :=
                 undeployEventTriggerLoop r resource f rest e1 w1 in
               (ci' :: rest0, err1, w2)) = (clusterInfo', err, w'))
      as (ci' & e1 & Heq) by (destruct tmpErr; eauto).
    destruct (undeployEventTriggerLoop r resource f rest e1 w1)
      as [[rest' err1] w2] eqn:Hrest. simplify_eq.
    apply Hgrow in Hrest as [n' Hn'].
    exists (n ++ n'). rewrite Hn', Hn. by rewrite <- app_assoc.
Qed.

End UndeployFacts.
(** ** The two directions of [processEventTrigger] *)

Section DirectionFacts.
Context {D : Type} `{!DeployerInterface D} `{!ClusterProxy}.
Context `{!GoRuntime} `{!GoRender} `{!ReferencedResources}.

(** [removeEventTrigger] returns a nil error in two cases only: the
    trigger has no entry for the cluster, and then it stops after asking
    whether a deploy is in progress; or the dispatcher holds the result
    Removed for the cleanup and the entry of the cluster was removed from
    the stored trigger. It never returns nil after queueing a cleanup. *)
Theorem removeEventTrigger_nil_error resource cluster f (w : World D) info w' :
  removeEventTrigger resource cluster f w = ((info, None), w') ->
  let kd := deployerKey cluster resource f false in
  let kc := deployerKey cluster resource f true in
  (info = None
   /\ isClusterEntryRemoved resource cluster = true
   /\ api w' = api w
   /\ calls w' = calls w ++ [CallCleanupEntries kd; CallIsInProgress kd])
  \/ (info = Some (mkClusterInfo cluster None SveltosStatusRemoved None)
      /\ isClusterEntryRemoved resource cluster = false
      /\ Result.ResultStatus (GetResult (CleanupEntries (deployer w) kd) kc).1
         = Removed
      /\ removeClusterInfoEntry (Namespace cluster) (Name cluster)
           (GetClusterType cluster) resource (api w) = (None, api w')
      /\ calls w'
         = calls w
           ++ [CallCleanupEntries kd; CallIsInProgress kd; CallGetResult kc]).
Proof.
  intros Hrun kd kc. unfold removeEventTrigger in Hrun. fold kd kc in Hrun.
  unfold doIsInProgress, doCleanupEntries in Hrun. simpl in Hrun.
  destruct (IsInProgress (CleanupEntries (deployer w) kd) kd); [done|].
  destruct (isClusterEntryRemoved resource cluster) eqn:Hentry.
  { left. simplify_eq. simpl. by rewrite <- app_assoc. }
  right. unfold doGetResult, doDeploy in Hrun. simpl in Hrun.
  destruct (GetResult (CleanupEntries (deployer w) kd) kc) as [res d1] eqn:Hres.
  simpl in Hrun. unfold convertResultStatus in Hrun.
  destruct res as [[] e]; simpl in Hrun;
    try (destruct (Deploy d1 kc _) as [[?|] ?]; by simplify_eq).
  destruct (removeClusterInfoEntry _ _ _ _ _) as [[e'|] a'] eqn:Hremove;
    [done|].
  simplify_eq. simpl. rewrite <- !app_assoc. simpl.
  by repeat split.
Qed.

(** Every dispatcher call of [processEventTrigger] is made under the
    keys of the trigger, the feature and the cluster. A job is submitted
    for the direction at hand only: the deploy job for a cluster that
    still matches, the cleanup job for a cluster that does not. *)
Theorem processEventTrigger_dispatcher_scope resource cluster f (w : World D)
    out w' :
  processEventTrigger resource cluster f w = (out, w') ->
  exists new,
    calls w' = calls w ++ new
    /\ Forall (dispatcherCallFor resource cluster f
                 (isClusterStillMatching resource cluster)) new.
Proof.
  unfold processEventTrigger.
  destruct (isClusterStillMatching resource cluster); simpl.
  - unfold doIsInProgress, doCleanupEntries, doGetResult, doDeploy. simpl.
    intros Hrun.
    repeat case_match; simplify_eq; simpl;
      rewrite <- ?app_assoc; simpl;
      (eexists; split; [try reflexivity; by rewrite app_nil_r|]);
      repeat constructor; simpl; eauto.
  - unfold removeEventTrigger, doIsInProgress, doCleanupEntries, doGetResult,
      doDeploy, setApi. simpl.
    intros Hrun.
    repeat case_match; simplify_eq; simpl;
      rewrite <- ?app_assoc; simpl;
      (eexists; split; [try reflexivity; by rewrite app_nil_r|]);
      repeat constructor; simpl; eauto.
Qed.

(** [processEventTrigger] leaves the API server as it is, except on the
    cleanup direction with a Removed result, where its only request is
    the removal of the entry of the cluster from the stored trigger. *)
Theorem processEventTrigger_api resource cluster f (w : World D) out w' :
  processEventTrigger resource cluster f w = (out, w') ->
  api w' = api w
  \/ (isClusterStillMatching resource cluster = false
      /\ api w'
         = (removeClusterInfoEntry (Namespace cluster) (Name cluster)
              (GetClusterType cluster) resource (api w)).2).
Proof.
  unfold processEventTrigger.
  destruct (isClusterStillMatching resource cluster); simpl.
  - unfold doIsInProgress, doCleanupEntries, doGetResult, doDeploy. simpl.
    intros Hrun. left. repeat case_match; by simplify_eq.
  - unfold removeEventTrigger, doIsInProgress, doCleanupEntries, doGetResult,
      doDeploy, setApi. simpl.
    intros Hrun.
    repeat case_match; simplify_eq; simpl; try (by left);
      right; (split; [done|]);
      match goal with H : removeClusterInfoEntry _ _ _ _ _ = _ |- _ =>
        simpl in H; by rewrite H end.
Qed.

Lemma processEventTrigger_cluster resource cluster f (w : World D) ci err w' :
  processEventTrigger resource cluster f w = ((Some ci, err), w') ->
  Cluster ci = cluster.
Proof.
  unfold processEventTrigger, removeEventTrigger.
  intros Hrun. repeat case_match; by simplify_eq.
Qed.

Lemma deployEventTriggerLoop_clusters r f indices :
  forall resource es ap (w : World D) exit resource' w',
  deployEventTriggerLoop r f indices resource es ap w = (exit, resource', w') ->
  Cluster <$> CIs resource' = Cluster <$> CIs resource.
Proof.
  induction indices as [|i rest IH]; intros resource es ap w exit resource' w' Hrun;
    simpl in Hrun; [by simplify_eq|].
  assert (forall c', CIs resource !! i = Some c' ->
            forall c'', Cluster c'' = Cluster c' ->
            Cluster <$> <[i := c'']> (CIs resource) = Cluster <$> CIs resource)
    as Hsame.
  { intros c' Hc' c'' Heq. rewrite list_fmap_insert, Heq.
    apply list_insert_id. by rewrite list_lookup_fmap, Hc'. }
  destruct (CIs resource !! i) as [c|] eqn:Hc; [|by simplify_eq].
  destruct (isClusterAShardMatch r c) as [[|] [err|]]; try by simplify_eq.
  - destruct (processEventTrigger resource (Cluster c) f w)
      as [[[ci|] err] w1] eqn:Hp.
    + apply processEventTrigger_cluster in Hp.
      apply IH in Hrun. rewrite Hrun. simpl. by apply (Hsame c).
    + by apply IH in Hrun.
  - apply IH in Hrun. rewrite Hrun. simpl. apply (Hsame c); [done|].
    by destruct (Hash c).
Qed.

(** A pass of [deployEventTrigger] changes the trigger in its ClusterInfo
    list only, and there it keeps the number of entries and the cluster
    of each entry, in order: entries are neither added, dropped nor
    moved, whatever the outcome of the pass. *)
Theorem deployEventTrigger_keeps_clusters r resource f (w : World D)
    err resource' w' :
  deployEventTrigger r resource f w = (err, resource', w') ->
  resource' = SetClusterInfo resource (CIs resource')
  /\ Cluster <$> CIs resource' = Cluster <$> CIs resource.
Proof.
  unfold deployEventTrigger. intros Hrun.
  destruct (deployEventTriggerLoop r f _ resource None true w)
    as [[exit r1] w1] eqn:Hloop.
  pose proof (deployEventTriggerLoop_clusters _ _ _ _ _ _ _ _ _ _ Hloop) as Hcl.
  destruct (loop_frame _ _ _ _ _ _ _ _ _ _ Hloop) as [Hframe _].
  assert (resource' = r1) as ->.
  { destruct exit as [e|[e|] [|]]; simpl in Hrun; simplify_eq;
      by rewrite ?SetClusterInfo_eta. }
  done.
Qed.

Lemma findClusterInfo_clusters cis1 cis2 ns name ct :
  Cluster <$> cis1 = Cluster <$> cis2 ->
  (fun x => x.1) <$> findClusterInfo cis1 ns name ct
  = (fun x => x.1) <$> findClusterInfo cis2 ns name ct.
Proof.
  revert cis2. unfold findClusterInfo.
  induction cis1 as [|c1 cis1 IH]; intros [|c2 cis2] Heq; try done.
  simpl in Heq. injection Heq as Hc Hrest. simpl.
  assert (isClusterInfoForCluster c1 ns name ct
          = isClusterInfoForCluster c2 ns name ct) as Hsame.
  { unfold isClusterInfoForCluster. by rewrite Hc. }
  rewrite Hsame. case_decide; [done|].
  specialize (IH cis2 Hrest).
  destruct (list_find _ cis1) as [[]|], (list_find _ cis2) as [[]|];
    by simplify_eq/=.
Qed.

(** [removeEventTrigger] reads the name of the trigger and the clusters
    of its status entries, nothing else: the status, hash and failure
    message of the entries, the spec and the metadata do not change what
    it does. *)
Theorem removeEventTrigger_reads resource1 resource2 cluster f (w : World D) :
  EventTrigger.Name resource1 = EventTrigger.Name resource2 ->
  Cluster <$> CIs resource1 = Cluster <$> CIs resource2 ->
  removeEventTrigger resource1 cluster f w
  = removeEventTrigger resource2 cluster f w.
Proof.
  intros Hname Hcl.
  assert (isClusterEntryRemoved resource1 cluster
          = isClusterEntryRemoved resource2 cluster) as Hentry.
  { unfold isClusterEntryRemoved.
    pose proof (findClusterInfo_clusters _ _ (Namespace cluster) (Name cluster)
                  (GetClusterType cluster) Hcl) as Hfind.
    destruct (findClusterInfo (CIs resource1) _ _ _),
             (findClusterInfo (CIs resource2) _ _ _); by simplify_eq/=. }
  unfold removeEventTrigger, deployerKey, removeClusterInfoEntry,
    removeClusterInfoEntryAttempt.
  by rewrite Hentry, Hname.
Qed.

End DirectionFacts.
(** ** The jobs: EventReports and EventSources *)

Section RequestFacts.

Lemma takeFault_stores a :
  managementObjects (takeFault a).2 = managementObjects a
  /\ storedEventReports (takeFault a).2 = storedEventReports a
  /\ storedEventSources (takeFault a).2 = storedEventSources a.
Proof. unfold takeFault. by destruct (faults a). Qed.

Lemma deleteEventReport_spec k a e a1 :
  deleteObject storedEventReports setEventReports k a = (e, a1) ->
  managementObjects a1 = managementObjects a
  /\ storedEventSources a1 = storedEventSources a
  /\ (e = None -> storedEventReports a1 = delete k (storedEventReports a))
  /\ (e <> None -> storedEventReports a1 = storedEventReports a).
Proof.
  unfold deleteObject. destruct (takeFault_stores a) as (Hm & Hr & Hs).
  destruct (takeFault a) as [[e0|] a0]; simpl in *.
  - intros [= <- <-]. by rewrite Hr.
  - destruct (storedEventReports a0 !! k) eqn:Hk; intros [= <- <-]; simpl.
    + by rewrite Hr.
    + by rewrite Hr.
Qed.

Lemma updateEventSource_spec k v a e a1 :
  updateObject storedEventSources setEventSources k v a = (e, a1) ->
  managementObjects a1 = managementObjects a
  /\ storedEventReports a1 = storedEventReports a
  /\ (e = None ->
      is_Some (storedEventSources a !! k)
      /\ storedEventSources a1 = <[k := v]> (storedEventSources a))
  /\ (e <> None -> storedEventSources a1 = storedEventSources a).
Proof.
  unfold updateObject. destruct (takeFault_stores a) as (Hm & Hr & Hs).
  destruct (takeFault a) as [[e0|] a0]; simpl in *.
  - intros [= <- <-]. by rewrite Hs.
  - destruct (storedEventSources a0 !! k) eqn:Hk; intros [= <- <-]; simpl.
    + rewrite Hs in *. by split_and!.
    + by rewrite Hs.
Qed.

Lemma createEventSource_spec k v a e a1 :
  createObject storedEventSources setEventSources k v a = (e, a1) ->
  managementObjects a1 = managementObjects a
  /\ storedEventReports a1 = storedEventReports a
  /\ (e = None ->
      storedEventSources a !! k = None
      /\ storedEventSources a1 = <[k := v]> (storedEventSources a))
  /\ (e <> None -> storedEventSources a1 = storedEventSources a).
Proof.
  unfold createObject. destruct (takeFault_stores a) as (Hm & Hr & Hs).
  destruct (takeFault a) as [[e0|] a0]; simpl in *.
  - intros [= <- <-]. by rewrite Hs.
  - destruct (storedEventSources a0 !! k) eqn:Hk; intros [= <- <-]; simpl.
    + by rewrite Hs.
    + rewrite Hs in *. by split_and!.
Qed.

Lemma deleteEventSource_spec k a e a1 :
  deleteObject storedEventSources setEventSources k a = (e, a1) ->
  managementObjects a1 = managementObjects a
  /\ storedEventReports a1 = storedEventReports a
  /\ (e = None -> storedEventSources a1 = delete k (storedEventSources a))
  /\ (e <> None -> storedEventSources a1 = storedEventSources a).
Proof.
  unfold deleteObject. destruct (takeFault_stores a) as (Hm & Hr & Hs).
  destruct (takeFault a) as [[e0|] a0]; simpl in *.
  - intros [= <- <-]. by rewrite Hs.
  - destruct (storedEventSources a0 !! k) eqn:Hk; intros [= <- <-]; simpl.
    + by rewrite Hs.
    + by rewrite Hs.
Qed.

Lemma filter_true {A : Type} (l : list A) : List.filter (fun _ => true) l = l.
Proof. induction l as [|x l IH]; simpl; [done|by rewrite IH]. Qed.

Lemma elem_of_List_filter {A : Type} (p : A -> bool) (l : list A) (x : A) :
  x ∈ List.filter p l <-> x ∈ l /\ p x = true.
Proof. by rewrite !list_elem_of_In, filter_In. Qed.

End RequestFacts.

Section EventReportFacts.
Context `{!LibsveltosKeys}.

Lemma deleteEventReports_spec items :
  forall a err a',
  deleteEventReports items a = (err, a') ->
  managementObjects a' = managementObjects a
  /\ storedEventSources a' = storedEventSources a
  /\ storedEventReports a' ⊆ storedEventReports a
  /\ (forall k,
        k ∉ (fun er => (EventReport.Namespace er, EventReport.Name er)) <$> items ->
        storedEventReports a' !! k = storedEventReports a !! k)
  /\ (err = None ->
      forall er, er ∈ items ->
        storedEventReports a'
          !! (EventReport.Namespace er, EventReport.Name er) = None).
Proof.
  induction items as [|x items IH]; intros a err a' Hrun; simpl in Hrun.
  { simplify_eq. split_and!; try done. by intros _ er ?%elem_of_nil. }
  destruct (deleteObject storedEventReports setEventReports
              (EventReport.Namespace x, EventReport.Name x) a)
    as [[e|] a1] eqn:Hdel;
    apply deleteEventReport_spec in Hdel as (Hm & Hs & Hok & Hfail).
  - injection Hrun as <- <-. rewrite (Hfail ltac:(done)). by split_and!.
  - specialize (Hok eq_refl).
    apply IH in Hrun as (Hm' & Hs' & Hsub & Hother & Hgone).
    split_and!.
    + by rewrite Hm'.
    + by rewrite Hs'.
    + etrans; [exact Hsub|]. rewrite Hok. apply delete_subseteq.
    + intros k [Hne Hk]%not_elem_of_cons.
      rewrite Hother by done. rewrite Hok. by apply lookup_delete_ne.
    + intros Herr er [->|Hin]%elem_of_cons; [|by apply Hgone].
      eapply lookup_weaken_None; [|exact Hsub].
      rewrite Hok. apply lookup_delete_eq.
Qed.

(** [removeStaleEventReports] touches EventReports only, and only the
    ones of the cluster's namespace that carry the three labels: the
    others are kept, whatever the outcome. When it returns nil, none of
    the selected EventReports is left. *)
Theorem removeStaleEventReports_clears ns name eventSourceName ct a err a' :
  eventReportsNamed a = true ->
  removeStaleEventReports ns name eventSourceName ct a = (err, a') ->
  managementObjects a' = managementObjects a
  /\ storedEventSources a' = storedEventSources a
  /\ (forall k er,
        storedEventReports a !! k = Some er ->
        staleEventReportSelector ns name eventSourceName ct er = false ->
        storedEventReports a' !! k = Some er)
  /\ (forall k er,
        storedEventReports a' !! k = Some er ->
        storedEventReports a !! k = Some er
        /\ (err = None ->
            staleEventReportSelector ns name eventSourceName ct er = false)).
Proof.
  intros Hnamed. unfold removeStaleEventReports, listObjects.
  destruct (takeFault_stores a) as (Hm & Hr & Hs).
  destruct (takeFault a) as [[e0|] a0]; simpl in *.
  { intros [= <- <-]. rewrite Hr. by split_and!. }
  intros Hrun.
  apply deleteEventReports_spec in Hrun as (Hm' & Hs' & Hsub & Hother & Hgone).
  rewrite Hr in *.
  assert (Hkey : forall k er,
            storedEventReports a !! k = Some er ->
            (EventReport.Namespace er, EventReport.Name er) = k).
  { intros k er Hl.
    by apply (forallb_map_to_list _ _ _ _ Hnamed), bool_decide_eq_true_1 in Hl. }
  split_and!.
  - by rewrite Hm'.
  - by rewrite Hs'.
  - intros k er Hl Hsel. rewrite Hother; [done|].
    intros (er' & Hk & [Hin Hsel']%elem_of_List_filter)%list_elem_of_fmap.
    apply list_elem_of_fmap in Hin as ([k' er''] & -> & Hin).
    apply elem_of_map_to_list in Hin. simpl in *.
    rewrite (Hkey _ _ Hin) in Hk. subst k'. congruence.
  - intros k er Hl.
    assert (storedEventReports a !! k = Some er) as Hl0
      by (eapply lookup_weaken; eauto).
    split; [done|]. intros Herr.
    destruct (staleEventReportSelector ns name eventSourceName ct er) eqn:Hsel;
      [|done].
    exfalso.
    assert (storedEventReports a'
              !! (EventReport.Namespace er, EventReport.Name er) = None) as Hnone.
    { apply Hgone; [done|]. apply elem_of_List_filter. split; [|done].
      apply list_elem_of_fmap. exists (k, er). split; [done|].
      by apply elem_of_map_to_list. }
    rewrite (Hkey _ _ Hl0) in Hnone. congruence.
Qed.

End EventReportFacts.
Section EventSourceFacts.
Context `{!LibsveltosKeys} `{!OwnerRefs}.

Lemma removeStaleEventReports_frame ns name eventSourceName ct a err a' :
  removeStaleEventReports ns name eventSourceName ct a = (err, a') ->
  managementObjects a' = managementObjects a
  /\ storedEventSources a' = storedEventSources a
  /\ storedEventReports a' ⊆ storedEventReports a.
Proof.
  unfold removeStaleEventReports, listObjects.
  destruct (takeFault_stores a) as (Hm & Hr & Hs).
  destruct (takeFault a) as [[e0|] a0]; simpl in *.
  { intros [= <- <-]. by rewrite Hr. }
  intros Hrun.
  apply deleteEventReports_spec in Hrun as (Hm' & Hs' & Hsub & _).
  rewrite Hm', Hs', <- Hr. by split_and!.
Qed.

Lemma removeStaleEventSourcesLoop_spec ns name ct resource removeAll items :
  forall a err a',
  NoDup (EventSource.Name <$> items) ->
  removeStaleEventSourcesLoop ns name ct resource removeAll items a = (err, a') ->
  managementObjects a' = managementObjects a
  /\ storedEventReports a' ⊆ storedEventReports a
  /\ (forall k, k ∉ EventSource.Name <$> items ->
        storedEventSources a' !! k = storedEventSources a !! k)
  /\ (forall es, es ∈ items ->
        storedEventSources a' !! EventSource.Name es
        = storedEventSources a !! EventSource.Name es
        \/ staleOutcome resource removeAll es
             (storedEventSources a' !! EventSource.Name es)).
Proof.
  induction items as [|es rest IH]; intros a err a' Hnd Hrun; simpl in Hrun.
  { injection Hrun as <- <-. split_and!; try done. by intros es ?%elem_of_nil. }
  rewrite fmap_cons in Hnd. apply NoDup_cons in Hnd as [Hfresh Hnd].
  (* the iteration leaves [a] as it is and the loop continues *)
  assert (Hskip :
    removeStaleEventSourcesLoop ns name ct resource removeAll rest a = (err, a') ->
    managementObjects a' = managementObjects a
    /\ storedEventReports a' ⊆ storedEventReports a
    /\ (forall k, k ∉ EventSource.Name <$> es :: rest ->
          storedEventSources a' !! k = storedEventSources a !! k)
    /\ (forall es0, es0 ∈ es :: rest ->
          storedEventSources a' !! EventSource.Name es0
          = storedEventSources a !! EventSource.Name es0
          \/ staleOutcome resource removeAll es0
               (storedEventSources a' !! EventSource.Name es0))).
  { intros Hrest. apply IH in Hrest as (Hm & Hr & Hother & Hitems); [|done].
    split_and!; try done.
    - intros k [_ Hk]%not_elem_of_cons. by apply Hother.
    - intros es0 [->|Hin]%elem_of_cons; [|by apply Hitems].
      left. by apply Hother. }
  (* the iteration returns with the state [a1], whose EventSources are
     those of [a] *)
  assert (Hstop : forall a1,
    managementObjects a1 = managementObjects a ->
    storedEventReports a1 ⊆ storedEventReports a ->
    storedEventSources a1 = storedEventSources a ->
    managementObjects a1 = managementObjects a
    /\ storedEventReports a1 ⊆ storedEventReports a
    /\ (forall k, k ∉ EventSource.Name <$> es :: rest ->
          storedEventSources a1 !! k = storedEventSources a !! k)
    /\ (forall es0, es0 ∈ es :: rest ->
          storedEventSources a1 !! EventSource.Name es0
          = storedEventSources a !! EventSource.Name es0
          \/ staleOutcome resource removeAll es0
               (storedEventSources a1 !! EventSource.Name es0))).
  { intros a1 Hm Hr Hs. rewrite Hs. split_and!; try done. by left. }
  (* the iteration writes [after] under the name of [es] and the loop
     continues from [a1] *)
  assert (Hwrite : forall a1 after,
    managementObjects a1 = managementObjects a ->
    storedEventReports a1 ⊆ storedEventReports a ->
    (forall k, k <> EventSource.Name es ->
       storedEventSources a1 !! k = storedEventSources a !! k) ->
    storedEventSources a1 !! EventSource.Name es = after ->
    staleOutcome resource removeAll es after ->
    removeStaleEventSourcesLoop ns name ct resource removeAll rest a1 = (err, a') ->
    managementObjects a' = managementObjects a
    /\ storedEventReports a' ⊆ storedEventReports a
    /\ (forall k, k ∉ EventSource.Name <$> es :: rest ->
          storedEventSources a' !! k = storedEventSources a !! k)
    /\ (forall es0, es0 ∈ es :: rest ->
          storedEventSources a' !! EventSource.Name es0
          = storedEventSources a !! EventSource.Name es0
          \/ staleOutcome resource removeAll es0
               (storedEventSources a' !! EventSource.Name es0))).
  { intros a1 after Hm Hr Hne Hat Hout Hrest.
    apply IH in Hrest as (Hm' & Hr' & Hother & Hitems); [|done].
    split_and!.
    - by rewrite Hm'.
    - by etrans.
    - intros k [Hk1 Hk2]%not_elem_of_cons. rewrite Hother by done.
      by apply Hne.
    - intros es0 [->|Hin]%elem_of_cons.
      + right. rewrite Hother by done. by rewrite Hat.
      + assert (EventSource.Name es0 <> EventSource.Name es) as Hdiff.
        { intros Heq. apply Hfresh. rewrite <- Heq.
          apply list_elem_of_fmap. by exists es0. }
        destruct (Hitems es0 Hin) as [Hsame|Hout0]; [left|by right].
        rewrite Hsame. by apply Hne. }
  fold (stillReferenced resource removeAll es) in Hrun.
  destruct (stillReferenced resource removeAll es) eqn:Hrefd; [by apply Hskip|].
  destruct (IsOwnedByObject (EventSource.OwnerReferences es) resource) eqn:Howned;
    simpl in Hrun; [|by apply Hskip].
  assert (staleEventSource resource removeAll es = true) as Hstale.
  { unfold staleEventSource. by rewrite Hrefd, Howned. }
  set (refs := RemoveOwnerReference (EventSource.OwnerReferences es) resource)
    in *.
  destruct (decide (length refs = 0%nat)) as [Hempty|Hsome].
  - rewrite (bool_decide_eq_true_2 _ Hempty) in Hrun. simpl in Hrun.
    destruct (removeStaleEventReports ns name (EventSource.Name es) ct a)
      as [[e|] a1] eqn:Hreports;
      apply removeStaleEventReports_frame in Hreports as (Hm1 & Hs1 & Hr1).
    { injection Hrun as <- <-. by apply Hstop. }
    destruct (deleteObject storedEventSources setEventSources
                (EventSource.Name es) a1) as [[e|] a2] eqn:Hdel;
      apply deleteEventSource_spec in Hdel as (Hm2 & Hr2 & Hok & Hfail).
    { injection Hrun as <- <-. apply Hstop.
      - by rewrite Hm2.
      - by rewrite Hr2.
      - by rewrite (Hfail ltac:(done)). }
    specialize (Hok eq_refl).
    apply (Hwrite a2 None); try done.
    + by rewrite Hm2.
    + by rewrite Hr2.
    + intros k Hk. rewrite Hok, Hs1. by apply lookup_delete_ne.
    + rewrite Hok. apply lookup_delete_eq.
    + right. split; [done|]. right. by split.
  - rewrite (bool_decide_eq_false_2 _ Hsome) in Hrun. simpl in Hrun.
    destruct (updateObject storedEventSources setEventSources
                (EventSource.Name es) (withOwnerReferences es refs) a)
      as [[e|] a1] eqn:Hupd;
      apply updateEventSource_spec in Hupd as (Hm1 & Hr1 & Hok & Hfail).
    { injection Hrun as <- <-. apply Hstop; [done|by rewrite Hr1|].
      by rewrite (Hfail ltac:(done)). }
    destruct (Hok eq_refl) as [_ Hins].
    apply (Hwrite a1 (Some (withOwnerReferences es refs))); try done.
    + by rewrite Hr1.
    + intros k Hk. rewrite Hins. by apply lookup_insert_ne.
    + rewrite Hins. apply lookup_insert_eq.
    + right. split; [done|]. left. by split.
Qed.

Lemma removeStaleEventSources_outcomes ns name ct resource removeAll a err a' :
  eventSourcesNamed a = true ->
  removeStaleEventSources ns name ct resource removeAll a = (err, a') ->
  managementObjects a' = managementObjects a
  /\ storedEventReports a' ⊆ storedEventReports a
  /\ (forall k,
        match storedEventSources a !! k with
        | Some es =>
            staleOutcome resource removeAll es (storedEventSources a' !! k)
        | None => storedEventSources a' !! k = None
        end).
Proof.
  intros Hnamed Hrun.
  assert (Hkey : forall k es,
            storedEventSources a !! k = Some es -> EventSource.Name es = k).
  { intros k es Hl.
    by apply (forallb_map_to_list _ _ _ _ Hnamed), bool_decide_eq_true_1 in Hl. }
  unfold removeStaleEventSources, GetKubernetesClient, listObjects in Hrun.
  destruct (takeFault_stores a) as (Hm0 & Hr0 & Hs0).
  destruct (takeFault a) as [[e0|] a0]; simpl in *.
  { injection Hrun as <- <-. rewrite Hr0, Hs0. split_and!; try done.
    intros k. destruct (storedEventSources a !! k); [by left|done]. }
  destruct (takeFault_stores a0) as (Hm1 & Hr1 & Hs1).
  destruct (takeFault a0) as [[e1|] a1]; simpl in *.
  { injection Hrun as <- <-. rewrite Hm1, Hr1, Hs1, Hr0, Hs0.
    split_and!; try done.
    intros k. destruct (storedEventSources a !! k); [by left|done]. }
  rewrite filter_true in Hrun.
  apply removeStaleEventSourcesLoop_spec in Hrun
    as (Hm & Hr & Hother & Hitems).
  - rewrite Hm1, Hr1, Hs1, Hs0 in *. rewrite Hr0 in Hr.
    split_and!; [by rewrite Hm | done |].
    intros k. destruct (storedEventSources a !! k) as [es|] eqn:Hl.
    + assert (es ∈ (map_to_list (storedEventSources a)).*2) as Hin.
      { apply list_elem_of_fmap. exists (k, es). split; [done|].
        by apply elem_of_map_to_list. }
      destruct (Hitems es Hin) as [Hsame|Hout];
        rewrite (Hkey _ _ Hl) in *; [|done].
      left. by rewrite Hsame.
    + rewrite Hother; [done|].
      intros (es & -> & Hin)%list_elem_of_fmap.
      apply list_elem_of_fmap in Hin as ([k' es'] & -> & Hin).
      apply elem_of_map_to_list in Hin. simpl in *.
      rewrite (Hkey _ _ Hin) in Hl. congruence.
  - rewrite Hs1, Hs0.
    assert ((fun kv : string * EventSource => EventSource.Name kv.2)
              <$> map_to_list (storedEventSources a)
            = (map_to_list (storedEventSources a)).*1) as Hnames.
    { apply list_fmap_ext. intros i [k es] Hi. simpl.
      apply Hkey, elem_of_map_to_list. by eapply list_elem_of_lookup_2. }
    rewrite <- list_fmap_compose.
    change (EventSource.Name ∘ snd)
      with (fun kv : string * EventSource => EventSource.Name kv.2).
    rewrite Hnames. apply NoDup_fst_map_to_list.
Qed.

(** [removeStaleEventSources] changes EventSources and EventReports only.
    It creates no EventSource; one that the trigger still references, or
    that the trigger does not own, is left as it is, whatever the
    outcome; a stale one is left as it is, rewritten without the trigger
    among its owners, or deleted when the trigger was its only owner.
    EventReports are deleted only. *)
Theorem removeStaleEventSources_touches ns name ct resource removeAll a err a' :
  eventSourcesNamed a = true ->
  removeStaleEventSources ns name ct resource removeAll a = (err, a') ->
  managementObjects a' = managementObjects a
  /\ storedEventReports a' ⊆ storedEventReports a
  /\ (forall k,
        match storedEventSources a !! k with
        | Some es =>
            staleOutcome resource removeAll es (storedEventSources a' !! k)
        | None => storedEventSources a' !! k = None
        end)
  /\ (forall k es,
        storedEventSources a !! k = Some es ->
        staleEventSource resource removeAll es = false ->
        storedEventSources a' !! k = Some es).
Proof.
  intros Hnamed Hrun.
  destruct (removeStaleEventSources_outcomes _ _ _ _ _ _ _ _ Hnamed Hrun)
    as (Hm & Hr & Hall).
  split_and!; try done.
  intros k es Hl Hstale. specialize (Hall k). rewrite Hl in Hall.
  destruct Hall as [?|[Hst _]]; [done|congruence].
Qed.

End EventSourceFacts.
Section JobFacts.
Context `{!LibsveltosKeys} `{!OwnerRefs} `{!EventSourceDeployment}.

Lemma eventSourcesNamed_elim a :
  eventSourcesNamed a = true ->
  forall k es, storedEventSources a !! k = Some es -> EventSource.Name es = k.
Proof.
  unfold eventSourcesNamed. rewrite forallb_forall.
  intros Hall k es Hl.
  apply elem_of_map_to_list, list_elem_of_In, Hall in Hl.
  by apply bool_decide_eq_true_1 in Hl.
Qed.

Lemma eventSourcesNamed_intro a :
  (forall k es, storedEventSources a !! k = Some es -> EventSource.Name es = k) ->
  eventSourcesNamed a = true.
Proof.
  unfold eventSourcesNamed. rewrite forallb_forall.
  intros Hall [k es] Hin%list_elem_of_In%elem_of_map_to_list.
  apply bool_decide_eq_true_2. by apply Hall.
Qed.

Lemma getEventSource_spec k a r a1 :
  getObject storedEventSources k a = (r, a1) ->
  managementObjects a1 = managementObjects a
  /\ storedEventReports a1 = storedEventReports a
  /\ storedEventSources a1 = storedEventSources a
  /\ (forall v, r = ok v -> storedEventSources a !! k = Some v)
  /\ (storedEventSources a !! k = None -> exists e, r = fail e)
  /\ (forall e fs, faults a = Some e :: fs -> r = fail e /\ faults a1 = fs).
Proof.
  unfold getObject. destruct (takeFault_stores a) as (Hm & Hr & Hs).
  unfold takeFault in *.
  destruct (faults a) as [|[e0|] fs] eqn:Hf; simpl in *.
  - destruct (storedEventSources a !! k) eqn:Hk; intros [= <- <-];
      split_and!; try done; eauto; by intros v [= ->].
  - intros [= <- <-]. split_and!; try done; eauto. by intros ? ? [= <- <-].
  - destruct (storedEventSources a !! k) eqn:Hk; intros [= <- <-];
      split_and!; try done; eauto; by intros v [= ->].
Qed.

Lemma createOrUpdateEventSource_writes resource eventSource a err a' :
  eventSourcesNamed a = true ->
  createOrUpdateEventSource resource eventSource a = (err, a') ->
  managementObjects a' = managementObjects a
  /\ storedEventReports a' = storedEventReports a
  /\ (forall k, k <> EventSource.Name eventSource ->
        storedEventSources a' !! k = storedEventSources a !! k)
  /\ (err <> None -> storedEventSources a' = storedEventSources a)
  /\ (err = None ->
      storedEventSources a' !! EventSource.Name eventSource
      = Some match storedEventSources a !! EventSource.Name eventSource with
             | Some current => updatedEventSource resource eventSource current
             | None => createdEventSource resource eventSource
             end).
Proof.
  intros Hnamed0. pose proof (eventSourcesNamed_elim _ Hnamed0) as Hnamed.
  unfold createOrUpdateEventSource.
  destruct (getObject storedEventSources (EventSource.Name eventSource) a)
    as [[current|e] a1] eqn:Hget;
    apply getEventSource_spec in Hget as (Hm & Hr & Hs & Hok & Hmiss & Hfault).
  - specialize (Hok _ eq_refl). pose proof (Hnamed _ _ Hok) as Hname.
    rewrite Hname. intros Hupd.
    apply updateEventSource_spec in Hupd as (Hm1 & Hr1 & Hok1 & Hfail1).
    rewrite Hs in *. split_and!.
    + by rewrite Hm1.
    + by rewrite Hr1.
    + intros k Hk. destruct err as [e|].
      * by rewrite (Hfail1 ltac:(done)).
      * destruct (Hok1 eq_refl) as [_ ->]. by apply lookup_insert_ne.
    + done.
    + intros ->. destruct (Hok1 eq_refl) as [_ ->].
      rewrite Hok. apply lookup_insert_eq.
  - intros Hcreate.
    apply createEventSource_spec in Hcreate as (Hm1 & Hr1 & Hok1 & Hfail1).
    rewrite Hs in *. split_and!.
    + by rewrite Hm1.
    + by rewrite Hr1.
    + intros k Hk. destruct err as [e'|].
      * by rewrite (Hfail1 ltac:(done)).
      * destruct (Hok1 eq_refl) as [_ ->]. by apply lookup_insert_ne.
    + done.
    + intros ->. destruct (Hok1 eq_refl) as [Hnone ->].
      rewrite Hnone. apply lookup_insert_eq.
Qed.

(** [createOrUpdateEventSource] writes one EventSource of the managed
    cluster, the one named like the referenced EventSource, and nothing
    else; when it fails nothing is written. When it succeeds the stored
    object carries the spec and the labels of the referenced one: an
    existing object keeps its name and gets the trigger added to its
    owners and the deployed-by annotation as its only annotation, a new
    object has the trigger as owner and no annotation. A failing Get is
    taken for a missing object: when the object exists the create that
    follows fails. *)
Theorem createOrUpdateEventSource_stored resource eventSource a err a' :
  eventSourcesNamed a = true ->
  createOrUpdateEventSource resource eventSource a = (err, a') ->
  managementObjects a' = managementObjects a
  /\ storedEventReports a' = storedEventReports a
  /\ (forall k, k <> EventSource.Name eventSource ->
        storedEventSources a' !! k = storedEventSources a !! k)
  /\ (err <> None -> storedEventSources a' = storedEventSources a)
  /\ (err = None ->
      storedEventSources a' !! EventSource.Name eventSource
      = Some match storedEventSources a !! EventSource.Name eventSource with
             | Some current => updatedEventSource resource eventSource current
             | None => createdEventSource resource eventSource
             end)
  /\ (forall e fs,
        faults a = Some e :: fs ->
        is_Some (storedEventSources a !! EventSource.Name eventSource) ->
        err <> None).
Proof.
  intros Hnamed Hrun.
  destruct (createOrUpdateEventSource_writes _ _ _ _ _ Hnamed Hrun)
    as (Hm & Hr & Hother & Hfail & Hok).
  split_and!; try done.
  intros e fs Hf [v Hv] ->. unfold createOrUpdateEventSource in Hrun.
  destruct (getObject storedEventSources (EventSource.Name eventSource) a)
    as [r a1] eqn:Hget.
  apply getEventSource_spec in Hget as (_ & _ & Hs & _ & _ & Hfault).
  destruct (Hfault _ _ Hf) as [-> _].
  apply createEventSource_spec in Hrun as (_ & _ & Hok1 & _).
  destruct (Hok1 eq_refl) as [Hnone _]. rewrite Hs in Hnone. congruence.
Qed.

Lemma deployEventSource_frame ns name ct resource a err a' :
  eventSourcesNamed a = true ->
  deployEventSource ns name ct resource a = (err, a') ->
  managementObjects a' = managementObjects a
  /\ storedEventReports a' = storedEventReports a
  /\ eventSourcesNamed a' = true
  /\ (forall es,
        fetchEventSource ns name
          (EventTrigger.EventSourceName (EventTrigger.Spec resource)) ct
        = ok (Some es) ->
        (forall k, k <> EventSource.Name es ->
           storedEventSources a' !! k = storedEventSources a !! k)
        /\ (err = None ->
            storedEventSources a' !! EventSource.Name es
            = Some match storedEventSources a !! EventSource.Name es with
                   | Some current => updatedEventSource resource es current
                   | None => createdEventSource resource es
                   end))
  /\ (fetchEventSource ns name
        (EventTrigger.EventSourceName (EventTrigger.Spec resource)) ct
      = ok None ->
      err = None /\ a' = a).
Proof.
  intros Hnamed. unfold deployEventSource, GetKubernetesClient.
  destruct (fetchEventSource _ _ _ _) as [[es|]|e].
  - destruct (takeFault_stores a) as (Hm0 & Hr0 & Hs0).
    assert (eventSourcesNamed (takeFault a).2 = true) as Hnamed0.
    { apply eventSourcesNamed_intro. rewrite Hs0.
      by apply eventSourcesNamed_elim. }
    destruct (takeFault a) as [[e0|] a0]; simpl in *.
    + intros [= <- <-]. rewrite Hs0. by split_and!.
    + intros Hrun.
      apply createOrUpdateEventSource_writes in Hrun
        as (Hm & Hr & Hother & Hfail & Hok); [|done].
      rewrite Hs0 in *. split_and!.
      * by rewrite Hm.
      * by rewrite Hr.
      * apply eventSourcesNamed_intro. intros k es0 Hl.
        destruct (decide (k = EventSource.Name es)) as [->|Hne].
        -- destruct err as [e|]; [rewrite (Hfail ltac:(done)) in Hl|].
           ++ exact (eventSourcesNamed_elim _ Hnamed _ _ Hl).
           ++ rewrite (Hok eq_refl) in Hl. injection Hl as <-.
              destruct (storedEventSources a !! EventSource.Name es)
                as [current|] eqn:Hc; [|done].
              simpl. exact (eventSourcesNamed_elim _ Hnamed _ _ Hc).
        -- rewrite Hother in Hl by done.
           by apply (eventSourcesNamed_elim _ Hnamed).
      * intros es0 [= <-]. by split.
      * done.
  - intros [= <- <-]. by split_and!.
  - intros [= <- <-]. by split_and!.
Qed.

(** The deploy job. It changes EventSources and EventReports only. For
    a trigger that is not stored any more, or that is being deleted, it
    returns nil after its first request. When it returns nil for a
    stored trigger whose referenced EventSource was fetched under the
    name the trigger gives, the managed cluster holds an EventSource of
    that name with the fetched spec and labels, written by
    [createOrUpdateEventSource] and left alone by the sweep of stale
    EventSources. *)
Theorem processEventTriggerForCluster_outcome ns name applicant ct a err a' :
  eventSourcesNamed a = true ->
  processEventTriggerForCluster ns name applicant ct a = (err, a') ->
  managementObjects a' = managementObjects a
  /\ storedEventReports a' ⊆ storedEventReports a
  /\ match (getEventTrigger applicant a).1 with
     | fail e => IsNotFound e = true -> err = None /\ a' = (takeFault a).2
     | ok resource =>
         (IsZero (EventTrigger.DeletionTimestamp resource) = false ->
          err = None /\ a' = (takeFault a).2)
         /\ (IsZero (EventTrigger.DeletionTimestamp resource) = true ->
             err = None ->
             forall es,
               fetchEventSource ns name
                 (EventTrigger.EventSourceName (EventTrigger.Spec resource)) ct
               = ok (Some es) ->
               EventSource.Name es
               = EventTrigger.EventSourceName (EventTrigger.Spec resource) ->
               storedEventSources a' !! EventSource.Name es
               = Some match storedEventSources a !! EventSource.Name es with
                      | Some current => updatedEventSource resource es current
                      | None => createdEventSource resource es
                      end)
     end.
Proof.
  intros Hnamed. unfold processEventTriggerForCluster.
  assert (Htrig : forall x,
            managementObjects (getEventTrigger x a).2 = managementObjects a
            /\ storedEventReports (getEventTrigger x a).2 = storedEventReports a
            /\ storedEventSources (getEventTrigger x a).2 = storedEventSources a
            /\ (getEventTrigger x a).2 = (takeFault a).2).
  { intros x. unfold getEventTrigger.
    destruct (takeFault_stores a) as (Hm & Hr & Hs).
    destruct (takeFault a) as [[e0|] a0]; simpl in *; [done|].
    by destruct (storedEventTriggers a0 !! x). }
  destruct (Htrig applicant) as (Hm0 & Hr0 & Hs0 & Ha0).
  destruct (getEventTrigger applicant a) as [[resource|e] a0]; simpl in *.
  - destruct (IsZero (EventTrigger.DeletionTimestamp resource)) eqn:Hzero;
      simpl.
    + assert (eventSourcesNamed a0 = true) as Hnamed0.
      { apply eventSourcesNamed_intro. rewrite Hs0.
        by apply eventSourcesNamed_elim. }
      destruct (deployEventSource ns name ct resource a0) as [[e1|] a1] eqn:Hdep;
        apply deployEventSource_frame in Hdep
          as (Hm1 & Hr1 & Hnamed1 & Hsome & Hnone); try done.
      * intros [= <- <-]. rewrite Hm1, Hr1, Hm0, Hr0.
        split_and!; try done.
      * intros Hsweep.
        apply removeStaleEventSources_outcomes in Hsweep
          as (Hm2 & Hr2 & Hall); [|done].
        assert (Hkept : forall k es,
                  storedEventSources a1 !! k = Some es ->
                  staleEventSource resource false es = false ->
                  storedEventSources a' !! k = Some es).
        { intros k es Hl Hstale. specialize (Hall k). rewrite Hl in Hall.
          destruct Hall as [?|[Hst _]]; [done|congruence]. }
        split_and!.
        -- by rewrite Hm2, Hm1.
        -- by rewrite <- Hr0, <- Hr1.
        -- done.
        -- intros _ Herr es Hfetch Hname.
           destruct (Hsome es Hfetch) as [_ Hstored].
           specialize (Hstored eq_refl). rewrite Hs0 in Hstored.
           apply Hkept; [done|].
           unfold staleEventSource, stillReferenced. simpl. rewrite Hzero.
           assert (EventSource.Name
                     match storedEventSources a !! EventSource.Name es with
                     | Some current => updatedEventSource resource es current
                     | None => createdEventSource resource es
                     end = EventSource.Name es) as ->.
           { destruct (storedEventSources a !! EventSource.Name es)
               as [current|] eqn:Hc; [|done].
             simpl. exact (eventSourcesNamed_elim _ Hnamed _ _ Hc). }
           by rewrite Hname, bool_decide_eq_true_2.
    + intros [= <- <-]. rewrite Hm0, Hr0. by split_and!.
  - destruct (IsNotFound e) eqn:Hnf; intros [= <- <-]; rewrite Hm0, Hr0;
      by split_and!.
Qed.

End JobFacts.
(** ** What the sweeps keep *)

Section SweepKeeps.
Context {G : Type} {K V : Type} `{Countable K}.
Context (field : ApiServer -> gmap K V).
Context (setField : ApiServer -> gmap K V -> ApiServer).
Context (key : V -> K) (sel stale : V -> bool).

Hypothesis field_set : forall a v, field (setField a v) = v.
Hypothesis field_setFaults : forall a fs, field (setFaults a fs) = field a.

Lemma deleteObject_field_any k a e a' :
  deleteObject field setField k a = (e, a') ->
  field a' = field a \/ field a' = delete k (field a).
Proof.
  unfold deleteObject.
  pose proof (field_takeFault field field_setFaults a) as Hf.
  destruct (takeFault a) as [[e0|] a1]; simpl in Hf.
  { intros [= <- <-]. by left. }
  destruct (field a1 !! k); intros [= <- <-].
  - right. by rewrite field_set, Hf.
  - by left.
Qed.

Lemma deleteStale_keeps items :
  forall (s : Mgmt G) r s',
  deleteStale stale (fun v => deleteObject field setField (key v)) items s
    = (r, s') ->
  field (server s') ⊆ field (server s)
  /\ forall k,
       (forall x, x ∈ items -> stale x = true -> key x <> k) ->
       field (server s') !! k = field (server s) !! k.
Proof.
  induction items as [|x items IH]; intros s r s' Hrun; simpl in Hrun.
  { unfold ret in Hrun. by simplify_eq. }
  destruct (stale x) eqn:Hx.
  - unfold bind, requestErr in Hrun.
    destruct (deleteObject field setField (key x) (server s)) as [e a1] eqn:Hdel.
    apply deleteObject_field_any in Hdel.
    assert (field a1 ⊆ field (server s)) as Hsub1.
    { destruct Hdel as [->| ->]; [done|apply delete_subseteq]. }
    assert (forall k, key x <> k -> field a1 !! k = field (server s) !! k)
      as Hne1.
    { intros k Hk. destruct Hdel as [->| ->]; [done|].
      by apply lookup_delete_ne. }
    destruct e as [e|].
    + simplify_eq. simpl. split; [done|].
      intros k Hk. apply Hne1, Hk; [by left|done].
    + apply IH in Hrun as [Hsub Hkeep]. simpl in *. split; [by etrans|].
      intros k Hk. rewrite Hkeep.
      * apply Hne1, Hk; [by left|done].
      * intros y Hy. apply Hk. by right.
  - apply IH in Hrun as [Hsub Hkeep]. split; [done|].
    intros k Hk. apply Hkeep. intros y Hy. apply Hk. by right.
Qed.

(** Whatever its outcome, a sweep adds nothing and keeps every stored
    object that it does not select or does not find stale. *)
Lemma sweep_keeps (s : Mgmt G) r s' :
  (forall k v, field (server s) !! k = Some v -> key v = k) ->
  sweep field setField key sel stale s = (r, s') ->
  field (server s') ⊆ field (server s)
  /\ forall k v,
       field (server s) !! k = Some v ->
       sel v && stale v = false ->
       field (server s') !! k = Some v.
Proof.
  intros Hwf. unfold sweep, bind, request, listObjects.
  pose proof (field_takeFault field field_setFaults (server s)) as Hf.
  destruct (takeFault (server s)) as [[e|] a1]; simpl in Hf.
  { intros [= <- <-]. simpl. rewrite Hf. split; [done|]. by intros k v ?. }
  intros Hrun. apply deleteStale_keeps in Hrun as [Hsub Hkeep].
  simpl in *. rewrite Hf in *. split; [done|].
  intros k v Hl Hnot. rewrite Hkeep; [done|].
  intros x [Hin Hsel]%elem_of_List_filter Hst Hk.
  apply list_elem_of_fmap in Hin as ([k' x'] & -> & Hin).
  apply elem_of_map_to_list in Hin. simpl in *.
  rewrite (Hwf _ _ Hin) in Hk. subst k'.
  assert (x' = v) as -> by congruence.
  by rewrite Hsel, Hst in Hnot.
Qed.

End SweepKeeps.

Lemma matchesLabels_weaken (selector selector' : gmap string string) labels :
  selector ⊆ selector' ->
  matchesLabels selector' labels = true ->
  matchesLabels selector labels = true.
Proof.
  unfold matchesLabels. rewrite !forallb_forall.
  intros Hsub Hall [k v] Hin%list_elem_of_In%elem_of_map_to_list.
  apply Hall, list_elem_of_In, elem_of_map_to_list.
  by eapply lookup_weaken.
Qed.

Lemma triggerClusterLabels_subseteq ns name ct trigger er :
  triggerClusterLabels ns name ct trigger
  ⊆ getInstantiatedObjectLabels ns name (EventTrigger.Name trigger) (Some er) ct.
Proof.
  unfold triggerClusterLabels, getInstantiatedObjectLabels.
  apply insert_subseteq.
  rewrite !lookup_insert_ne; [apply lookup_empty|..].
  all: lazymatch goal with
       | |- ?x <> ?y =>
           apply (bool_decide_eq_false_1 (x = y)); vm_compute; reflexivity
       end.
Qed.

Section SweeperFacts.
Context {G : Type} `{!Random G} `{!GoRuntime} `{!LibsveltosKeys} `{!OwnerRefs}.
Context `{!ClusterProxy} `{!UnstructuredObjects} `{!TemplateExpansion G}.

Lemma derivedNamed_elim a :
  derivedNamed a = true ->
  (forall k cp, storedClusterProfiles a !! k = Some cp -> ClusterProfile.Name cp = k)
  /\ (forall k cm, storedConfigMaps a !! k = Some cm ->
        (ConfigMap.Namespace cm, ConfigMap.Name cm) = k)
  /\ (forall k sec, storedSecrets a !! k = Some sec ->
        (Secret.Namespace sec, Secret.Name sec) = k).
Proof.
  intros Hnamed. apply andb_prop in Hnamed as [Hnamed Hsec].
  apply andb_prop in Hnamed as [Hcp Hcm].
  split_and!; intros k v Hl.
  - by apply (forallb_map_to_list _ _ _ _ Hcp), bool_decide_eq_true_1 in Hl.
  - by apply (forallb_map_to_list _ _ _ _ Hcm), bool_decide_eq_true_1 in Hl.
  - by apply (forallb_map_to_list _ _ _ _ Hsec), bool_decide_eq_true_1 in Hl.
Qed.

Lemma keptClusterProfiles_refl labels cps a : keptClusterProfiles labels cps a a.
Proof. by split. Qed.

Lemma keptConfigMaps_refl labels policyRefs a :
  keptConfigMaps labels policyRefs a a.
Proof. by split. Qed.

Lemma keptSecrets_refl labels policyRefs a : keptSecrets labels policyRefs a a.
Proof. by split. Qed.

Lemma removeClusterProfiles_keeps ns name ct trigger er cps (s : Mgmt G) r s' :
  (forall k cp, storedClusterProfiles (server s) !! k = Some cp ->
     ClusterProfile.Name cp = k) ->
  removeClusterProfiles ns name ct trigger er cps s = (r, s') ->
  keptClusterProfiles
    (getInstantiatedObjectLabels ns name (EventTrigger.Name trigger) er ct)
    cps (server s) (server s')
  /\ storedConfigMaps (server s') = storedConfigMaps (server s)
  /\ storedSecrets (server s') = storedSecrets (server s)
  /\ storedEventTriggers (server s') = storedEventTriggers (server s)
  /\ storedEventReports (server s') = storedEventReports (server s)
  /\ storedEventSources (server s') = storedEventSources (server s).
Proof.
  intros Hwf Hrun. rewrite removeClusterProfiles_sweep in Hrun.
  split_and!;
    try (eapply sweep_other in Hrun; [exact Hrun|done..]).
  lazymatch type of Hrun with
  | sweep ?fld ?setf ?key ?sel ?stale _ = _ =>
      destruct (sweep_keeps fld setf key sel stale
                  ltac:(done) ltac:(done) s r s' Hwf Hrun) as [Hsub Hkeep]
  end.
  split; [done|]. intros k cp Hl Hwhy. apply Hkeep; [done|].
  cbv beta. destruct Hwhy as [->|Hin]; [done|].
  rewrite bool_decide_eq_true_2; [by rewrite andb_false_r|].
  by apply elem_of_list_to_set.
Qed.

Lemma removeConfigMaps_keeps ns name ct trigger er policyRefs (s : Mgmt G) r s' :
  (forall k cm, storedConfigMaps (server s) !! k = Some cm ->
     (ConfigMap.Namespace cm, ConfigMap.Name cm) = k) ->
  removeConfigMaps ns name ct trigger er policyRefs s = (r, s') ->
  keptConfigMaps
    (getInstantiatedObjectLabels ns name (EventTrigger.Name trigger) er ct)
    policyRefs (server s) (server s')
  /\ storedClusterProfiles (server s') = storedClusterProfiles (server s)
  /\ storedSecrets (server s') = storedSecrets (server s)
  /\ storedEventTriggers (server s') = storedEventTriggers (server s)
  /\ storedEventReports (server s') = storedEventReports (server s)
  /\ storedEventSources (server s') = storedEventSources (server s).
Proof.
  intros Hwf Hrun. rewrite removeConfigMaps_sweep in Hrun.
  split_and!;
    try (eapply sweep_other in Hrun; [exact Hrun|done..]).
  lazymatch type of Hrun with
  | sweep ?fld ?setf ?key ?sel ?stale _ = _ =>
      destruct (sweep_keeps fld setf key sel stale
                  ltac:(done) ltac:(done) s r s' Hwf Hrun) as [Hsub Hkeep]
  end.
  split; [done|]. intros k cm Hl Hwhy. apply Hkeep; [done|].
  cbv beta. destruct Hwhy as [->|[Hns|Hin]]; [done| |].
  - by rewrite (bool_decide_eq_false_2 _ Hns), andb_false_r.
  - rewrite (bool_decide_eq_true_2 _ Hin). by rewrite andb_false_r.
Qed.

Lemma removeSecrets_keeps ns name ct trigger er policyRefs (s : Mgmt G) r s' :
  (forall k sec, storedSecrets (server s) !! k = Some sec ->
     (Secret.Namespace sec, Secret.Name sec) = k) ->
  removeSecrets ns name ct trigger er policyRefs s = (r, s') ->
  keptSecrets
    (getInstantiatedObjectLabels ns name (EventTrigger.Name trigger) er ct)
    policyRefs (server s) (server s')
  /\ storedClusterProfiles (server s') = storedClusterProfiles (server s)
  /\ storedConfigMaps (server s') = storedConfigMaps (server s)
  /\ storedEventTriggers (server s') = storedEventTriggers (server s)
  /\ storedEventReports (server s') = storedEventReports (server s)
  /\ storedEventSources (server s') = storedEventSources (server s).
Proof.
  intros Hwf Hrun. rewrite removeSecrets_sweep in Hrun.
  split_and!;
    try (eapply sweep_other in Hrun; [exact Hrun|done..]).
  lazymatch type of Hrun with
  | sweep ?fld ?setf ?key ?sel ?stale _ = _ =>
      destruct (sweep_keeps fld setf key sel stale
                  ltac:(done) ltac:(done) s r s' Hwf Hrun) as [Hsub Hkeep]
  end.
  split; [done|]. intros k sec Hl Hwhy. apply Hkeep; [done|].
  cbv beta. destruct Hwhy as [->|[Hns|Hin]]; [done| |].
  - by rewrite (bool_decide_eq_false_2 _ Hns), andb_false_r.
  - rewrite (bool_decide_eq_true_2 _ Hin). by rewrite andb_false_r.
Qed.

Lemma keptClusterProfiles_stores labels cps a a' b b' :
  storedClusterProfiles b = storedClusterProfiles a ->
  storedClusterProfiles b' = storedClusterProfiles a' ->
  keptClusterProfiles labels cps a a' -> keptClusterProfiles labels cps b b'.
Proof. unfold keptClusterProfiles. by intros -> ->. Qed.

Lemma keptConfigMaps_stores labels policyRefs a a' b b' :
  storedConfigMaps b = storedConfigMaps a ->
  storedConfigMaps b' = storedConfigMaps a' ->
  keptConfigMaps labels policyRefs a a' -> keptConfigMaps labels policyRefs b b'.
Proof. unfold keptConfigMaps. by intros -> ->. Qed.

Lemma keptSecrets_stores labels policyRefs a a' b b' :
  storedSecrets b = storedSecrets a ->
  storedSecrets b' = storedSecrets a' ->
  keptSecrets labels policyRefs a a' -> keptSecrets labels policyRefs b b'.
Proof. unfold keptSecrets. by intros -> ->. Qed.

(** Whatever its outcome, [removeInstantiatedResources] changes
    ClusterProfiles, ConfigMaps and Secrets only, and only by deleting.
    It keeps every ClusterProfile that does not carry the labels or that
    is named like one of the current expansion set, and every ConfigMap
    and Secret that does not carry the labels, lies outside the report
    namespace, or is referenced by the current expansion set. *)
Theorem removeInstantiatedResources_keeps ns name ct trigger er cps
    (s : Mgmt G) r s' :
  derivedNamed (server s) = true ->
  removeInstantiatedResources ns name ct trigger er cps s = (r, s') ->
  let labels :=
    getInstantiatedObjectLabels ns name (EventTrigger.Name trigger) er ct in
  storedEventTriggers (server s') = storedEventTriggers (server s)
  /\ storedEventReports (server s') = storedEventReports (server s)
  /\ storedEventSources (server s') = storedEventSources (server s)
  /\ keptClusterProfiles labels cps (server s) (server s')
  /\ keptConfigMaps labels (neededPolicyRefs ∅ cps) (server s) (server s')
  /\ keptSecrets labels (neededPolicyRefs ∅ cps) (server s) (server s').
Proof.
  intros Hnamed Hrun labels.
  destruct (derivedNamed_elim _ Hnamed) as (Hcp & Hcm & Hsec).
  unfold removeInstantiatedResources, bind in Hrun.
  destruct (removeClusterProfiles ns name ct trigger er cps s)
    as [r1 s1] eqn:Hr1.
  apply removeClusterProfiles_keeps in Hr1
    as (Hk1 & Hcm1 & Hsec1 & Ht1 & Her1 & Hes1); [|done].
  destruct r1 as [[]|e1].
  2:{ injection Hrun as <- <-.
      refine (conj Ht1 (conj Her1 (conj Hes1 (conj Hk1 (conj _ _))))).
      - eapply keptConfigMaps_stores; [reflexivity|exact Hcm1|].
        apply keptConfigMaps_refl.
      - eapply keptSecrets_stores; [reflexivity|exact Hsec1|].
        apply keptSecrets_refl. }
  destruct (removeConfigMaps ns name ct trigger er (neededPolicyRefs ∅ cps) s1)
    as [r2 s2] eqn:Hr2.
  apply removeConfigMaps_keeps in Hr2
    as (Hk2 & Hcp2 & Hsec2 & Ht2 & Her2 & Hes2);
    [|by rewrite Hcm1].
  destruct r2 as [[]|e2].
  2:{ injection Hrun as <- <-.
      refine (conj _ (conj _ (conj _ (conj _ (conj _ _))))); try congruence.
      - by eapply keptClusterProfiles_stores; [reflexivity|exact Hcp2|].
      - by eapply keptConfigMaps_stores; [symmetry; exact Hcm1|reflexivity|].
      - eapply keptSecrets_stores; [reflexivity| |apply keptSecrets_refl].
        by rewrite Hsec2, Hsec1. }
  apply removeSecrets_keeps in Hrun
    as (Hk3 & Hcp3 & Hcm3 & Ht3 & Her3 & Hes3);
    [|by rewrite Hsec2, Hsec1].
  refine (conj _ (conj _ (conj _ (conj _ (conj _ _))))); try congruence.
  - eapply keptClusterProfiles_stores; [reflexivity| |exact Hk1].
    by rewrite Hcp3, Hcp2.
  - by eapply keptConfigMaps_stores; [symmetry; exact Hcm1|exact Hcm3|].
  - eapply keptSecrets_stores; [|reflexivity|exact Hk3].
    by rewrite Hsec2, Hsec1.
Qed.

Lemma removeInstantiatedResources_clears_all ns name ct trigger er
    (s s' : Mgmt G) :
  derivedNamed (server s) = true ->
  removeInstantiatedResources ns name ct trigger er [] s = (ok tt, s') ->
  derivedClearedFor
    (getInstantiatedObjectLabels ns name (EventTrigger.Name trigger) er ct)
    (server s').
Proof.
  intros Hnamed.
  destruct (derivedNamed_elim _ Hnamed) as (Hcp & Hcm & Hsec).
  unfold removeInstantiatedResources, bind.
  destruct (removeClusterProfiles ns name ct trigger er [] s)
    as [[[]|e] s1] eqn:Hr1; [|done].
  destruct (removeConfigMaps ns name ct trigger er (neededPolicyRefs ∅ []) s1)
    as [[[]|e] s2] eqn:Hr2; [|done].
  intros Hr3.
  destruct (removeClusterProfiles_keeps _ _ _ _ _ _ _ _ _ Hcp Hr1)
    as (_ & Hcm1 & Hsec1 & _).
  assert (Hwf2 : forall k cm, storedConfigMaps (server s1) !! k = Some cm ->
                   (ConfigMap.Namespace cm, ConfigMap.Name cm) = k)
    by (by rewrite Hcm1).
  destruct (removeConfigMaps_keeps _ _ _ _ _ _ _ _ _ Hwf2 Hr2)
    as (_ & Hcp2 & Hsec2 & _).
  assert (Hwf3 : forall k sec, storedSecrets (server s2) !! k = Some sec ->
                   (Secret.Namespace sec, Secret.Name sec) = k)
    by (by rewrite Hsec2, Hsec1).
  destruct (removeSecrets_keeps _ _ _ _ _ _ _ _ _ Hwf3 Hr3)
    as (_ & Hcp3 & Hcm3 & _).
  rewrite removeClusterProfiles_sweep in Hr1.
  rewrite removeConfigMaps_sweep in Hr2.
  rewrite removeSecrets_sweep in Hr3.
  set (labels := getInstantiatedObjectLabels ns name
                    (EventTrigger.Name trigger) er ct) in *.
  split_and!.
  - intros k cp Hl. rewrite Hcp3, Hcp2 in Hl.
    lazymatch type of Hr1 with
    | sweep ?fld ?setf ?key ?sel ?stale _ = _ =>
        eapply (sweep_clears fld setf key sel stale) in Hl as [_ Hl];
          [exact Hl|done|done| |exact Hcp|exact Hr1]
    end.
    intros v0 _. cbv beta.
    by rewrite bool_decide_eq_false_2 by apply not_elem_of_empty.
  - intros k cm Hl Hns. rewrite Hcm3 in Hl.
    lazymatch type of Hr2 with
    | sweep ?fld ?setf ?key ?sel ?stale _ = _ =>
        eapply (sweep_clears fld setf key sel stale) in Hl as [_ Hl];
          [|done|done| |exact Hwf2|exact Hr2]
    end.
    + apply andb_false_iff in Hl as [?|Hl]; [done|].
      by apply bool_decide_eq_false_1 in Hl.
    + intros v0 _. cbv beta.
      by rewrite bool_decide_eq_false_2 by apply not_elem_of_empty.
  - intros k sec Hl Hns.
    lazymatch type of Hr3 with
    | sweep ?fld ?setf ?key ?sel ?stale _ = _ =>
        eapply (sweep_clears fld setf key sel stale) in Hl as [_ Hl];
          [|done|done| |exact Hwf3|exact Hr3]
    end.
    + apply andb_false_iff in Hl as [?|Hl]; [done|].
      by apply bool_decide_eq_false_1 in Hl.
    + intros v0 _. cbv beta.
      by rewrite bool_decide_eq_false_2 by apply not_elem_of_empty.
Qed.

Lemma removeStaleEventSourcesLoop_management ns name ct resource removeAll items :
  forall a err a',
  removeStaleEventSourcesLoop ns name ct resource removeAll items a = (err, a') ->
  managementObjects a' = managementObjects a.
Proof.
  induction items as [|es rest IH]; intros a err a' Hrun; simpl in Hrun.
  { by injection Hrun as <- <-. }
  repeat case_match; simplify_eq;
    repeat match goal with
    | H : updateObject storedEventSources _ _ _ _ = _ |- _ =>
        apply updateEventSource_spec in H as (? & _)
    | H : deleteObject storedEventSources _ _ _ = _ |- _ =>
        apply deleteEventSource_spec in H as (? & _)
    | H : removeStaleEventReports _ _ _ _ _ = _ |- _ =>
        apply removeStaleEventReports_frame in H as (? & _)
    | H : removeStaleEventSourcesLoop _ _ _ _ _ _ _ = _ |- _ =>
        apply IH in H
    end; congruence.
Qed.

Lemma removeStaleEventSources_management ns name ct resource removeAll a err a' :
  removeStaleEventSources ns name ct resource removeAll a = (err, a') ->
  managementObjects a' = managementObjects a.
Proof.
  unfold removeStaleEventSources, GetKubernetesClient, listObjects.
  destruct (takeFault_stores a) as (Hm0 & _).
  destruct (takeFault a) as [[e0|] a0]; simpl in *; [by intros [= <- <-]|].
  destruct (takeFault_stores a0) as (Hm1 & _).
  destruct (takeFault a0) as [[e1|] a1]; simpl in *.
  { intros [= <- <-]. congruence. }
  intros Hrun%removeStaleEventSourcesLoop_management. congruence.
Qed.

End SweeperFacts.
Section CleanupJobFacts.
Context {G : Type} `{!Random G} `{!GoRuntime} `{!LibsveltosKeys} `{!OwnerRefs}.
Context `{!ClusterProxy} `{!UnstructuredObjects} `{!TemplateExpansion G}.

Lemma derivedClearedFor_weaken (labels labels' : gmap string string) a :
  labels ⊆ labels' ->
  derivedClearedFor labels a -> derivedClearedFor labels' a.
Proof.
  intros Hsub (Hcp & Hcm & Hsec).
  assert (forall l, matchesLabels labels l = false ->
                    matchesLabels labels' l = false) as Hweak.
  { intros l Hl. destruct (matchesLabels labels' l) eqn:Hmatch; [|done].
    by rewrite (matchesLabels_weaken labels labels' l Hsub Hmatch) in Hl. }
  split_and!.
  - intros k cp Hl. by apply Hweak, (Hcp k).
  - intros k cm Hl Hns. by apply Hweak, (Hcm k).
  - intros k sec Hl Hns. by apply Hweak, (Hsec k).
Qed.

(** The cleanup job. When it returns nil for a stored trigger, no
    ClusterProfile carrying the labels of the trigger and the cluster is
    left, and no such ConfigMap or Secret in the report namespace,
    whichever EventReport they were derived from. For a trigger that is
    not stored any more it returns nil after its first request, and
    clears nothing. *)
Theorem undeployEventTriggerResourcesFromCluster_clears ns name applicant ct
    (s s' : Mgmt G) :
  derivedNamed (server s) = true ->
  undeployEventTriggerResourcesFromCluster ns name applicant ct s = (ok tt, s') ->
  match (getEventTrigger applicant (server s)).1 with
  | ok resource =>
      derivedClearedFor (triggerClusterLabels ns name ct resource) (server s')
      /\ forall er, derivedCleared ns name ct resource er (server s')
  | fail e =>
      IsNotFound e = true
      /\ s' = mkMgmt (takeFault (server s)).2 (rng s)
  end.
Proof.
  intros Hnamed. unfold undeployEventTriggerResourcesFromCluster.
  assert (Htrig :
            managementObjects (getEventTrigger applicant (server s)).2
            = managementObjects (server s)
            /\ (getEventTrigger applicant (server s)).2 = (takeFault (server s)).2).
  { unfold getEventTrigger.
    destruct (takeFault_stores (server s)) as (Hm & _).
    destruct (takeFault (server s)) as [[e0|] a0]; simpl in *; [done|].
    by destruct (storedEventTriggers a0 !! applicant). }
  destruct Htrig as [Hm0 Ha0].
  destruct (getEventTrigger applicant (server s)) as [[resource|e] a0];
    simpl in *.
  - destruct (removeStaleEventSources ns name ct resource true a0)
      as [[e1|] a1] eqn:Hsweep; [done|].
    apply removeStaleEventSources_management in Hsweep.
    intros Hrun.
    apply removeInstantiatedResources_clears_all in Hrun.
    + split; [exact Hrun|]. intros er.
      apply (derivedClearedFor_weaken
               (triggerClusterLabels ns name ct resource)
               (getInstantiatedObjectLabels ns name (EventTrigger.Name resource)
                  (Some er) ct));
        [apply triggerClusterLabels_subseteq|exact Hrun].
    + unfold managementObjects in *.
      injection Hsweep as _ Hc1 Hc2 Hc3. injection Hm0 as _ Hd1 Hd2 Hd3.
      simpl. unfold derivedNamed in *.
      by rewrite Hc1, Hc2, Hc3, Hd1, Hd2, Hd3.
  - destruct (IsNotFound e); intros [= <-]. by rewrite Ha0.
Qed.

End CleanupJobFacts.
(** ** Requests on one map of the API server *)

Section ObjectRequests.
Context {K V : Type} `{Countable K}.
Context (field : ApiServer -> gmap K V).
Context (setField : ApiServer -> gmap K V -> ApiServer).

Hypothesis field_set : forall a v, field (setField a v) = v.
Hypothesis field_setFaults : forall a fs, field (setFaults a fs) = field a.

Lemma getObject_field k a r a1 :
  getObject field k a = (r, a1) ->
  field a1 = field a /\ (forall v, r = ok v -> field a !! k = Some v).
Proof.
  unfold getObject.
  pose proof (field_takeFault field field_setFaults a) as Hf.
  destruct (takeFault a) as [[e0|] a0]; simpl in Hf.
  { by intros [= <- <-]. }
  rewrite Hf. destruct (field a !! k) as [v0|] eqn:Hk; intros [= <- <-];
    (split; [done|]); by intros v [= ->].
Qed.

Lemma updateObject_field k v a e a1 :
  updateObject field setField k v a = (e, a1) ->
  (e = None -> is_Some (field a !! k) /\ field a1 = <[k := v]> (field a))
  /\ (e <> None -> field a1 = field a).
Proof.
  unfold updateObject.
  pose proof (field_takeFault field field_setFaults a) as Hf.
  destruct (takeFault a) as [[e0|] a0]; simpl in Hf.
  { by intros [= <- <-]. }
  rewrite Hf. destruct (field a !! k) as [v0|] eqn:Hk; intros [= <- <-].
  - rewrite field_set. by split; [eauto|].
  - by split.
Qed.

Lemma createObject_field k v a e a1 :
  createObject field setField k v a = (e, a1) ->
  (e = None -> field a !! k = None /\ field a1 = <[k := v]> (field a))
  /\ (e <> None -> field a1 = field a).
Proof.
  unfold createObject.
  pose proof (field_takeFault field field_setFaults a) as Hf.
  destruct (takeFault a) as [[e0|] a0]; simpl in Hf.
  { by intros [= <- <-]. }
  rewrite Hf. destruct (field a !! k) as [v0|] eqn:Hk; intros [= <- <-].
  - by split.
  - rewrite field_set. by split.
Qed.

End ObjectRequests.

(** ** Labels and names of derived objects *)

Lemma matchesLabels_subseteq (selector labels : gmap string string) :
  matchesLabels selector (Some labels) = true <-> selector ⊆ labels.
Proof.
  unfold matchesLabels. rewrite forallb_forall, map_subseteq_spec. simpl. split.
  - intros Hall k v Hl.
    apply elem_of_map_to_list, list_elem_of_In, Hall in Hl.
    by apply bool_decide_eq_true_1 in Hl.
  - intros Hall [k v] Hin%list_elem_of_In%elem_of_map_to_list.
    apply bool_decide_eq_true_2. by apply Hall.
Qed.

(** Settles the inequality of two closed strings by evaluation. *)
Ltac distinct_strings :=
  lazymatch goal with
  | |- ?x <> ?y =>
      apply (bool_decide_eq_false_1 (x = y)); vm_compute; reflexivity
  end.

Lemma getInstantiatedObjectLabels_lookups ns name trigger er ct :
  let labels := getInstantiatedObjectLabels ns name trigger er ct in
  labels !! eventTriggerNameLabel = Some trigger
  /\ labels !! clusterNamespaceLabel = Some ns
  /\ labels !! clusterNameLabel = Some name
  /\ labels !! clusterTypeLabel = Some (clusterTypeString ct)
  /\ labels !! eventReportNameLabel = EventReport.Name <$> er.
Proof.
  unfold getInstantiatedObjectLabels.
  destruct er as [er|]; simpl; split_and!.
  all: repeat first
         [ apply lookup_insert_eq
         | apply lookup_empty
         | rewrite lookup_insert_ne by distinct_strings ].
Qed.

Lemma clusterTypeString_inj ct ct' :
  clusterTypeString ct = clusterTypeString ct' -> ct = ct'.
Proof. by destruct ct, ct'. Qed.

(** The label sets of derived objects tell triggers, clusters and
    EventReports apart: the selector built for a trigger, a cluster and
    an EventReport selects the objects labelled for the same trigger and
    cluster and for an EventReport of the same name, and no object
    labelled for another; the selector built without EventReport selects
    the objects of the trigger and cluster whatever their EventReport. *)
Theorem getInstantiatedObjectLabels_selects ns name trigger er ct
    ns' name' trigger' er' ct' :
  matchesLabels (getInstantiatedObjectLabels ns name trigger er ct)
    (Some (getInstantiatedObjectLabels ns' name' trigger' er' ct')) = true
  <-> ns = ns' /\ name = name' /\ trigger = trigger' /\ ct = ct'
      /\ (er = None \/ EventReport.Name <$> er = EventReport.Name <$> er').
Proof.
  rewrite matchesLabels_subseteq.
  destruct (getInstantiatedObjectLabels_lookups ns name trigger er ct)
    as (Ht & Hns & Hn & Hct & Her).
  destruct (getInstantiatedObjectLabels_lookups ns' name' trigger' er' ct')
    as (Ht' & Hns' & Hn' & Hct' & Her').
  split.
  - intros Hsub.
    pose proof (lookup_weaken _ _ _ _ Ht Hsub) as Ht2.
    pose proof (lookup_weaken _ _ _ _ Hns Hsub) as Hns2.
    pose proof (lookup_weaken _ _ _ _ Hn Hsub) as Hn2.
    pose proof (lookup_weaken _ _ _ _ Hct Hsub) as Hct2.
    rewrite Ht' in Ht2. rewrite Hns' in Hns2. rewrite Hn' in Hn2.
    rewrite Hct' in Hct2.
    injection Ht2 as <-. injection Hns2 as <-. injection Hn2 as <-.
    injection Hct2 as <-%clusterTypeString_inj.
    split_and!; try done.
    destruct er as [e|]; [right|by left]. simpl in Her.
    pose proof (lookup_weaken _ _ _ _ Her Hsub) as Her2.
    by rewrite Her' in Her2.
  - intros (<- & <- & <- & <- & Her0).
    unfold getInstantiatedObjectLabels.
    destruct er as [e|]; simpl.
    + destruct Her0 as [?|Her0]; [done|].
      destruct er' as [e'|]; [|done]. simpl in Her0. by injection Her0 as ->.
    + destruct er' as [e'|]; [|done].
      apply insert_subseteq.
      repeat first
        [ apply lookup_empty | rewrite lookup_insert_ne by distinct_strings ].
Qed.

(** The label set of the ClusterProfile of a cluster-scoped matching
    resource is contained in the label set of the ClusterProfile of any
    namespaced matching resource of the same name: it lacks the
    namespace label and nothing else. So the lookup for the
    cluster-scoped resource also selects the ClusterProfile of the
    namespaced one. *)
Theorem resourceProfileLabels_cluster_scoped ns name ct trigger er
    (scoped namespaced : ObjectReference) :
  Namespace scoped = "" ->
  Name namespaced = Name scoped ->
  matchesLabels (resourceProfileLabels ns name ct trigger er scoped)
    (Some (resourceProfileLabels ns name ct trigger er namespaced)) = true.
Proof.
  intros Hscoped Hname. apply matchesLabels_subseteq.
  unfold resourceProfileLabels, copyLabels,
    getInstantiatedObjectLabelsForResource.
  rewrite Hscoped, Hname. simpl.
  destruct (bool_decide (Namespace namespaced = "")); simpl; [done|].
  apply map_subseteq_spec. intros k v.
  rewrite !lookup_union_Some_raw. intros [Hl|[Hnone Hl]].
  - left. eapply lookup_weaken; [exact Hl|].
    apply insert_subseteq.
    rewrite lookup_insert_ne by distinct_strings. apply lookup_empty.
  - destruct (decide
               (k = "eventtrigger.lib.projectsveltos.io/resourcenamespace"))
      as [->|Hk].
    + exfalso. revert Hl.
      rewrite !lookup_insert_ne by distinct_strings. by rewrite lookup_empty.
    + right. split; [|done]. by rewrite lookup_insert_ne.
Qed.

Section NameLookupFacts.
Context {G : Type} `{!Random G} `{!GoRuntime} `{!LibsveltosKeys}.
Context `{!ClusterProxy} `{!UnstructuredObjects} `{!TemplateExpansion G}.

(** [updateClusterProfileSpec] replaces the spec of the stored
    ClusterProfile and nothing else: the stored object keeps its own
    labels, not those of the ClusterProfile it is given. When it fails
    the stored ClusterProfiles are as before. *)
Theorem updateClusterProfileSpec_keeps_labels clusterProfile (s : Mgmt G) r s' :
  (forall k cp, storedClusterProfiles (server s) !! k = Some cp ->
     ClusterProfile.Name cp = k) ->
  updateClusterProfileSpec clusterProfile s = (r, s') ->
  match r with
  | ok _ =>
      exists current,
        storedClusterProfiles (server s) !! ClusterProfile.Name clusterProfile
        = Some current
        /\ storedClusterProfiles (server s')
           = <[ClusterProfile.Name clusterProfile :=
                 ClusterProfile.mk (ClusterProfile.Name clusterProfile)
                   (ClusterProfile.Labels current)
                   (ClusterProfile.Spec clusterProfile)]>
               (storedClusterProfiles (server s))
  | fail _ => storedClusterProfiles (server s') = storedClusterProfiles (server s)
  end.
Proof.
  intros Hwf. unfold updateClusterProfileSpec, bind, request, requestErr.
  destruct (getObject storedClusterProfiles (ClusterProfile.Name clusterProfile)
              (server s)) as [[current|e] a1] eqn:Hget;
    apply (getObject_field storedClusterProfiles ltac:(done)) in Hget
      as (Hf1 & Hok1).
  2:{ intros [= <- <-]. by simpl. }
  specialize (Hok1 _ eq_refl). rewrite (Hwf _ _ Hok1). simpl.
  destruct (updateObject storedClusterProfiles setClusterProfiles
              (ClusterProfile.Name clusterProfile) _ a1) as [[e|] a2] eqn:Hupd;
    apply (updateObject_field storedClusterProfiles setClusterProfiles
             ltac:(done) ltac:(done)) in Hupd as (Hok2 & Hfail2).
  - intros [= <- <-]. simpl. by rewrite (Hfail2 ltac:(done)).
  - intros [= <- <-]. simpl. exists current.
    destruct (Hok2 eq_refl) as [_ ->]. by rewrite Hf1.
Qed.

End NameLookupFacts.
(** ** The matcher, request by request *)

Section MatcherExact.
Context `{!GoRuntime} `{!LabelSelectors}.




(** [getClusterProfilePolicyRefs] returns one PolicyRef for every local
    reference, then one for every remote reference: as many as the two
    sets hold together. Each is of kind Secret when the reference is to a
    Secret and of kind ConfigMap for any other kind, with the namespace
    and name of the reference. *)
Theorem getClusterProfilePolicyRefs_spec
    (localPolicyRef remotePolicyRef : gset ObjectReference) :
  let refs := getClusterProfilePolicyRefs localPolicyRef remotePolicyRef in
  length refs = (size localPolicyRef + size remotePolicyRef)%nat
  /\ (forall p,
        p ∈ refs
        <-> exists item,
              (item ∈ localPolicyRef /\ PolicyRef.DeploymentType p = "Local"
               \/ item ∈ remotePolicyRef /\ PolicyRef.DeploymentType p = "Remote")
              /\ PolicyRef.Namespace p = Namespace item
              /\ PolicyRef.Name p = Name item
              /\ PolicyRef.Kind p
                 = (if bool_decide (Kind item = "Secret") then "Secret"
                    else "ConfigMap"))
  /\ Forall (fun p => PolicyRef.DeploymentType p = "Local")
       (take (size localPolicyRef) refs)
  /\ Forall (fun p => PolicyRef.DeploymentType p = "Remote")
       (drop (size localPolicyRef) refs).
Proof.
  intros refs. unfold refs, getClusterProfilePolicyRefs.
  assert (forall s : gset ObjectReference, length (setItems s) = size s) as Hlen.
  { intros s. by rewrite setItems_perm. }
  split_and!.
  - by rewrite length_app, !length_map, !Hlen.
  - intros p. rewrite elem_of_app, !list_elem_of_fmap. split.
    + intros [(item & -> & Hin%elem_of_setItems)
             |(item & -> & Hin%elem_of_setItems)];
        exists item; simpl; split_and!; auto.
    + intros (item & [[Hin Hd]|[Hin Hd]] & Hns & Hn & Hk); [left|right];
        exists item; (split; [|by apply elem_of_setItems]);
        destruct p; simpl in *; unfold policyRefOf; by subst.
  - rewrite take_app_length'; [|by rewrite length_map, Hlen].
    apply Forall_forall. by intros p (item & -> & _)%list_elem_of_fmap.
  - rewrite drop_app_length'; [|by rewrite length_map, Hlen].
    apply Forall_forall. by intros p (item & -> & _)%list_elem_of_fmap.
Qed.

End MatcherExact.

(** ** Retries and decoding *)

Section RetryFacts.
Context `{!ClusterProxy}.

Lemma takeFault_length a :
  (length (faults a) <= length (faults (takeFault a).2) + 1)%nat
  /\ (length (faults (takeFault a).2) <= length (faults a))%nat.
Proof.
  unfold takeFault. destruct (faults a) eqn:Hf; simpl; rewrite ?Hf; simpl; lia.
Qed.

Lemma removeClusterInfoEntryAttempt_requests ns name ct resource a err a' :
  removeClusterInfoEntryAttempt ns name ct resource a = (err, a') ->
  (length (faults a) <= length (faults a') + 2)%nat
  /\ storedClusterProfiles a' = storedClusterProfiles a
  /\ storedConfigMaps a' = storedConfigMaps a
  /\ storedSecrets a' = storedSecrets a
  /\ storedEventReports a' = storedEventReports a
  /\ storedEventSources a' = storedEventSources a.
Proof.
  unfold removeClusterInfoEntryAttempt, getEventTrigger, statusUpdateEventTrigger.
  pose proof (takeFault_length a) as [Hl1 _].
  assert (forall b,
            storedClusterProfiles (takeFault b).2 = storedClusterProfiles b
            /\ storedConfigMaps (takeFault b).2 = storedConfigMaps b
            /\ storedSecrets (takeFault b).2 = storedSecrets b
            /\ storedEventReports (takeFault b).2 = storedEventReports b
            /\ storedEventSources (takeFault b).2 = storedEventSources b) as Hst.
  { intros b. unfold takeFault. by destruct (faults b). }
  destruct (Hst a) as (H1 & H2 & H3 & H4 & H5).
  destruct (takeFault a) as [[e|] a1]; simpl in *.
  { intros [= <- <-]. split_and!; try done. lia. }
  destruct (storedEventTriggers a1 !! EventTrigger.Name resource)
    as [current|] eqn:Hcur.
  2:{ intros [= <- <-]. split_and!; try done. lia. }
  destruct (findClusterInfo _ ns name ct) as [[i c]|].
  2:{ intros [= <- <-]. split_and!; try done. lia. }
  pose proof (takeFault_length a1) as [Hl2 _].
  destruct (Hst a1) as (G1 & G2 & G3 & G4 & G5).
  destruct (takeFault a1) as [[e|] a2]; simpl in *.
  { intros [= <- <-]. split_and!; try congruence. lia. }
  destruct (storedEventTriggers a2 !! _); intros [= <- <-]; simpl;
    split_and!; try congruence; lia.
Qed.

Lemma RetryOnConflict_requests ns name ct resource steps :
  forall lastErr a err a',
  RetryOnConflict steps (removeClusterInfoEntryAttempt ns name ct resource)
    lastErr a = (err, a') ->
  (length (faults a) <= length (faults a') + 2 * steps)%nat
  /\ storedClusterProfiles a' = storedClusterProfiles a
  /\ storedConfigMaps a' = storedConfigMaps a
  /\ storedSecrets a' = storedSecrets a
  /\ storedEventReports a' = storedEventReports a
  /\ storedEventSources a' = storedEventSources a
  /\ (forall e, err = Some e -> IsConflict e = false ->
      lastErr = Some e \/ exists a0 a1,
        removeClusterInfoEntryAttempt ns name ct resource a0 = (Some e, a1)).
Proof.
  induction steps as [|n IH]; intros lastErr a err a' Hrun; simpl in Hrun.
  { injection Hrun as <- <-. split_and!; try done; [lia|]. by left. }
  destruct (removeClusterInfoEntryAttempt ns name ct resource a)
    as [[e|] a1] eqn:Hatt.
  - pose proof Hatt as Hatt0.
    apply removeClusterInfoEntryAttempt_requests in Hatt
      as (Hl & H1 & H2 & H3 & H4 & H5).
    destruct (IsConflict e) eqn:Hconf.
    + apply IH in Hrun as (Hl' & G1 & G2 & G3 & G4 & G5 & Herr).
      split_and!; try congruence; [lia|].
      intros e0 He0 Hc0. destruct (Herr e0 He0 Hc0) as [[= ->]|?]; [|by right].
      congruence.
    + injection Hrun as <- <-. split_and!; try done; [lia|].
      intros e0 [= <-] _. right. eauto.
  - injection Hrun as <- <-.
    apply removeClusterInfoEntryAttempt_requests in Hatt
      as (Hl & H1 & H2 & H3 & H4 & H5).
    split_and!; try done. lia.
Qed.

(** [removeClusterInfoEntry] makes at most five attempts of at most two
    requests each, and writes nothing but the stored triggers. *)
Theorem removeClusterInfoEntry_requests ns name ct resource a err a' :
  removeClusterInfoEntry ns name ct resource a = (err, a') ->
  (length (faults a) <= length (faults a') + 10)%nat
  /\ storedClusterProfiles a' = storedClusterProfiles a
  /\ storedConfigMaps a' = storedConfigMaps a
  /\ storedSecrets a' = storedSecrets a
  /\ storedEventReports a' = storedEventReports a
  /\ storedEventSources a' = storedEventSources a.
Proof.
  unfold removeClusterInfoEntry, DefaultRetrySteps.
  intros Hrun%RetryOnConflict_requests. by destruct Hrun as (? & ? & ? & ? & ? & ? & _).
Qed.

End RetryFacts.

Section DecodingFacts.
Context `{!ClusterProxy} `{!UnstructuredObjects}.

Lemma getResourcesLoop_spec elements :
  forall acc,
  match getResourcesLoop elements acc with
  | ok resources =>
      exists new,
        resources = acc ++ new
        /\ Forall2 (fun element policy => GetUnstructured element = ok policy)
             (List.filter (fun element => negb (bool_decide (element = "")))
                elements)
             new
  | fail err =>
      exists element,
        element ∈ elements /\ element <> ""
        /\ GetUnstructured element = fail err
  end.
Proof.
  induction elements as [|element rest IH]; intros acc; simpl.
  { exists []. by rewrite app_nil_r. }
  case_bool_decide as Hempty; simpl.
  - specialize (IH acc). destruct (getResourcesLoop rest acc); [done|].
    destruct IH as (x & Hin & Hx). exists x. split; [by right|done].
  - destruct (GetUnstructured element) as [policy|err] eqn:Hdec.
    + specialize (IH (acc ++ [policy])).
      destruct (getResourcesLoop rest (acc ++ [policy])).
      * destruct IH as (new & -> & Hall). exists (policy :: new).
        split; [by rewrite <- app_assoc|by constructor].
      * destruct IH as (x & Hin & Hx). exists x. split; [by right|done].
    + exists element. split; [by left|done].
Qed.

(** [getResources] decodes the non-empty pieces of the collected
    resources, in order: it returns one object for each when all of them
    decode, and the error of a piece that does not decode otherwise.
    Empty pieces are skipped. *)
Theorem getResources_decodes (eventReport : EventReport) :
  match getResources eventReport with
  | ok resources =>
      Forall2 (fun element policy => GetUnstructured element = ok policy)
        (resourceDocuments eventReport) resources
  | fail err =>
      exists element,
        element ∈ resourceDocuments eventReport
        /\ GetUnstructured element = fail err
  end.
Proof.
  unfold getResources, resourceDocuments.
  pose proof (getResourcesLoop_spec
                (Split (EventReport.Resources (EventReport.Spec eventReport)) "---")
                []) as Hloop.
  destruct (getResourcesLoop _ []) as [resources|err].
  - by destruct Hloop as (new & -> & Hall).
  - destruct Hloop as (x & Hin & Hne & Hx). exists x. split; [|done].
    apply elem_of_List_filter. split; [done|].
    by rewrite bool_decide_eq_false_2.
Qed.

End DecodingFacts.
(** ** Derived ConfigMaps and Secrets *)

Lemma List_filter_Permutation {A : Type} (p : A -> bool) (l l' : list A) :
  l ≡ₚ l' -> List.filter p l ≡ₚ List.filter p l'.
Proof.
  induction 1 as [|x l l' _ IH|x y l|l l' l'' _ IH1 _ IH2]; simpl.
  - done.
  - destruct (p x); [by constructor|done].
  - destruct (p x), (p y); try done. apply perm_swap.
  - by etrans.
Qed.

Lemma values_insert_fresh `{Countable K} {V : Type} (m : gmap K V) k v :
  m !! k = None ->
  (map_to_list (<[k := v]> m)).*2 ≡ₚ v :: (map_to_list m).*2.
Proof. intros Hk. by rewrite (map_to_list_insert m k v Hk). Qed.

Lemma values_lookup `{Countable K} {V : Type} (m : gmap K V) k v :
  m !! k = Some v ->
  (map_to_list m).*2 ≡ₚ v :: (map_to_list (delete k m)).*2.
Proof.
  intros Hk. rewrite <- (values_insert_fresh (delete k m) k v).
  - by rewrite insert_delete_id.
  - apply lookup_delete_eq.
Qed.

Lemma values_insert_present `{Countable K} {V : Type} (m : gmap K V) k v :
  (map_to_list (<[k := v]> m)).*2 ≡ₚ v :: (map_to_list (delete k m)).*2.
Proof.
  rewrite <- (values_insert_fresh (delete k m) k v).
  - by rewrite insert_delete_eq.
  - apply lookup_delete_eq.
Qed.

Section DeriveFacts.
Context {G : Type} `{!Random G} {V F : Type}.
Context (field : ApiServer -> gmap (string * string) V).
Context (setField : ApiServer -> gmap (string * string) V -> ApiServer).
Context (frame : ApiServer -> F).
Context (sel : V -> bool) (nameOf : V -> string) (keyOf : V -> string * string).
Context (created : string -> V) (updated : V -> V).

(** [field] and [setField] address one map of the API server, [frame]
    the rest of its objects. *)
Hypothesis field_set : forall a v, field (setField a v) = v.
Hypothesis field_setFaults : forall a fs, field (setFaults a fs) = field a.
Hypothesis frame_set : forall a v, frame (setField a v) = frame a.
Hypothesis frame_setFaults : forall a fs, frame (setFaults a fs) = frame a.

Lemma frame_takeFault a : frame (takeFault a).2 = frame a.
Proof. unfold takeFault. destruct (faults a); simpl; [done|apply frame_setFaults]. Qed.

Lemma listObjects_any a r a1 :
  listObjects field sel a = (r, a1) ->
  field a1 = field a /\ frame a1 = frame a
  /\ (forall items, r = ok items ->
        items = List.filter sel (map_to_list (field a)).*2).
Proof.
  unfold listObjects.
  pose proof (field_takeFault field field_setFaults a) as Hf.
  pose proof (frame_takeFault a) as Hfr.
  destruct (takeFault a) as [[e0|] a0]; simpl in *; intros [= <- <-].
  - done.
  - split_and!; try done. intros items [= <-]. by rewrite Hf.
Qed.

Lemma getObject_any k a r a1 :
  getObject field k a = (r, a1) ->
  field a1 = field a /\ frame a1 = frame a
  /\ (forall v, r = ok v -> field a !! k = Some v).
Proof.
  unfold getObject.
  pose proof (field_takeFault field field_setFaults a) as Hf.
  pose proof (frame_takeFault a) as Hfr.
  destruct (takeFault a) as [[e0|] a0]; simpl in *.
  { by intros [= <- <-]. }
  rewrite Hf. destruct (field a !! k) as [v0|] eqn:Hk; intros [= <- <-];
    (split_and!; [done|done|]); by intros v [= ->].
Qed.

Lemma updateObject_any k v a e a1 :
  updateObject field setField k v a = (e, a1) ->
  frame a1 = frame a
  /\ (e = None -> is_Some (field a !! k) /\ field a1 = <[k := v]> (field a))
  /\ (e <> None -> field a1 = field a).
Proof.
  unfold updateObject.
  pose proof (field_takeFault field field_setFaults a) as Hf.
  pose proof (frame_takeFault a) as Hfr.
  destruct (takeFault a) as [[e0|] a0]; simpl in *.
  { by intros [= <- <-]. }
  rewrite Hf. destruct (field a !! k) as [v0|] eqn:Hk; intros [= <- <-].
  - rewrite field_set, frame_set. by split_and!; [|eauto|].
  - by split_and!.
Qed.

Lemma createObject_any k v a e a1 :
  createObject field setField k v a = (e, a1) ->
  frame a1 = frame a
  /\ (e = None -> field a !! k = None /\ field a1 = <[k := v]> (field a))
  /\ (e <> None -> field a1 = field a).
Proof.
  unfold createObject.
  pose proof (field_takeFault field field_setFaults a) as Hf.
  pose proof (frame_takeFault a) as Hfr.
  destruct (takeFault a) as [[e0|] a0]; simpl in *.
  { by intros [= <- <-]. }
  rewrite Hf. destruct (field a !! k) as [v0|] eqn:Hk; intros [= <- <-].
  - by split_and!.
  - rewrite field_set, frame_set. by split_and!.
Qed.

(** What a run of [deriveObject] does to the map: nothing when it
    fails; when it answers [name], either no object was selected and
    [created name] is stored under a new key, or one object was
    selected, [name] is its name and [updated] of it replaces it. *)
Lemma deriveObject_spec (s : Mgmt G) r s' :
  (forall k v, field (server s) !! k = Some v -> keyOf v = k) ->
  (forall v, sel v = true -> keyOf v = (ReportNamespace, nameOf v)) ->
  deriveObject field setField sel nameOf keyOf created updated s = (r, s') ->
  frame (server s') = frame (server s)
  /\ match r with
     | fail _ => field (server s') = field (server s)
     | ok name =>
         let key := (ReportNamespace, name) in
         (List.filter sel (map_to_list (field (server s))).*2 = []
          /\ field (server s) !! key = None
          /\ name = "sveltos-" +:+ (RandomString nameLength (rng s)).1
          /\ field (server s') = <[key := created name]> (field (server s)))
         \/ (exists o,
               List.filter sel (map_to_list (field (server s))).*2 = [o]
               /\ field (server s) !! key = Some o
               /\ name = nameOf o
               /\ rng s' = rng s
               /\ field (server s') = <[key := updated o]> (field (server s)))
     end.
Proof.
  intros Hnamed Hsel. unfold deriveObject, bind, request, requestErr, ret.
  destruct (listObjects field sel (server s)) as [ritems a1] eqn:Hlist.
  apply listObjects_any in Hlist as (Hf1 & Hfr1 & Hitems).
  destruct ritems as [items|e]; simpl; [|by intros [= <- <-]].
  specialize (Hitems _ eq_refl). unfold nameFromObjects, getInstantiatedObjectName.
  simpl. destruct items as [|o [|o' items]]; simpl.
  - destruct (RandomString nameLength (rng s)) as [rnd g] eqn:Hrnd. simpl.
    destruct (createObject _ _ _ _ a1) as [e a2] eqn:Hcreate.
    apply createObject_any in Hcreate as (Hfr2 & Hok & Hfail).
    destruct e as [e|]; intros [= <- <-]; simpl; rewrite Hfr2, Hfr1.
    + split; [done|]. by rewrite (Hfail ltac:(done)).
    + split; [done|]. destruct (Hok eq_refl) as [Hnone ->].
      rewrite Hf1 in *. left. by split_and!.
  - destruct (getObject field (ReportNamespace, nameOf o) a1)
      as [rcur a2] eqn:Hget.
    apply getObject_any in Hget as (Hf2 & Hfr2 & Hcur).
    destruct rcur as [current|e]; simpl.
    2:{ intros [= <- <-]. simpl. by rewrite Hf2, Hfr2, Hf1, Hfr1. }
    specialize (Hcur _ eq_refl). rewrite Hf1 in Hcur.
    assert (o ∈ List.filter sel (map_to_list (field (server s))).*2) as Hin.
    { rewrite <- Hitems. set_solver. }
    apply elem_of_List_filter in Hin as [Hino Hselo].
    apply list_elem_of_fmap in Hino as ([k o0] & -> & Hino).
    apply elem_of_map_to_list in Hino. simpl in *.
    pose proof (Hnamed _ _ Hino) as Hk. rewrite (Hsel _ Hselo) in Hk. subst k.
    assert (current = o0) as -> by congruence.
    rewrite (Hsel _ Hselo).
    destruct (updateObject _ _ _ _ a2) as [e a3] eqn:Hupd.
    apply updateObject_any in Hupd as (Hfr3 & Hok & Hfail).
    destruct e as [e|]; intros [= <- <-]; simpl; rewrite Hfr3, Hfr2, Hfr1.
    + split; [done|]. by rewrite (Hfail ltac:(done)), Hf2.
    + split; [done|]. destruct (Hok eq_refl) as [_ ->]. rewrite Hf2, Hf1.
      right. exists o0. by split_and!.
  - intros [= <- <-]. simpl. by rewrite Hf1, Hfr1.
Qed.

Lemma deriveObject_frame (s : Mgmt G) r s' :
  deriveObject field setField sel nameOf keyOf created updated s = (r, s') ->
  frame (server s') = frame (server s).
Proof.
  unfold deriveObject, bind, request, requestErr, ret.
  destruct (listObjects field sel (server s)) as [ritems a1] eqn:Hlist.
  apply listObjects_any in Hlist as (_ & Hfr1 & _).
  destruct ritems as [items|e]; simpl; [|by intros [= <- <-]].
  unfold nameFromObjects.
  destruct (getInstantiatedObjectName _ _) as [[[name create] [e|]] g]; simpl.
  { by intros [= <- <-]. }
  destruct create; simpl.
  - destruct (createObject _ _ _ _ a1) as [e a2] eqn:Hcreate.
    apply createObject_any in Hcreate as (Hfr2 & _).
    destruct e; intros [= <- <-]; simpl; by rewrite Hfr2.
  - destruct (getObject field (ReportNamespace, name) a1)
      as [rcur a2] eqn:Hget.
    apply getObject_any in Hget as (_ & Hfr2 & _).
    destruct rcur as [current|e]; simpl.
    2:{ intros [= <- <-]. simpl. by rewrite Hfr2. }
    destruct (updateObject _ _ _ _ a2) as [e a3] eqn:Hupd.
    apply updateObject_any in Hupd as (Hfr3 & _).
    destruct e; intros [= <- <-]; simpl; by rewrite Hfr3, Hfr2.
Qed.

End DeriveFacts.

Section DeriveAgain.
Context {G : Type} `{!Random G} {V F : Type}.
Context (field : ApiServer -> gmap (string * string) V).
Context (setField : ApiServer -> gmap (string * string) V -> ApiServer).
Context (frame : ApiServer -> F).
Context (sel : V -> bool) (nameOf : V -> string) (keyOf : V -> string * string).
Context (created created' : string -> V) (updated updated' : V -> V).

Hypothesis field_set : forall a v, field (setField a v) = v.
Hypothesis field_setFaults : forall a fs, field (setFaults a fs) = field a.
Hypothesis frame_set : forall a v, frame (setField a v) = frame a.
Hypothesis frame_setFaults : forall a fs, frame (setFaults a fs) = frame a.

(** The objects written are selected and stored under their key. *)
Hypothesis sel_key : forall v, sel v = true -> keyOf v = (ReportNamespace, nameOf v).
Hypothesis created_sel : forall name, sel (created name) = true.
Hypothesis created_key : forall name, keyOf (created name) = (ReportNamespace, name).
Hypothesis updated_sel : forall o, sel o = true -> sel (updated o) = true.
Hypothesis updated_key : forall o, keyOf (updated o) = keyOf o.

(** After a successful run one object is selected, the one it wrote,
    and the objects are still stored under their keys. *)
Lemma deriveObject_unique (s : Mgmt G) name s' :
  (forall k v, field (server s) !! k = Some v -> keyOf v = k) ->
  deriveObject field setField sel nameOf keyOf created updated s = (ok name, s') ->
  (forall k v, field (server s') !! k = Some v -> keyOf v = k)
  /\ exists o,
       field (server s') !! (ReportNamespace, name) = Some o
       /\ List.filter sel (map_to_list (field (server s'))).*2 = [o].
Proof.
  intros Hnamed Hrun.
  apply (deriveObject_spec field setField frame) in Hrun
    as [_ [(Hnil & Hnone & _ & Hs')|(o & Hone & Hsome & Hname & _ & Hs')]];
    try done.
  - split.
    + intros k v. rewrite Hs'. intros [[<- <-]|[_ Hl]]%lookup_insert_Some;
        [apply created_key|by apply Hnamed].
    + exists (created name). rewrite Hs'. split; [apply lookup_insert_eq|].
      apply Permutation_singleton_r.
      rewrite (List_filter_Permutation _ _ _ (values_insert_fresh _ _ _ Hnone)).
      simpl. by rewrite created_sel, Hnil.
  - assert (keyOf o = (ReportNamespace, name)) as Hkey by by apply Hnamed.
    split.
    + intros k v. rewrite Hs'. intros [[<- <-]|[_ Hl]]%lookup_insert_Some;
        [by rewrite updated_key|by apply Hnamed].
    + exists (updated o). rewrite Hs'. split; [apply lookup_insert_eq|].
      apply Permutation_singleton_r.
      rewrite (List_filter_Permutation _ _ _ (values_insert_present _ _ _)).
      pose proof (List_filter_Permutation sel _ _ (values_lookup _ _ _ Hsome))
        as Hperm.
      rewrite Hone in Hperm. simpl in Hperm.
      assert (sel o = true) as Hselo.
      { assert (o ∈ List.filter sel (map_to_list (field (server s))).*2) as Hin
          by (rewrite Hone; set_solver).
        by apply elem_of_List_filter in Hin as [_ ?]. }
      rewrite Hselo in Hperm. apply Permutation_cons_inv, Permutation_nil_l in Hperm.
      simpl. by rewrite (updated_sel _ Hselo), <- Hperm.
Qed.

(** A second run, whatever it writes, finds the object of the first:
    it adds no key, and when it succeeds it answers the same name and
    draws no random name. *)
Lemma deriveObject_again (s : Mgmt G) name s1 r s2 :
  (forall k v, field (server s) !! k = Some v -> keyOf v = k) ->
  deriveObject field setField sel nameOf keyOf created updated s = (ok name, s1) ->
  deriveObject field setField sel nameOf keyOf created' updated' s1 = (r, s2) ->
  dom (field (server s2)) = dom (field (server s1))
  /\ (forall name2, r = ok name2 -> name2 = name /\ rng s2 = rng s1).
Proof.
  intros Hnamed Hrun1 Hrun2.
  destruct (deriveObject_unique _ _ _ Hnamed Hrun1) as (Hnamed1 & o & Ho & Hone).
  apply (deriveObject_spec field setField frame) in Hrun2 as [_ Hrun2];
    try done.
  destruct r as [name2|e]; [|by rewrite Hrun2].
  destruct Hrun2 as [(Hnil & _)|(o2 & Hone2 & Hsome & Hname & Hrng & Hs2)];
    [congruence|].
  rewrite Hone in Hone2. injection Hone2 as <-.
  pose proof (Hnamed1 _ _ Ho) as Hk1. pose proof (Hnamed1 _ _ Hsome) as Hk2.
  assert (name2 = name) as -> by congruence.
  split.
  - rewrite Hs2. apply dom_insert_lookup_L. eauto.
  - by intros ? [= <-].
Qed.

End DeriveAgain.

Section PolicyFacts.
Context {G : Type} `{!Random G}.
Context `{!ClusterProxy} `{!UnstructuredObjects} `{!PolicyTemplates}.

(** [instantiateTemplateResourceRefs] succeeds exactly when every name
    instantiates; it then answers one entry per entry, in order, each
    with its namespace resolved and its name instantiated. *)
Theorem instantiateTemplateResourceRefs_entries templateName clusterContent
    data templateResourceRefs instantiated :
  Policies.instantiateTemplateResourceRefs templateName clusterContent data
    templateResourceRefs = ok instantiated
  <-> Forall2 (instantiatedRef templateName clusterContent data)
        templateResourceRefs instantiated.
Proof.
  revert instantiated.
  induction templateResourceRefs as [|ref rest IH]; intros instantiated; simpl.
  - split; [by intros [= <-]; constructor|by inversion 1].
  - split.
    + intros Hrun.
      destruct (parseTemplate templateName
                  (Name (TemplateResourceRef.Resource ref))) as [tmpl|e] eqn:Hp;
        [|done].
      destruct (executeParsed tmpl data) as [buffer|e] eqn:He; [|done].
      destruct (Policies.instantiateTemplateResourceRefs templateName
                  clusterContent data rest) as [out|e]; [|done].
      injection Hrun as <-. constructor; [|by apply IH].
      exists buffer. unfold Policies.instantiateSection. by rewrite Hp.
    + intros Hall. inversion Hall as [|? out ? outs Hhead Hrest]; subst.
      destruct Hhead as (name & Hname & ->).
      unfold Policies.instantiateSection in Hname.
      destruct (parseTemplate templateName
                  (Name (TemplateResourceRef.Resource ref))) as [tmpl|e];
        [|done].
      rewrite Hname. apply IH in Hrest. by rewrite Hrest.
Qed.

Lemma instantiateReferencedPolicy_derive ref templateName data labels
    (s : Mgmt G) :
  Policies.instantiateReferencedPolicy ref templateName data labels s
  = match Policies.instantiateDataSection templateName
            (Policies.getDataSection ref) data with
    | fail e => (fail e, s)
    | ok content =>
        match derivePolicy ref (Policies.referencedLabels ref labels)
                content s with
        | (ok name, s') =>
            (ok (ReportNamespace, name, Policies.referencedLabels ref labels),
             s')
        | (fail e, s') => (fail e, s')
        end
    end.
Proof.
  unfold Policies.instantiateReferencedPolicy, bind, liftResult.
  destruct (Policies.instantiateDataSection _ _ _) as [content|e]; [|done].
  destruct ref as [cm|secret]; simpl;
    unfold Policies.getResourceName, getConfigMapName, getSecretName,
      deriveObject, bind;
    match goal with
    | |- context [request ?m s] => destruct (request m s) as [[items|e] s1]
    end; try done;
    destruct (nameFromObjects _ s1) as [[[name create]|e] s2]; try done;
    destruct create; simpl;
      unfold Policies.createConfigMap, Policies.createSecret,
        Policies.updateConfigMap, Policies.updateSecret, bind;
      unfold policyAnnotations;
      repeat match goal with
        | |- context [requestErr ?m ?st] =>
            destruct (requestErr m st) as [[?|?] ?]; simpl
        | |- context [request ?m ?st] =>
            destruct (request m st) as [[?|?] ?]; simpl
        end; done.
Qed.

Lemma secretData_roundtrip (content : gmap string string) :
  string_of_bytes <$> (bytes_of_string <$> content) = content.
Proof.
  rewrite <- map_fmap_compose. rewrite <- (map_fmap_id content) at 2.
  apply map_fmap_ext. intros k v _. apply String.string_of_list_byte_of_string.
Qed.

Lemma referencedLabels_like (labels : gmap string string) (namespace : string) :
  matchesLabels labels (Some labels) && bool_decide (namespace = namespace)
  = true.
Proof.
  apply andb_true_intro. split; [by apply matchesLabels_subseteq|].
  by apply bool_decide_eq_true_2.
Qed.

(** What [derivePolicy] does to the management cluster. *)
Lemma derivePolicy_outcome ref labels content (s : Mgmt G) r s' :
  derivedNamed (server s) = true ->
  derivePolicy ref labels content s = (r, s') ->
  storedEventTriggers (server s') = storedEventTriggers (server s)
  /\ storedClusterProfiles (server s') = storedClusterProfiles (server s)
  /\ storedEventReports (server s') = storedEventReports (server s)
  /\ storedEventSources (server s') = storedEventSources (server s)
  /\ match r with
     | fail _ =>
         forall ref' key,
           storedPolicy ref' key (server s') = storedPolicy ref' key (server s)
     | ok name =>
         exists o,
           storedPolicy ref (ReportNamespace, name) (server s') = Some o
           /\ policyNamespace o = ReportNamespace
           /\ policyName o = name
           /\ policyLabels o = Some labels
           /\ Policies.getDataSection o = Some content
           /\ policyAnnotations o
              = match storedPolicy ref (ReportNamespace, name) (server s) with
                | Some old => policyAnnotations old
                | None => policyAnnotations ref
                end
           /\ (forall ref' key,
                 sameKind ref' ref = false \/ key <> (ReportNamespace, name) ->
                 storedPolicy ref' key (server s')
                 = storedPolicy ref' key (server s))
     end.
Proof.
  intros Hnamed Hrun.
  destruct (derivedNamed_elim _ Hnamed) as (_ & Hcm & Hsec).
  destruct ref as [cm|secret]; simpl in Hrun.
  - apply (deriveObject_spec storedConfigMaps setConfigMaps
             (fun a => (storedEventTriggers a, storedClusterProfiles a,
                        storedSecrets a, storedEventReports a,
                        storedEventSources a))) in Hrun
      as [[= Ht Hcp Hs Her Hes] Hr]; try done.
    2:{ intros v [_ Hns%bool_decide_eq_true_1]%andb_prop. by rewrite Hns. }
    split_and!; try done. destruct r as [name|e].
    + destruct Hr as [(_ & Hnone & _ & Hs')|(o & _ & Hsome & -> & _ & Hs')].
      * eexists (PolicyConfigMap _). simpl. rewrite Hs', lookup_insert_eq, Hnone.
        split_and!; try done.
        intros [cm'|secret'] key [Hkind|Hkey]; simpl; try done;
          [|by rewrite Hs|by rewrite Hs].
        by rewrite Hs', lookup_insert_ne.
      * pose proof (Hcm _ _ Hsome) as [= Hns].
        eexists (PolicyConfigMap _). simpl. rewrite Hs', lookup_insert_eq, Hsome.
        split_and!; try done.
        intros [cm'|secret'] key [Hkind|Hkey]; simpl; try done;
          [|by rewrite Hs|by rewrite Hs].
        by rewrite Hs', lookup_insert_ne.
    + intros [cm'|secret'] key; simpl; by rewrite ?Hr, ?Hs.
  - apply (deriveObject_spec storedSecrets setSecrets
             (fun a => (storedEventTriggers a, storedClusterProfiles a,
                        storedConfigMaps a, storedEventReports a,
                        storedEventSources a))) in Hrun
      as [[= Ht Hcp Hs Her Hes] Hr]; try done.
    2:{ intros v [_ Hns%bool_decide_eq_true_1]%andb_prop. by rewrite Hns. }
    split_and!; try done. destruct r as [name|e].
    + destruct Hr as [(_ & Hnone & _ & Hs')|(o & _ & Hsome & -> & _ & Hs')].
      * eexists (PolicySecret _). simpl. rewrite Hs', lookup_insert_eq, Hnone.
        split_and!; try done.
        { simpl. by rewrite secretData_roundtrip. }
        intros [cm'|secret'] key [Hkind|Hkey]; simpl; try done;
          [by rewrite Hs|by rewrite Hs|].
        by rewrite Hs', lookup_insert_ne.
      * pose proof (Hsec _ _ Hsome) as [= Hns].
        eexists (PolicySecret _). simpl. rewrite Hs', lookup_insert_eq, Hsome.
        split_and!; try done.
        { simpl. by rewrite secretData_roundtrip. }
        intros [cm'|secret'] key [Hkind|Hkey]; simpl; try done;
          [by rewrite Hs|by rewrite Hs|].
        by rewrite Hs', lookup_insert_ne.
    + intros [cm'|secret'] key; simpl; by rewrite ?Hr, ?Hs.
Qed.

(** [instantiateReferencedPolicy] writes one object of the kind of the
    reference, in the report namespace, and nothing else; when it fails
    it writes nothing. The object it leaves carries the labels it was
    given together with the namespace and the name of the reference,
    and the instantiated data section; an object that was already there
    keeps its annotations, a new one gets those of the reference. *)
Theorem instantiateReferencedPolicy_outcome ref templateName data labels
    (s : Mgmt G) r s' :
  derivedNamed (server s) = true ->
  Policies.instantiateReferencedPolicy ref templateName data labels s = (r, s') ->
  storedEventTriggers (server s') = storedEventTriggers (server s)
  /\ storedClusterProfiles (server s') = storedClusterProfiles (server s)
  /\ storedEventReports (server s') = storedEventReports (server s)
  /\ storedEventSources (server s') = storedEventSources (server s)
  /\ match r with
     | fail _ =>
         forall ref' key,
           storedPolicy ref' key (server s') = storedPolicy ref' key (server s)
     | ok (namespace, name, labels') =>
         namespace = ReportNamespace
         /\ labels' = Policies.referencedLabels ref labels
         /\ exists content o,
              Policies.instantiateDataSection templateName
                (Policies.getDataSection ref) data = ok content
              /\ storedPolicy ref (ReportNamespace, name) (server s') = Some o
              /\ policyNamespace o = ReportNamespace
              /\ policyName o = name
              /\ policyLabels o = Some labels'
              /\ Policies.getDataSection o = Some content
              /\ policyAnnotations o
                 = match storedPolicy ref (ReportNamespace, name) (server s) with
                   | Some old => policyAnnotations old
                   | None => policyAnnotations ref
                   end
              /\ (forall ref' key,
                    sameKind ref' ref = false \/ key <> (ReportNamespace, name) ->
                    storedPolicy ref' key (server s')
                    = storedPolicy ref' key (server s))
     end.
Proof.
  intros Hnamed. rewrite instantiateReferencedPolicy_derive.
  destruct (Policies.instantiateDataSection _ _ _) as [content|e].
  2:{ by intros [= <- <-]. }
  destruct (derivePolicy _ _ _ s) as [r0 s0] eqn:Hrun.
  apply derivePolicy_outcome in Hrun as (Ht & Hcp & Her & Hes & Hr); [|done].
  destruct r0 as [name|e]; intros [= <- <-]; split_and!; try done.
  destruct Hr as (o & Ho). by exists content, o.
Qed.

Lemma derivePolicy_again ref ref' labels content content' (s : Mgmt G)
    name s1 r s2 :
  derivedNamed (server s) = true ->
  sameKind ref' ref = true ->
  derivePolicy ref labels content s = (ok name, s1) ->
  derivePolicy ref' labels content' s1 = (r, s2) ->
  storedPolicyNames ref (server s2) = storedPolicyNames ref (server s1)
  /\ (forall name2, r = ok name2 -> name2 = name /\ rng s2 = rng s1).
Proof.
  intros Hnamed Hkind Hrun1 Hrun2.
  destruct (derivedNamed_elim _ Hnamed) as (_ & Hcm & Hsec).
  destruct ref as [cm|secret], ref' as [cm'|secret']; try done;
    unfold derivePolicy in Hrun1, Hrun2; unfold storedPolicyNames.
  - eapply (deriveObject_again storedConfigMaps setConfigMaps (fun _ => tt));
      [..|exact Hrun1|exact Hrun2]; try done.
    + intros v [_ Hns%bool_decide_eq_true_1]%andb_prop. by rewrite Hns.
    + intros name0. apply referencedLabels_like.
    + intros o [_ Hns]%andb_prop. apply andb_true_intro.
      split; [by apply matchesLabels_subseteq|done].
  - eapply (deriveObject_again storedSecrets setSecrets (fun _ => tt));
      [..|exact Hrun1|exact Hrun2]; try done.
    + intros v [_ Hns%bool_decide_eq_true_1]%andb_prop. by rewrite Hns.
    + intros name0. apply referencedLabels_like.
    + intros o [_ Hns]%andb_prop. apply andb_true_intro.
      split; [by apply matchesLabels_subseteq|done].
Qed.

(** A second [instantiateReferencedPolicy] for the same reference and
    labels finds the object the first one left: it adds no object, and
    when it succeeds it answers the same name and draws no random name,
    whatever the template, the data or the content now are. *)
Theorem instantiateReferencedPolicy_again ref ref' templateName templateName'
    data data' labels (s : Mgmt G) out s1 r s2 :
  derivedNamed (server s) = true ->
  sameKind ref' ref = true ->
  policyNamespace ref' = policyNamespace ref ->
  policyName ref' = policyName ref ->
  Policies.instantiateReferencedPolicy ref templateName data labels s
  = (ok out, s1) ->
  Policies.instantiateReferencedPolicy ref' templateName' data' labels s1
  = (r, s2) ->
  storedPolicyNames ref (server s2) = storedPolicyNames ref (server s1)
  /\ (forall out2, r = ok out2 -> out2 = out /\ rng s2 = rng s1).
Proof.
  intros Hnamed Hkind Hns Hname. rewrite !instantiateReferencedPolicy_derive.
  assert (Policies.referencedLabels ref' labels
          = Policies.referencedLabels ref labels) as ->.
  { unfold Policies.referencedLabels. by rewrite Hns, Hname. }
  destruct (Policies.instantiateDataSection templateName _ data)
    as [content|e]; [|done].
  destruct (derivePolicy ref _ content s) as [[name|e] s0] eqn:Hrun1; [|done].
  intros [= <- <-].
  destruct (Policies.instantiateDataSection templateName' _ data')
    as [content'|e].
  2:{ by intros [= <- <-]. }
  destruct (derivePolicy ref' _ content' s0) as [r0 s3] eqn:Hrun2.
  destruct (derivePolicy_again _ _ _ _ _ _ _ _ _ _ Hnamed Hkind Hrun1 Hrun2)
    as [Hdom Hsame].
  destruct r0 as [name2|e]; intros [= <- <-]; (split; [done|]); [|done].
  intros out2 [= <-]. by destruct (Hsame _ eq_refl) as [-> ->].
Qed.

Lemma instantiateResourcesLoop_plain templateName resources data labels
    result (s : Mgmt G) :
  Forall (fun ref => Policies.isTemplate ref = false) resources ->
  Policies.instantiateResourcesLoop templateName resources data labels result s
  = (ok (list_to_set (plainReference <$> resources) ∪ result, labels), s).
Proof.
  revert result. induction resources as [|ref rest IH]; intros result Hplain.
  - simpl. unfold ret. do 3 f_equal. set_solver.
  - apply Forall_cons in Hplain as [Hhead Hrest]. simpl.
    destruct (ToAPIVersionAndKind ref) as [apiVersion kind] eqn:Hgvk.
    rewrite Hhead. simpl. unfold bind, ret at 1. rewrite (IH _ Hrest).
    do 3 f_equal. unfold plainReference, policyReference. rewrite Hgvk. simpl.
    set_solver.
Qed.

(** When no referenced object is a template, [instantiateResources]
    sends no request and draws no name: it answers the references to
    the objects themselves and leaves the labels as they are. *)
Theorem instantiateResources_plain templateName resources data labels
    (s : Mgmt G) :
  Forall (fun ref => Policies.isTemplate ref = false) resources ->
  Policies.instantiateResources templateName resources data labels s
  = (ok (list_to_set (plainReference <$> resources), labels), s).
Proof.
  intros Hplain. unfold Policies.instantiateResources.
  rewrite (instantiateResourcesLoop_plain _ _ _ _ _ _ Hplain).
  do 3 f_equal. set_solver.
Qed.

Lemma derivePolicy_frame ref labels content (s : Mgmt G) r s' :
  derivePolicy ref labels content s = (r, s') ->
  storedEventTriggers (server s') = storedEventTriggers (server s)
  /\ storedClusterProfiles (server s') = storedClusterProfiles (server s)
  /\ storedEventReports (server s') = storedEventReports (server s)
  /\ storedEventSources (server s') = storedEventSources (server s).
Proof.
  destruct ref as [cm|secret]; simpl; intros Hrun.
  - by apply (deriveObject_frame storedConfigMaps setConfigMaps
                (fun a => (storedEventTriggers a, storedClusterProfiles a,
                           storedEventReports a, storedEventSources a)))
      in Hrun as [= -> -> -> ->].
  - by apply (deriveObject_frame storedSecrets setSecrets
                (fun a => (storedEventTriggers a, storedClusterProfiles a,
                           storedEventReports a, storedEventSources a)))
      in Hrun as [= -> -> -> ->].
Qed.

Lemma instantiateResourcesLoop_spec templateName resources :
  forall data labels result (s : Mgmt G) r s',
  Policies.instantiateResourcesLoop templateName resources data labels result s
  = (r, s') ->
  (storedEventTriggers (server s') = storedEventTriggers (server s)
   /\ storedClusterProfiles (server s') = storedClusterProfiles (server s)
   /\ storedEventReports (server s') = storedEventReports (server s)
   /\ storedEventSources (server s') = storedEventSources (server s))
  /\ match r with
     | ok (refs, labels') =>
         labels' = labelsAfter resources labels
         /\ (forall o, o ∈ refs ->
               o ∈ result \/ exists ref, ref ∈ resources /\ referenceFor ref o)
         /\ result ⊆ refs
         /\ (forall ref, ref ∈ resources ->
               exists o, o ∈ refs /\ referenceFor ref o)
     | fail _ => True
     end.
Proof.
  induction resources as [|ref rest IH]; intros data labels result s r s'; simpl.
  - intros [= <- <-]. split; [done|]. split_and!; try done; [by left|].
    by intros ref ?%elem_of_nil.
  - destruct (ToAPIVersionAndKind ref) as [apiVersion kind] eqn:Hgvk.
    unfold bind at 1.
    destruct (Policies.isTemplate ref) eqn:Htemplate; simpl.
    + rewrite instantiateReferencedPolicy_derive.
      destruct (Policies.instantiateDataSection _ _ _) as [content|e].
      2:{ by intros [= <- <-]. }
      destruct (derivePolicy _ _ _ s) as [[name|e] s0] eqn:Hrun.
      2:{ apply derivePolicy_frame in Hrun. by intros [= <- <-]. }
      apply derivePolicy_frame in Hrun as (Ht & Hcp & Her & Hes).
      intros Hloop. apply IH in Hloop as [(Ht' & Hcp' & Her' & Hes') Hr].
      split; [by rewrite Ht', Hcp', Her', Hes'|].
      destruct r as [[refs labels']|e]; [|done].
      destruct Hr as (-> & Hfrom & Hsub & Hall).
      assert (referenceFor ref (mkRef kind ReportNamespace name "" apiVersion "" ""))
        as Hhead.
      { unfold referenceFor, policyReference. by rewrite Htemplate, Hgvk. }
      split_and!.
      * unfold labelsAfter. simpl. by rewrite ?Htemplate.
      * intros o [Hin|(ref' & Hin & Hfor)]%Hfrom.
        -- apply elem_of_union in Hin as [->%elem_of_singleton|Hin];
             [|by left].
           right. exists ref. split; [left|done].
        -- right. exists ref'. split; [by right|done].
      * set_solver.
      * intros ref' [->|Hin]%elem_of_cons; [|by apply Hall].
        eexists. split; [|exact Hhead]. set_solver.
    + intros Hloop. apply IH in Hloop as [Hframe Hr].
      split; [done|].
      destruct r as [[refs labels']|e]; [|done].
      destruct Hr as (-> & Hfrom & Hsub & Hall).
      assert (referenceFor ref
                (mkRef kind (policyNamespace ref) (policyName ref) ""
                   apiVersion "" "")) as Hhead.
      { unfold referenceFor, plainReference, policyReference.
        by rewrite Htemplate, Hgvk. }
      split_and!.
      * unfold labelsAfter. simpl. by rewrite ?Htemplate.
      * intros o [Hin|(ref' & Hin & Hfor)]%Hfrom.
        -- apply elem_of_union in Hin as [->%elem_of_singleton|Hin];
             [|by left].
           right. exists ref. split; [left|done].
        -- right. exists ref'. split; [by right|done].
      * set_solver.
      * intros ref' [->|Hin]%elem_of_cons; [|by apply Hall].
        eexists. split; [|exact Hhead]. set_solver.
Qed.

(** [instantiateResources] writes ConfigMaps and Secrets only. When it
    succeeds, the references it answers are those of the referenced
    objects, one for each: to the object itself when it is not a
    template, to an object of the report namespace when it is. The
    labels it leaves to its caller carry the namespace and the name of
    the last template in the list. *)
Theorem instantiateResources_labels templateName resources data labels
    (s : Mgmt G) r s' :
  Policies.instantiateResources templateName resources data labels s = (r, s') ->
  (storedEventTriggers (server s') = storedEventTriggers (server s)
   /\ storedClusterProfiles (server s') = storedClusterProfiles (server s)
   /\ storedEventReports (server s') = storedEventReports (server s)
   /\ storedEventSources (server s') = storedEventSources (server s))
  /\ match r with
     | ok (refs, labels') =>
         labels' = labelsAfter resources labels
         /\ (forall o, o ∈ refs ->
               exists ref, ref ∈ resources /\ referenceFor ref o)
         /\ (forall ref, ref ∈ resources ->
               exists o, o ∈ refs /\ referenceFor ref o)
     | fail _ => True
     end.
Proof.
  intros Hrun. apply instantiateResourcesLoop_spec in Hrun as [Hframe Hr].
  split; [done|]. destruct r as [[refs labels']|e]; [|done].
  destruct Hr as (-> & Hfrom & _ & Hall). split_and!; try done.
  intros o [Hin|Hin]%Hfrom; [set_solver|done].
Qed.

End PolicyFacts.
(** ** The facts above on the concrete inputs of [JobScenario] *)

Section JobRuns.
Import Fixture Scenario JobFixture JobScenario.
#[local] Existing Instance dispatcher.
#[local] Existing Instance clusterProxy.
#[local] Existing Instance runtime.
#[local] Existing Instance render.
#[local] Existing Instance noReferences.
#[local] Existing Instance keys.
#[local] Existing Instance ownerRefs.
#[local] Existing Instance selectors.
#[local] Existing Instance random.
#[local] Existing Instance unstructured.
#[local] Existing Instance templates.
#[local] Existing Instance eventSources.

(** The undeploy of [JobScenario.undeployRun] reports no error: its
    entry is Removed. *)
Lemma undeployEventTrigger_removed_witness :
  Forall (fun c' => Status c' = SveltosStatusRemoved) undeployRun.1.1.
Proof.
  destruct (undeployEventTrigger_removed reconciler (trigger [] [])
              eventTriggerFeature [entryOf "a"] (world [])
              undeployRun.1.1 undeployRun.1.2 undeployRun.2) as [_ Hall].
  { vm_compute. reflexivity. }
  apply Hall. vm_compute. reflexivity.
Defined.

(** The entry of the other shard is not yet Removed: it is returned as
    it was and the undeploy reports an error. *)
Lemma undeployEventTrigger_foreign_witness :
  undeployForeignRun.1.1 !! 0%nat = Some foreignEntry
  /\ undeployForeignRun.1.2 <> None.
Proof.
  destruct (undeployEventTrigger_foreign reconciler (trigger [] [])
              eventTriggerFeature [foreignEntry] (world [])
              undeployForeignRun.1.1 undeployForeignRun.1.2
              undeployForeignRun.2) as [Hentry _].
  { vm_compute. reflexivity. }
  apply (Hentry 0%nat foreignEntry eq_refl).
  - vm_compute. reflexivity.
  - vm_compute. discriminate.
Defined.

(** The trigger of [JobScenario.removeRun] has no entry for [c1]: the
    run returns neither a ClusterInfo nor an error, and asks the
    dispatcher twice. *)
Lemma removeEventTrigger_nil_error_witness :
  removeRun.1.1 = None
  /\ api removeRun.2 = api (world [])
  /\ calls removeRun.2
     = [CallCleanupEntries (keyOf c1 false); CallIsInProgress (keyOf c1 false)].
Proof.
  destruct (removeEventTrigger_nil_error (trigger [] []) c1 eventTriggerFeature
              (world []) removeRun.1.1 removeRun.2)
    as [(Hinfo & _ & Hapi & Hcalls)|(_ & Hentry & _)].
  { vm_compute. reflexivity. }
  - refine (conj Hinfo (conj Hapi _)). rewrite Hcalls. vm_compute. reflexivity.
  - vm_compute in Hentry. discriminate.
Defined.

(** Every call of [Scenario.changedRun] is for the trigger and [c1]. *)
Lemma processEventTrigger_dispatcher_scope_witness :
  exists new,
    calls changedRun.2 = calls (world []) ++ new
    /\ Forall (dispatcherCallFor (trigger [c1] [outdatedEntry]) c1
                 eventTriggerFeature true) new.
Proof.
  apply (processEventTrigger_dispatcher_scope (trigger [c1] [outdatedEntry]) c1
           eventTriggerFeature (world []) changedRun.1 changedRun.2).
  vm_compute. reflexivity.
Defined.

(** [Scenario.changedRun] leaves the management cluster as it was. *)
Lemma processEventTrigger_api_witness :
  api changedRun.2 = api (world []).
Proof.
  destruct (processEventTrigger_api (trigger [c1] [outdatedEntry]) c1
              eventTriggerFeature (world []) changedRun.1 changedRun.2)
    as [Hapi|[Hmatch _]].
  { vm_compute. reflexivity. }
  - exact Hapi.
  - vm_compute in Hmatch. discriminate.
Defined.

(** [Scenario.foreignPass] returns entries for the clusters it got. *)
Lemma deployEventTrigger_keeps_clusters_witness :
  Cluster <$> CIs foreignPass.1.2 = Cluster <$> CIs foreignTrigger.
Proof.
  apply (deployEventTrigger_keeps_clusters reconciler foreignTrigger
           eventTriggerFeature (world []) foreignPass.1.1 foreignPass.1.2
           foreignPass.2).
  vm_compute. reflexivity.
Defined.

(** [triggerA] and [triggerB] differ in the status and the hash of
    their entry for [c1] only. *)
Lemma removeEventTrigger_reads_witness :
  removeEventTrigger triggerA c1 eventTriggerFeature (world [])
  = removeEventTrigger triggerB c1 eventTriggerFeature (world []).
Proof.
  apply (removeEventTrigger_reads triggerA triggerB c1 eventTriggerFeature
           (world [])); vm_compute; reflexivity.
Defined.

(** The report of [JobScenario.apiWithReport] is the only object and is
    selected: nothing else changes. *)
Lemma removeStaleEventReports_clears_witness :
  managementObjects reportsRun.2 = managementObjects apiWithReport
  /\ storedEventSources reportsRun.2 = storedEventSources apiWithReport.
Proof.
  destruct (removeStaleEventReports_clears "shardA" "c1" "es-old"
              ClusterTypeCapi apiWithReport reportsRun.1 reportsRun.2)
    as (Hm & Hs & _); [vm_compute; reflexivity..|].
  by split.
Defined.

(** The clean-up of [Scenario.cleanupRun] touches EventSources and
    EventReports only. *)
Lemma removeStaleEventSources_touches_witness :
  managementObjects cleanupRun.2 = managementObjects apiWithEventSource
  /\ storedEventReports cleanupRun.2 ⊆ storedEventReports apiWithEventSource.
Proof.
  destruct (removeStaleEventSources_touches "shardA" "c1" ClusterTypeCapi
              (trigger [] []) true apiWithEventSource
              cleanupRun.1 cleanupRun.2)
    as (Hm & Hr & _); [vm_compute; reflexivity..|].
  by split.
Defined.

(** The managed cluster of [JobScenario.createRun] has no EventSource:
    the referenced one is created with the trigger as owner. *)
Lemma createOrUpdateEventSource_stored_witness :
  storedEventSources createRun.2 !! "es1"
  = Some (createdEventSource (trigger [] []) referenced).
Proof.
  destruct (createOrUpdateEventSource_stored (trigger [] []) referenced
              emptyApi createRun.1 createRun.2)
    as (_ & _ & _ & _ & Hok & _); [vm_compute; reflexivity..|].
  apply Hok. vm_compute. reflexivity.
Defined.

(** The job of [JobScenario.jobRun] deploys [es1]. *)
Lemma processEventTriggerForCluster_outcome_witness :
  managementObjects jobRun.2 = managementObjects apiWithTrigger
  /\ storedEventReports jobRun.2 ⊆ storedEventReports apiWithTrigger.
Proof.
  destruct (processEventTriggerForCluster_outcome "shardA" "c1" "t1"
              ClusterTypeCapi apiWithTrigger jobRun.1 jobRun.2)
    as (Hm & Hr & _); [vm_compute; reflexivity..|].
  by split.
Defined.

(** The sweep of [JobScenario.sweepRun] keeps the EventTriggers. *)
Lemma removeInstantiatedResources_keeps_witness :
  storedEventTriggers (server sweepRun.2) = storedEventTriggers apiWithProfile
  /\ storedEventSources (server sweepRun.2) = storedEventSources apiWithProfile.
Proof.
  destruct (removeInstantiatedResources_keeps "shardA" "c1" ClusterTypeCapi
              (trigger [c1] []) (Some deletedReport) []
              (mkMgmt apiWithProfile 0%nat) sweepRun.1 sweepRun.2)
    as (Ht & _ & Hs & _); [vm_compute; reflexivity..|].
  by split.
Defined.

(** The job of [JobScenario.cleanupJobRun] finds the trigger [t1] and
    succeeds. *)
Lemma undeployEventTriggerResourcesFromCluster_clears_witness :
  derivedClearedFor
    (triggerClusterLabels "shardA" "c1" ClusterTypeCapi (trigger [] []))
    (server cleanupJobRun.2).
Proof.
  pose proof (undeployEventTriggerResourcesFromCluster_clears "shardA" "c1"
                "t1" ClusterTypeCapi (mkMgmt apiWithTriggerAndProfile 0%nat)
                cleanupJobRun.2) as Hjob.
  destruct Hjob as [Hcleared _]; [vm_compute; reflexivity..|].
  exact Hcleared.
Defined.

(** The Namespace [web] and the Service [app/web]. *)
Lemma resourceProfileLabels_cluster_scoped_witness :
  matchesLabels
    (resourceProfileLabels "shardA" "c1" ClusterTypeCapi (trigger [c1] [])
       deletedReport scopedResource)
    (Some (resourceProfileLabels "shardA" "c1" ClusterTypeCapi (trigger [c1] [])
             deletedReport namespacedResource))
  = true.
Proof.
  apply (resourceProfileLabels_cluster_scoped "shardA" "c1" ClusterTypeCapi
           (trigger [c1] []) deletedReport scopedResource namespacedResource);
    vm_compute; reflexivity.
Defined.

(** The stored ClusterProfile of [Scenario.apiWithProfile] gets the new
    spec and keeps its labels. *)
Lemma updateClusterProfileSpec_keeps_labels_witness :
  storedClusterProfiles (server specRun.2)
  = <[ "sveltos-other" :=
         ClusterProfile.mk "sveltos-other" (ClusterProfile.Labels otherProfile)
           newSpec ]> (storedClusterProfiles apiWithProfile).
Proof.
  pose proof (updateClusterProfileSpec_keeps_labels
                (ClusterProfile.mk "sveltos-other" None newSpec)
                (mkMgmt apiWithProfile 0%nat) (ok tt) specRun.2) as Hupdate.
  destruct Hupdate as (current & Hcurrent & Hstored).
  - intros k cp Hl. simpl in Hl.
    apply lookup_singleton_Some in Hl as [<- <-]. reflexivity.
  - vm_compute. reflexivity.
  - simpl in Hcurrent. rewrite lookup_singleton_eq in Hcurrent.
    injection Hcurrent as <-. exact Hstored.
Defined.

(** The removal of [Scenario.removal] sends at most ten requests. *)
Lemma removeClusterInfoEntry_requests_witness :
  (length (faults apiWithTrigger) <= length (faults removal.2) + 10)%nat.
Proof.
  destruct (removeClusterInfoEntry_requests "shardA" "a" ClusterTypeCapi
              storedTrigger apiWithTrigger removal.1 removal.2) as [Hlen _].
  { vm_compute. reflexivity. }
  exact Hlen.
Defined.

End JobRuns.

(** ** The facts on derived objects on the inputs of [PolicyScenario] *)

Section PolicyRuns.
Import Fixture Scenario PolicyFixture PolicyScenario.
#[local] Existing Instance clusterProxy.
#[local] Existing Instance unstructured.
#[local] Existing Instance random.
#[local] Existing Instance policyTemplates.

(** On an empty management cluster the template is instantiated into a
    new ConfigMap of the report namespace, which carries the labels
    with the reference added and the annotations of the template. *)
Lemma instantiateReferencedPolicy_outcome_witness :
  exists name o,
    storedPolicy templateRef (ReportNamespace, name) (server policyRun.2)
    = Some o
    /\ policyNamespace o = ReportNamespace
    /\ policyName o = name
    /\ policyLabels o = Some (Policies.referencedLabels templateRef baseLabels)
    /\ policyAnnotations o = policyAnnotations templateRef.
Proof.
  pose proof (instantiateReferencedPolicy_outcome templateRef "template" data
                baseLabels (mkMgmt emptyApi 0%nat) policyRun.1 policyRun.2
                eq_refl (surjective_pairing policyRun))
    as (_ & _ & _ & _ & Hr).
  assert (match policyRun.1 with ok _ => true | fail _ => false end = true)
    as Hok by (vm_compute; reflexivity).
  destruct policyRun.1 as [[[namespace name] labels']|e]; [|discriminate Hok].
  destruct Hr as (_ & -> & content & o & _ & Ho & Hns & Hname & Hl & _ & Hann & _).
  exists name, o. refine (conj Ho (conj Hns (conj Hname (conj Hl _)))).
  rewrite Hann. simpl. rewrite lookup_empty. reflexivity.
Defined.

(** The template changed; the second run rewrites the ConfigMap of the
    first and draws no name. *)
Lemma instantiateReferencedPolicy_again_witness :
  storedPolicyNames templateRef (server secondRun.2)
  = storedPolicyNames templateRef (server policyRun.2)
  /\ rng secondRun.2 = rng policyRun.2.
Proof.
  assert (exists out, policyRun.1 = ok out) as [out Hout].
  { assert (match policyRun.1 with ok _ => true | fail _ => false end = true)
      as Hok by (vm_compute; reflexivity).
    destruct policyRun.1 as [out|e]; [by exists out|discriminate Hok]. }
  assert (exists out2, secondRun.1 = ok out2) as [out2 Hout2].
  { assert (match secondRun.1 with ok _ => true | fail _ => false end = true)
      as Hok by (vm_compute; reflexivity).
    destruct secondRun.1 as [out2|e]; [by exists out2|discriminate Hok]. }
  assert (instantiatePolicy templateRef "template" data baseLabels
            (mkMgmt emptyApi 0%nat) = (ok out, policyRun.2)) as Hrun1.
  { rewrite <- Hout. apply surjective_pairing. }
  destruct (instantiateReferencedPolicy_again templateRef changedTemplateRef
              "template" "template" data data baseLabels
              (mkMgmt emptyApi 0%nat) out policyRun.2 secondRun.1 secondRun.2
              eq_refl eq_refl eq_refl eq_refl Hrun1
              (surjective_pairing secondRun)) as [Hnames Hsame].
  destruct (Hsame _ Hout2) as [_ Hrng]. exact (conj Hnames Hrng).
Defined.

(** The Secret is not a template: it is referenced as it is. *)
Lemma instantiateResources_plain_witness :
  plainRun
  = (ok (list_to_set [plainReference plainRef], baseLabels),
     mkMgmt emptyApi 0%nat).
Proof.
  apply (instantiateResources_plain "template" [plainRef] data baseLabels
           (mkMgmt emptyApi 0%nat)).
  repeat constructor.
Defined.

(** The template and the Secret: the labels end with the namespace and
    the name of the template. *)
Lemma instantiateResources_labels_witness :
  exists refs,
    mixedRun.1
    = ok (refs, Policies.referencedLabels templateRef baseLabels).
Proof.
  pose proof (instantiateResources_labels "template" [templateRef; plainRef]
                data baseLabels (mkMgmt emptyApi 0%nat)
                mixedRun.1 mixedRun.2 (surjective_pairing mixedRun))
    as [_ Hr].
  assert (match mixedRun.1 with ok _ => true | fail _ => false end = true)
    as Hok by (vm_compute; reflexivity).
  destruct mixedRun.1 as [[refs labels']|e]; [|discriminate Hok].
  destruct Hr as [-> _]. exists refs. reflexivity.
Defined.

End PolicyRuns.
